(** * Dream Oracle: a shallow embedding of [dream_oracle.py]

    The development follows the source file function by function:
    - [Py]: the Python values the program handles (strings, the result of
      [json.loads], exceptions) and the operations it calls on them;
    - [Executor]: [make_api_request], the retry loop around [urlopen];
    - [Interpreter]: [parse_generation_response];
    - [Journal]: [typing_effect], [sanitize_text], [save_dream],
      [view_journal], [clear_journal];
    - [Oracle]: [build_prompt], [get_ai_interpretation];
    - [Session]: [get_api_key], [main_menu], [main].

    A Python [str] is a list of code points.  The network, the clock, the
    keyboard and the file system are inputs of the functions; what the
    program prints, and its calls of [time.sleep], are returned as a list
    of events next to the result.  Standard output encodes as UTF-8,
    and so a [print] of a text that holds a surrogate raises; the lines
    that [input] returns are given as they were decoded. *)

From Stdlib Require Import String Ascii List NArith ZArith QArith Lia Bool Arith.
From Stdlib Require Import DecimalString.
Import ListNotations.

Set Warnings "-register-all".

Close Scope Q_scope.
Open Scope list_scope.

(** ** Python values and exceptions *)

Module Py.

(** A character is its code point; [u "abc"] is the [str] written
    ['abc'] in the source. *)
Definition char : Type := N.
Definition str : Type := list char.

Definition u (s : string) : str := map N_of_ascii (list_ascii_of_string s).

(** The line feed, written [\n] in the source. *)
Definition nl : str := [10%N].

Fixpoint str_eqb (a b : str) : bool :=
  match a, b with
  | [], [] => true
  | x :: a', y :: b' => (x =? y)%N && str_eqb a' b'
  | _, _ => false
  end.

(** A Python [float] as [json.loads] can build it. *)
Inductive pyfloat :=
| Finite (q : Q)
| Infinity (negative : bool)
| NaN.

(** The values [json.loads] returns.  A [dict] is kept as the list of its
    items; [dict_get] finds the value bound to a key. *)
Inductive pyval :=
| PNone
| PBool (b : bool)
| PInt (n : Z)
| PFloat (f : pyfloat)
| PStr (s : str)
| PList (items : list pyval)
| PDict (items : list (str * pyval)).

(** An exception object: its class and what [str(e)] gives. *)
Record pyexc := Exc { exc_class : str; exc_text : str }.

Definition RuntimeError (msg : str) : pyexc := Exc (u "RuntimeError") msg.
Definition TypeError (msg : str) : pyexc := Exc (u "TypeError") msg.
Definition IndexError (msg : str) : pyexc := Exc (u "IndexError") msg.
Definition KeyError (msg : str) : pyexc := Exc (u "KeyError") msg.
Definition AttributeError (msg : str) : pyexc := Exc (u "AttributeError") msg.

(** The outcome of a call: a value, or a raised exception. *)
Inductive result (A : Type) :=
| Returned (v : A)
| Raised (e : pyexc).
Arguments Returned {A} v.
Arguments Raised {A} e.

Definition bind {A B} (r : result A) (k : A -> result B) : result B :=
  match r with
  | Returned v => k v
  | Raised e => Raised e
  end.

Notation "x <- r ;; k" := (bind r (fun x => k))
  (at level 61, r at next level, right associativity).

(** [type(v).__name__] *)
Definition type_name (v : pyval) : str :=
  match v with
  | PNone => u "NoneType"
  | PBool _ => u "bool"
  | PInt _ => u "int"
  | PFloat _ => u "float"
  | PStr _ => u "str"
  | PList _ => u "list"
  | PDict _ => u "dict"
  end.

(** [bool(v)]: the truth value an [if] tests. *)
Definition truthy (v : pyval) : bool :=
  match v with
  | PNone => false
  | PBool b => b
  | PInt n => negb (n =? 0)%Z
  | PFloat (Finite q) => negb (Qnum q =? 0)%Z
  | PFloat _ => true
  | PStr s => match s with [] => false | _ => true end
  | PList l => match l with [] => false | _ => true end
  | PDict d => match d with [] => false | _ => true end
  end.

(** [v == s] for a string literal [s]. *)
Definition eq_str (v : pyval) (s : str) : bool :=
  match v with
  | PStr t => str_eqb t s
  | _ => false
  end.

Fixpoint dict_get (d : list (str * pyval)) (key : str) : option pyval :=
  match d with
  | [] => None
  | (k, v) :: rest => if str_eqb k key then Some v else dict_get rest key
  end.

(** [v.get(key, default)]: only a [dict] has the method. *)
Definition get (v : pyval) (key : str) (default : pyval) : result pyval :=
  match v with
  | PDict d =>
      match dict_get d key with
      | Some x => Returned x
      | None => Returned default
      end
  | _ => Raised (AttributeError
                   (u "'" ++ type_name v ++ u "' object has no attribute 'get'"))
  end.

(** [v[0]].  The keys of a [dict] built by [json.loads] are strings, so
    the key [0] is never found. *)
Definition index0 (v : pyval) : result pyval :=
  match v with
  | PList (x :: _) => Returned x
  | PList [] => Raised (IndexError (u "list index out of range"))
  | PStr (c :: _) => Returned (PStr [c])
  | PStr [] => Raised (IndexError (u "string index out of range"))
  | PDict _ => Raised (KeyError (u "0"))
  | _ => Raised (TypeError
                   (u "'" ++ type_name v ++ u "' object is not subscriptable"))
  end.

(** [str(n)] for a natural number. *)
Definition str_of_nat (n : nat) : str :=
  u (NilEmpty.string_of_uint (Nat.to_uint n)).

(** Standard output encodes what it is given as UTF-8: a surrogate
    (U+D800 to U+DFFF) cannot be encoded, and writing a text that holds
    one raises [UnicodeEncodeError].  [encode_error text] is that
    exception, or [None] when the text can be written. *)
Definition surrogate (c : char) : bool := ((55296 <=? c) && (c <=? 57343))%N.

Definition hex_digit (n : N) : char := (if n <? 10 then 48 + n else 87 + n)%N.

Definition hex4 (c : char) : str :=
  [hex_digit (c / 4096 mod 16); hex_digit (c / 256 mod 16);
   hex_digit (c / 16 mod 16); hex_digit (c mod 16)]%N.

Fixpoint surrogates_at_start (text : str) : nat :=
  match text with
  | c :: rest => if surrogate c then S (surrogates_at_start rest) else 0
  | [] => 0
  end.

Definition UnicodeEncodeError (c : char) (position others : nat) : pyexc :=
  Exc (u "UnicodeEncodeError")
    (match others with
     | 0 =>
         u "'utf-8' codec can't encode character '\u" ++ hex4 c
           ++ u "' in position " ++ str_of_nat position
           ++ u ": surrogates not allowed"
     | _ =>
         u "'utf-8' codec can't encode characters in position "
           ++ str_of_nat position ++ u "-" ++ str_of_nat (position + others)
           ++ u ": surrogates not allowed"
     end).

Fixpoint encode_error_from (position : nat) (text : str) : option pyexc :=
  match text with
  | [] => None
  | c :: rest =>
      if surrogate c then
        Some (UnicodeEncodeError c position (surrogates_at_start rest))
      else encode_error_from (S position) rest
  end.

Definition encode_error (text : str) : option pyexc :=
  encode_error_from 0 text.

Definition printable (text : str) : bool :=
  forallb (fun c => negb (surrogate c)) text.

(** [sub in s] *)
Definition contains (s sub : str) : Prop :=
  exists before after, s = before ++ sub ++ after.

End Py.

(** ** Terminal colours (class [Colors]) *)

Module Colors.
Import Py.

(** [\033] *)
Definition ESC : str := [27%N].

Definition MAGENTA : str := ESC ++ u "[95m".
Definition CYAN : str := ESC ++ u "[96m".
Definition GREEN : str := ESC ++ u "[92m".
Definition YELLOW : str := ESC ++ u "[93m".
Definition RED : str := ESC ++ u "[91m".
Definition BLUE : str := ESC ++ u "[94m".
Definition ENDC : str := ESC ++ u "[0m".
Definition BOLD : str := ESC ++ u "[1m".

End Colors.

(** ** The request executor: [make_api_request] *)

Module Executor.
Import Py.

Definition MAX_RETRIES : nat := 3.

(** What one pass through the [try] block meets: [urlopen] returns a 2xx
    response whose body is read and decoded, or an exception is raised.
    [HTTPError] is the server answering with an error status, with a
    body that the handler reads: it carries [e.reason] and what
    [e.read().decode('utf-8')] returns.  [HTTPErrorUnreadable] is the
    server answering with an error status and a body that the handler
    cannot read (it is not UTF-8, or the connection breaks): it carries
    [e.reason] and the exception that [e.read().decode('utf-8')] raises.
    [URLError] is the server not being reached (it carries
    [str(e.reason)]); [OtherException] is any other [Exception] raised
    before [json.loads] is called.  The texts that come with these
    outcomes were decoded from UTF-8 or are messages of the system, and
    standard output can show them. *)
Inductive attempt_outcome :=
| Response (body : str)
| HTTPError (reason : str) (error_body : str)
| URLError (reason : str)
| OtherException (e : pyexc)
| HTTPErrorUnreadable (reason : str) (e : pyexc).

Inductive event :=
| Urlopen (attempt : nat)
| Printed (line : str)
| Sleep (seconds : nat).

(** How an iteration of the [for] loop ends: [return], [break], the
    next iteration, or an exception raised inside a handler, which
    leaves the function. *)
Inductive control :=
| Return (v : pyval)
| Break (last_exception : pyexc)
| Continue (last_exception : pyexc)
| Escape (e : pyexc).

(** The lines the three handlers print. *)
Definition http_line (error_body : str) : str :=
  Colors.RED ++ u "API HTTPError: " ++ error_body ++ Colors.ENDC.

Definition network_line (attempt : nat) (reason : str) : str :=
  Colors.YELLOW ++ u "Network Error (Attempt " ++ str_of_nat (attempt + 1)
    ++ u "): " ++ reason ++ u ". Retrying..." ++ Colors.ENDC.

Definition unexpected_line (attempt : nat) (e : pyexc) : str :=
  Colors.RED ++ u "Unexpected Error (Attempt " ++ str_of_nat (attempt + 1)
    ++ u "): " ++ exc_text e ++ u ". Retrying..." ++ Colors.ENDC.

(** The two handlers that retry end the same way: print, record the
    error, sleep. *)
Definition retry_after (attempt : nat) (line : str) (msg : str)
  : list event * control :=
  ([Printed line; Sleep (2 * (attempt + 1))], Continue (RuntimeError msg)).

(** [raise last_exception]: raising [None] is itself a [TypeError]. *)
Definition raise_last (last_exception : option pyexc) : result pyval :=
  match last_exception with
  | Some e => Raised e
  | None => Raised (TypeError (u "exceptions must derive from BaseException"))
  end.

Section WithNetwork.

(** [json.loads]: the parsed value, or the exception it raises. *)
Variable json_loads : str -> result pyval.

(** The reply of the network to the call of [urlopen] made in iteration
    [attempt]; the request and the timeout are the same in all of them. *)
Variable urlopen : nat -> attempt_outcome.

(** The body of the [for] loop: the [try] block and its three handlers. *)
Definition attempt_body (attempt : nat) : list event * control :=
  let unexpected (e : pyexc) :=
    retry_after attempt (unexpected_line attempt e)
      (u "Unexpected error: " ++ exc_text e) in
  match urlopen attempt with
  | Response body =>
      match json_loads body with
      | Returned v => ([], Return v)
      | Raised e => unexpected e
      end
  | HTTPError reason error_body =>
      ([Printed (http_line error_body)],
       Break (RuntimeError (u "API Error: " ++ reason)))
  | URLError reason =>
      retry_after attempt (network_line attempt reason)
        (u "Network Error: " ++ reason)
  | OtherException e => unexpected e
  | HTTPErrorUnreadable reason e => ([], Escape e)
  end.

(** The [for] loop over the attempts still to make, followed by the
    [raise] after it. *)
Fixpoint retry_loop (attempts : list nat) (last_exception : option pyexc)
  : list event * result pyval :=
  match attempts with
  | [] => ([], raise_last last_exception)
  | attempt :: rest =>
      let (out, c) := attempt_body attempt in
      match c with
      | Return v => (Urlopen attempt :: out, Returned v)
      | Break e => (Urlopen attempt :: out, raise_last (Some e))
      | Escape e => (Urlopen attempt :: out, Raised e)
      | Continue e =>
          let (out', r) := retry_loop rest (Some e) in
          (Urlopen attempt :: out ++ out', r)
      end
  end.

(** The loop for [range(max_retries)]. *)
Definition request_with (max_retries : nat) : list event * result pyval :=
  retry_loop (seq 0 max_retries) None.

Definition make_api_request : list event * result pyval :=
  request_with MAX_RETRIES.

(** The iterations that end in one of the two retrying handlers, with
    the line they print and the message they record. *)
Definition retried (attempt : nat) : option (str * str) :=
  match urlopen attempt with
  | Response body =>
      match json_loads body with
      | Returned _ => None
      | Raised e =>
          Some (unexpected_line attempt e, u "Unexpected error: " ++ exc_text e)
      end
  | HTTPError _ _ => None
  | URLError reason =>
      Some (network_line attempt reason, u "Network Error: " ++ reason)
  | OtherException e =>
      Some (unexpected_line attempt e, u "Unexpected error: " ++ exc_text e)
  | HTTPErrorUnreadable _ _ => None
  end.

(** What a retried iteration adds to the run, and the exception that is
    on record once the iterations [attempts] have all been retried. *)
Definition retry_events (attempt : nat) : list event :=
  match retried attempt with
  | Some (line, _) => [Urlopen attempt; Printed line; Sleep (2 * (attempt + 1))]
  | None => []
  end.

Definition recorded (attempts : list nat) (last_exception : option pyexc)
  : option pyexc :=
  fold_left
    (fun acc attempt =>
       match retried attempt with
       | Some (_, msg) => Some (RuntimeError msg)
       | None => acc
       end)
    attempts last_exception.

End WithNetwork.

(** No response was received: the server was not reached, or something
    else went wrong before a body could be parsed. *)
Definition connection_failure (o : attempt_outcome) : Prop :=
  match o with
  | URLError _ | OtherException _ => True
  | _ => False
  end.

(** The message of the [RuntimeError] recorded for a connection
    failure. *)
Definition failure_message (o : attempt_outcome) : str :=
  match o with
  | URLError reason => u "Network Error: " ++ reason
  | OtherException e => u "Unexpected error: " ++ exc_text e
  | _ => []
  end.

(** The calls of [urlopen], the calls of [time.sleep], and both in the
    order they are made. *)
Definition attempts_made (out : list event) : list nat :=
  flat_map (fun ev => match ev with Urlopen k => [k] | _ => [] end) out.

Definition sleeps (out : list event) : list nat :=
  flat_map (fun ev => match ev with Sleep s => [s] | _ => [] end) out.

Definition without_prints (out : list event) : list event :=
  filter (fun ev => match ev with Printed _ => false | _ => true end) out.

(** [msg] starts with [prefix]. *)
Definition starts_with (prefix msg : str) : Prop :=
  exists rest, msg = prefix ++ rest.

(** A network that fails twice and then answers with the empty object. *)
Definition third_time_lucky (attempt : nat) : attempt_outcome :=
  match attempt with
  | 0 => URLError (u "timed out")
  | 1 => OtherException (Exc (u "ConnectionResetError")
                           (u "[Errno 104] Connection reset by peer"))
  | _ => Response (u "{}")
  end.

(** A network that fails once and is then refused by the server. *)
Definition refused_at_second (attempt : nat) : attempt_outcome :=
  match attempt with
  | 0 => URLError (u "timed out")
  | _ => HTTPError (u "Too Many Requests") (u "quota exceeded")
  end.

(** Sample environments, for the examples: a [json.loads] that only
    knows the empty object, a network that always times out, a server
    that refuses the key, and one that answers with a page that is not
    JSON. *)
Definition json_loads_sample (body : str) : result pyval :=
  if str_eqb body (u "{}") then Returned (PDict [])
  else Raised (Exc (u "JSONDecodeError")
                 (u "Expecting value: line 1 column 1 (char 0)")).

Definition timed_out (attempt : nat) : attempt_outcome :=
  URLError (u "timed out").

Definition forbidden (attempt : nat) : attempt_outcome :=
  HTTPError (u "Forbidden") (u "API key not valid").

Definition not_json (attempt : nat) : attempt_outcome :=
  Response (u "<html>").

(** A gateway that answers 502 with the one byte [0xff]. *)
Definition INVALID_START_BYTE : pyexc :=
  Exc (u "UnicodeDecodeError")
    (u "'utf-8' codec can't decode byte 0xff in position 0: invalid start byte").

Definition bad_gateway (attempt : nat) : attempt_outcome :=
  HTTPErrorUnreadable (u "Bad Gateway") INVALID_START_BYTE.

End Executor.

(** ** The response interpreter: [parse_generation_response] *)

Module Interpreter.
Import Py.

Inductive event :=
| Printed (line : str).

Definition MSG_CUT_SHORT : str :=
  u "The Oracle's vision was too vast and was cut short. (MAX_TOKENS).".

Definition MSG_UNCLEAR : str :=
  u "The Oracle spoke, but the vision was unclear (could not parse text).".

Definition MSG_CRITICAL : str :=
  u "A critical error occurred while parsing the Oracle's response.".

Definition msg_blocked (finish_reason : str) : str :=
  u "The Oracle's vision was blocked by: " ++ finish_reason ++ u ".".

(** [print(line)] for a line made of fixed text and of [f"{v}"].  The
    fixed text can be encoded; so can what an f-string shows of a value
    that is not a [str], because [repr] escapes the surrogates; a [str]
    is shown as it is, and the print raises if it holds a surrogate. *)
Definition print_with (v : pyval) (line : str) : result event :=
  match v with
  | PStr _ =>
      match encode_error line with
      | None => Returned (Printed line)
      | Some e => Raised e
      end
  | _ => Returned (Printed line)
  end.

Section WithRepr.

(** [repr(v)], which is what an f-string shows of a value that is not a
    [str]. *)
Variable repr : pyval -> str.

(** [f"{v}"] *)
Definition to_str (v : pyval) : str :=
  match v with
  | PStr s => s
  | _ => repr v
  end.

(** The lines of [print(f"...{finish_reason}...")] (l.111) and of
    [print(f"Raw Response: {response}")] (l.126). *)
Definition warning_line (finish_reason : pyval) : str :=
  Colors.YELLOW ++ u "Warning: Response stopped due to "
    ++ to_str finish_reason ++ Colors.ENDC.

Definition raw_line (response : pyval) : str :=
  u "Raw Response: " ++ to_str response.

(** The [try] block. *)
Definition try_block (response : pyval) : result (list event * pyval) :=
  candidates <- get response (u "candidates") (PList []) ;;
  candidate <- index0 candidates ;;
  finish_reason <- get candidate (u "finishReason") PNone ;;
  if truthy finish_reason && negb (eq_str finish_reason (u "STOP")) then
    warning <- print_with finish_reason (warning_line finish_reason) ;;
    if eq_str finish_reason (u "MAX_TOKENS") then
      Returned ([warning], PStr MSG_CUT_SHORT)
    else
      Returned ([warning], PStr (msg_blocked (to_str finish_reason)))
  else
    content <- get candidate (u "content") (PDict []) ;;
    parts <- get content (u "parts") (PList []) ;;
    part <- index0 parts ;;
    text <- get part (u "text") PNone ;;
    if truthy text then Returned ([], text)
    else Returned ([], PStr MSG_UNCLEAR).

(** The line the handler prints first; the message of an exception
    raised in the [try] block can be encoded. *)
Definition error_line (e : pyexc) : event :=
  Printed (Colors.RED ++ u "Error parsing response: " ++ exc_text e
             ++ Colors.ENDC).

(** The function: the [try] block and its [except Exception] handler.
    The result is what is printed, and the value returned or the
    exception that the handler itself raises. *)
Definition parse_generation_response (response : pyval)
  : list event * result pyval :=
  match try_block response with
  | Returned (out, answer) => (out, Returned answer)
  | Raised e =>
      match print_with response (raw_line response) with
      | Returned raw_line =>
          ([error_line e; raw_line], Returned (PStr MSG_CRITICAL))
      | Raised e' => ([error_line e], Raised e')
      end
  end.

End WithRepr.

(** Paths into a response, for the statements: the value of a key of
    an object, the first item of a list, [candidates[0]] of a response
    and [content.parts[0]] of a candidate.  They are [None] when the
    object, the key, the list or the item is not there. *)
Definition field (v : pyval) (key : str) : option pyval :=
  match v with
  | PDict d => dict_get d key
  | _ => None
  end.

Definition first (v : pyval) : option pyval :=
  match v with
  | PList (x :: _) => Some x
  | _ => None
  end.

Definition candidate0 (response : pyval) : option pyval :=
  match field response (u "candidates") with
  | Some candidates => first candidates
  | None => None
  end.

Definition part0 (candidate : pyval) : option pyval :=
  match field candidate (u "content") with
  | Some content =>
      match field content (u "parts") with
      | Some parts => first parts
      | None => None
      end
  | None => None
  end.

(** The candidate is an object whose [finishReason] is absent or is
    ["STOP"]. *)
Definition finished_normally (candidate : pyval) : Prop :=
  exists d, candidate = PDict d /\
    (dict_get d (u "finishReason") = None \/
     dict_get d (u "finishReason") = Some (PStr (u "STOP"))).

(** [isinstance(v, str) and v != ''] *)
Definition nonempty_string (v : pyval) : bool :=
  match v with
  | PStr (_ :: _) => true
  | _ => false
  end.

(** A [repr] that only names the type of the value; the results
    evaluated below do not go through it. *)
Definition repr_type (v : pyval) : str :=
  u "<" ++ type_name v ++ u ">".

(** [{"candidates": [candidate]}] *)
Definition response_of (candidate : pyval) : pyval :=
  PDict [(u "candidates", PList [candidate])].

(** [{"candidates": [{"content": {"parts": [{"text": 42}]}}]}] *)
Definition response_number_text : pyval :=
  response_of
    (PDict [(u "content",
             PDict [(u "parts", PList [PDict [(u "text", PInt 42)]])])]).

(** [{"finishReason": "STOP", "content": {"parts": []}}], and the
    response with this one candidate. *)
Definition candidate_empty_parts : pyval :=
  PDict [(u "finishReason", PStr (u "STOP"));
         (u "content", PDict [(u "parts", PList [])])].

Definition response_empty_parts : pyval := response_of candidate_empty_parts.

(** [{"finishReason": reason, "content": {"parts": [{"text": text}]}}] *)
Definition candidate_with (reason text : str) : pyval :=
  PDict [(u "finishReason", PStr reason);
         (u "content", PDict [(u "parts", PList [PDict [(u "text", PStr text)]])])].

Definition OCEAN : str :=
  u "The ocean is the unconscious; flight is liberation.".

(** The high surrogate U+D800 alone, as [json.loads] builds it from the
    six characters [\ud800] between quotes. *)
Definition LONE_SURROGATE : str := [55296%N].

End Interpreter.

(** ** The journal: [sanitize_text], [save_dream], [view_journal],
    [clear_journal] *)

Module Journal.
Import Py.

Definition JOURNAL_FILE : str := u "dream_journal.txt".

Inductive event :=
| Flushed (text : str)      (* [print(text, end='', flush=True)] *)
| Printed (line : str)
| Pause (delay : Q)       (* [time.sleep(delay)] *)
| Input (prompt : str)      (* [input(prompt)] is called *)
| Entered (line : str).     (* and returns the line that was typed *)

(** The file system as the program sees it: the text of
    [JOURNAL_FILE] as it was written, or [None] when the file does not
    exist. *)
Definition journal : Type := option str.

(** The [for] loop of [typing_effect]: it stops at the first character
    that standard output cannot encode, with the exception of that
    [print]. *)
Fixpoint typing_chars (text : str) (delay : Q) (color : str)
  : list event * result unit :=
  match text with
  | [] => ([], Returned tt)
  | c :: rest =>
      match encode_error (color ++ [c]) with
      | Some e => ([], Raised e)
      | None =>
          let (out, r) := typing_chars rest delay color in
          (Flushed (color ++ [c]) :: Pause delay :: out, r)
      end
  end.

(** [typing_effect], for a [text] that is a [str]: what it puts on the
    screen, and how it ends. *)
Definition typing_effect (text : str) (delay : Q) (color : str)
  : list event * result unit :=
  match typing_chars text delay color with
  | (out, Returned _) => (out ++ [Printed Colors.ENDC], Returned tt)
  | (out, Raised e) => (out, Raised e)
  end.

(** What [typing_effect] does when every character can be shown. *)
Definition typing_all (text : str) (delay : Q) (color : str) : list event :=
  flat_map (fun c => [Flushed (color ++ [c]); Pause delay]) text
    ++ [Printed Colors.ENDC].

(** [typing_effect] for one of the messages of the source, which are
    literals that standard output can encode: the call returns, and
    this is what it shows. *)
Definition typing_message (text : str) (delay : Q) (color : str)
  : list event :=
  fst (typing_effect text delay color).

(** Reading in text mode (l.195, [newline] left to its default)
    translates the ends of lines: ["\r\n"] and a lone ["\r"] both
    come back as ["\n"].  [after_cr] tells that the character before
    was a carriage return. *)
Fixpoint newlines_from (after_cr : bool) (text : str) : str :=
  match text with
  | [] => []
  | c :: rest =>
      if (c =? 13)%N then 10%N :: newlines_from true rest
      else if (c =? 10)%N && after_cr then newlines_from false rest
      else c :: newlines_from false rest
  end.

Definition universal_newlines (text : str) : str := newlines_from false text.

(** [str.isspace] on one character: the white space [str.strip] removes. *)
Definition is_space (c : char) : bool :=
  ((9 <=? c) && (c <=? 13) || (28 <=? c) && (c <=? 32)
   || (c =? 133) || (c =? 160) || (c =? 5760)
   || (8192 <=? c) && (c <=? 8202) || (c =? 8232) || (c =? 8233)
   || (c =? 8239) || (c =? 8287) || (c =? 12288))%N.

(** [text.replace('\x00', '')] *)
Definition remove_nul (text : str) : str :=
  filter (fun c => negb (c =? 0)%N) text.

Fixpoint lstrip (text : str) : str :=
  match text with
  | [] => []
  | c :: rest => if is_space c then lstrip rest else text
  end.

Definition rstrip (text : str) : str := rev (lstrip (rev text)).

(** [text.strip()] *)
Definition strip (text : str) : str := rstrip (lstrip text).

Definition sanitize_text (text : str) : str := strip (remove_nul text).

(** ['=' * 60] and ['-' * 60] *)
Definition SEPARATOR : str := repeat 61%N 60.
Definition DASHES : str := repeat 45%N 60.

(** The block [save_dream] writes, from the sanitized texts. *)
Definition entry (timestamp dream interpretation : str) : str :=
  u "Time: " ++ timestamp ++ nl
    ++ u "Dream: " ++ dream ++ nl ++ nl
    ++ u "Interpretation:" ++ nl ++ interpretation ++ nl
    ++ SEPARATOR ++ nl ++ nl.

(** What happens in the [try] block of [save_dream]: the entry is
    appended, or an exception is raised and the file is left in some
    state. *)
Inductive write_outcome :=
| Written
| WriteFailed (e : pyexc) (left_as : journal).

Definition save_dream (timestamp : str) (io : write_outcome)
    (dream interpretation : str) (file : journal) : list event * journal :=
  let dream := sanitize_text dream in
  let interpretation := sanitize_text interpretation in
  let entry := entry timestamp dream interpretation in
  match io with
  | Written =>
      (typing_message (u "Your dream has been etched into memory.")
         (2 # 100)%Q Colors.GREEN,
       match file with
       | Some content => Some (content ++ entry)
       | None => Some entry
       end)
  | WriteFailed e left_as =>
      ([Printed (Colors.RED ++ u "Failed to save dream: " ++ exc_text e
                 ++ Colors.ENDC)],
       left_as)
  end.

(** What happens in the [try] block of [view_journal]. *)
Inductive read_outcome :=
| ReadOk
| OpenFailed (e : pyexc)
| ReadFailed (e : pyexc).

(** The scroll, U+1F4DC. *)
Definition SCROLL : str := [128220%N].

Definition journal_header : str :=
  nl ++ Colors.BOLD ++ Colors.MAGENTA ++ SCROLL ++ u " Your Dream Journal "
    ++ SCROLL ++ Colors.ENDC.

Definition cannot_read (e : pyexc) : event :=
  Printed (Colors.RED ++ u "Could not read the journal file: " ++ exc_text e
           ++ Colors.ENDC).

Definition MSG_EMPTY : str :=
  u "Your dream journal is empty. Time to start dreaming!".

(** With [ReadOk] the file is read, in text mode; the [print] of what
    was read is inside the [try], so that an exception of its encoding
    would be caught as well. *)
Definition view_journal (io : read_outcome) (file : journal) : list event :=
  match file with
  | None => typing_message MSG_EMPTY (2 # 100)%Q Colors.YELLOW
  | Some content =>
      let rule := Printed (Colors.BLUE ++ DASHES ++ Colors.ENDC) in
      match io with
      | OpenFailed e => [cannot_read e]
      | ReadFailed e => [Printed journal_header; rule; cannot_read e]
      | ReadOk =>
          let page :=
            Colors.CYAN ++ universal_newlines content ++ Colors.ENDC in
          match encode_error page with
          | None => [Printed journal_header; rule; Printed page; rule]
          | Some e => [Printed journal_header; rule; cannot_read e]
          end
      end
  end.

Definition clear_prompt : str :=
  Colors.YELLOW ++ u "Are you sure you want to erase all saved dreams? "
    ++ u "This cannot be undone. (y/n): " ++ Colors.ENDC.

Section WithLower.

(** [str.lower] *)
Variable lower : str -> str.

(** [answer] is the line typed at the prompt; [io] is the exception
    [os.remove] raises, if it does. *)
Definition clear_journal (answer : str) (io : option pyexc) (file : journal)
  : list event * journal :=
  match file with
  | None =>
      (typing_message (u "No journal found to clear.") (2 # 100)%Q
         Colors.YELLOW,
       file)
  | Some _ =>
      let confirm := lower answer in
      if str_eqb confirm (u "y") then
        match io with
        | None =>
            (Input clear_prompt :: Entered answer ::
             typing_message
               (u "The old memories have faded into mist. Your journal is clear.")
               (2 # 100)%Q Colors.RED,
             None)
        | Some e =>
            ([Input clear_prompt; Entered answer;
              Printed (Colors.RED ++ u "Failed to clear journal: " ++ exc_text e
                       ++ Colors.ENDC)],
             file)
        end
      else
        (Input clear_prompt :: Entered answer ::
         typing_message (u "The journal remains untouched.") (2 # 100)%Q
           Colors.GREEN,
         file)
  end.

End WithLower.

(** [str.lower] on the letters A to Z, which is all the confirmation
    [clear_journal] compares with needs. *)
Definition lower_ascii (s : str) : str :=
  map (fun c => if ((65 <=? c) && (c <=? 90))%N then (c + 32)%N else c) s.

(** The text does not start with white space. *)
Definition starts_clean (text : str) : Prop :=
  match text with
  | [] => True
  | c :: _ => is_space c = false
  end.

(** The text has no NUL and no white space at either end. *)
Definition sanitized (text : str) : bool :=
  forallb (fun c => negb (c =? 0)%N) text
  && match text with [] => true | c :: _ => negb (is_space c) end
  && match rev text with [] => true | c :: _ => negb (is_space c) end.

(** What [typing_effect] puts on the screen, character by character:
    the texts it flushes, without the colour each one starts with. *)
Definition typed (color : str) (out : list event) : str :=
  flat_map
    (fun ev =>
       match ev with
       | Flushed text => skipn (length color) text
       | _ => []
       end)
    out.


Definition asks (out : list event) : list str :=
  flat_map (fun ev => match ev with Input prompt => [prompt] | _ => [] end) out.

(** A character that [sanitize_text] drops wherever it stands alone. *)
Definition blank (c : char) : bool := (c =? 0)%N || is_space c.

(** The text has no carriage return in it. *)
Definition no_carriage_return (text : str) : bool :=
  forallb (fun c => negb (c =? 13)%N) text.

(** The text of the file, empty when there is no file. *)
Definition text_of (file : journal) : str :=
  match file with Some content => content | None => [] end.

(** The line between two entries, as it is in the file. *)
Definition SIXTY_EQUALS : str :=
  u "============================================================".

(** What [view_journal] prints when it shows [page]. *)
Definition shows (page : str) : list event :=
  [Printed journal_header;
   Printed (Colors.BLUE ++ DASHES ++ Colors.ENDC);
   Printed (Colors.CYAN ++ page ++ Colors.ENDC);
   Printed (Colors.BLUE ++ DASHES ++ Colors.ENDC)].

(** An interpretation in two lines, the first ended the way of
    Windows and of HTTP. *)
Definition TWO_LINES : str :=
  u "The ocean is the unconscious;" ++ [13; 10]%N ++ u "flight is liberation.".

End Journal.

(** ** The call of the API: [build_prompt], [get_ai_interpretation] *)

Module Oracle.
Import Py.

Definition API_BASE_URL : str :=
  u "https://generativelanguage.googleapis.com/v1beta".
Definition MODEL_ID : str := u "gemini-flash-latest".
Definition API_TIMEOUT : nat := 45.
Definition MAX_OUTPUT_TOKENS : Z := 2048.
Definition GENERATION_TEMPERATURE : pyfloat := Finite (8 # 10)%Q.

Definition system_prompt : str :=
  u "You are the Dream Oracle. Your persona is a blend of the Attack Titan and Sir Nighteye. "
  ++ u "You see the core truth of the dream, a future path, and you will state it plainly. "
  ++ u "You are not here to comfort. You are here to reveal the **facts** you have seen."
  ++ nl ++ nl
  ++ u "1.  **Your Viewpoint:** Be cutthroat, honest, and factual. Find the central truth. Do not sugar-coat it."
  ++ nl
  ++ u "2.  **Your Presentation:** Be artistic, poetic, and melodramatic. Present the hard truth in a grand, impactful style. Use clear, powerful words, not overly complex ones."
  ++ nl
  ++ u "3.  **Your Knowledge:** Ground your interpretation in real-world symbology. Casually reference what a symbol (like 'water' or 'falling') means in psychology or across different cultures/religions to prove your point."
  ++ nl ++ nl
  ++ u "Start by declaring the core truth you've seen. End with a sharp, profound statement that forces the user to confront this reality.".

Definition build_prompt (dream_description : str) : str :=
  system_prompt ++ nl ++ nl ++ u "Here is the dream you must analyze:" ++ nl
    ++ dream_description.

(** The request [make_api_request] builds and hands to [urlopen]; [data]
    is the value that [json.dumps] turns into the body. *)
Record request := Request {
  url : str;
  data : pyval;
  headers : list (str * str);
  method : str;
  timeout : nat
}.

Definition request_of (url api_key method : str) (data : pyval) : request :=
  Request url data
    [(u "Content-Type", u "application/json"); (u "x-goog-api-key", api_key)]
    method API_TIMEOUT.

Definition payload (dream_description : str) : pyval :=
  PDict
    [(u "contents",
      PList
        [PDict
           [(u "role", PStr (u "user"));
            (u "parts",
             PList [PDict [(u "text", PStr (build_prompt dream_description))]])]]);
     (u "generationConfig",
      PDict
        [(u "temperature", PFloat GENERATION_TEMPERATURE);
         (u "maxOutputTokens", PInt MAX_OUTPUT_TOKENS)])].

(** What the program does, whoever does it: the executor, the
    interpreter, or the code that talks to the user. *)
Inductive event :=
| Net (e : Executor.event)
| Parse (e : Interpreter.event)
| Ui (e : Journal.event).

Definition MSG_SILENT : str := u "The Oracle is silent. ".

Section WithWorld.

Variable json_loads : str -> result pyval.
Variable repr : pyval -> str.

(** The replies of the network to a request, attempt by attempt. *)
Variable network : request -> nat -> Executor.attempt_outcome.

(** The handler of [except Exception as e] (l.155-157): its line, and
    the value it returns. *)
Definition call_failed : event :=
  Ui (Journal.Printed
        (Colors.RED ++ u "API call failed after all retries." ++ Colors.ENDC)).

Definition silent (e : pyexc) : pyval := PStr (MSG_SILENT ++ exc_text e).

(** Both calls are in the [try] block: the handler takes what
    [make_api_request] raises and what [parse_generation_response]
    raises. *)
Definition get_ai_interpretation (dream_description api_key : str)
  : list event * pyval :=
  let url := API_BASE_URL ++ u "/models/" ++ MODEL_ID ++ u ":generateContent" in
  let payload := payload dream_description in
  let (sent, r) :=
    Executor.make_api_request json_loads
      (network (request_of url api_key (u "POST") payload)) in
  match r with
  | Returned response =>
      match Interpreter.parse_generation_response repr response with
      | (shown, Returned answer) => (map Net sent ++ map Parse shown, answer)
      | (shown, Raised e) =>
          (map Net sent ++ map Parse shown ++ [call_failed], silent e)
      end
  | Raised e => (map Net sent ++ [call_failed], silent e)
  end.

End WithWorld.

(** The events of the executor in a run, and its calls of [urlopen]
    and of [time.sleep] among them. *)
Definition net_events (out : list event) : list Executor.event :=
  flat_map (fun ev => match ev with Net e => [e] | _ => [] end) out.

(** A network that never answers, one that answers every request with
    the same body, and a [json.loads] that knows two bodies. *)
Definition unreachable (req : request) (attempt : nat)
  : Executor.attempt_outcome :=
  Executor.URLError (u "timed out").

Definition answers (body : str) (req : request) (attempt : nat)
  : Executor.attempt_outcome :=
  Executor.Response body.

Definition json_loads_two (body : str) : result pyval :=
  if str_eqb body (u "ocean") then
    Returned (Interpreter.response_of
                (Interpreter.candidate_with (u "STOP") Interpreter.OCEAN))
  else if str_eqb body (u "number") then
    Returned Interpreter.response_number_text
  else Raised (Exc (u "JSONDecodeError")
                 (u "Expecting value: line 1 column 1 (char 0)")).

(** A [json.loads] that also knows the body ["\ud800"], a JSON string
    that holds one surrogate, and a text with that surrogate in it. *)
Definition json_loads_surrogate (body : str) : result pyval :=
  if str_eqb body (u "surrogate") then
    Returned (PStr Interpreter.LONE_SURROGATE)
  else if str_eqb body (u "torn") then
    Returned (Interpreter.response_of
                (Interpreter.candidate_with (u "STOP")
                   (u "The ocean" ++ Interpreter.LONE_SURROGATE)))
  else json_loads_two body.

End Oracle.

(** ** The session: [get_api_key], [main_menu], [main] *)

Module Session.
Import Py Oracle.

(** [input()] at the end of the input. *)
Definition EOFError : pyexc :=
  Exc (u "EOFError") (u "EOF when reading a line").

Definition printed (line : str) : event := Ui (Journal.Printed line).
Definition asked (prompt : str) : event := Ui (Journal.Input prompt).
Definition entered (line : str) : event := Ui (Journal.Entered line).
Definition typing (text : str) (delay : Q) (color : str) : list event :=
  map Ui (Journal.typing_message text delay color).

(** The emoji of the messages: U+2705, U+1F52E, U+1F319, U+1F30C. *)
Definition CHECK_MARK : str := [9989%N].
Definition CRYSTAL_BALL : str := [128302%N].
Definition CRESCENT_MOON : str := [127769%N].
Definition MILKY_WAY : str := [127756%N].

Definition key_prompt : str :=
  Colors.CYAN ++ u "Please paste your Gemini API Key (or type 'q' to quit): "
    ++ Colors.ENDC.

Definition menu_lines : list event :=
  [printed (nl ++ Colors.CYAN ++ Colors.BOLD ++ u "--- Dream Oracle Menu ---"
              ++ Colors.ENDC);
   printed (Colors.GREEN ++ u "1. Interpret a New Dream");
   printed (Colors.BLUE ++ u "2. View Your Dream Journal");
   printed (Colors.RED ++ u "3. Clear Your Dream Journal");
   printed (Colors.YELLOW ++ u "4. Exit" ++ Colors.ENDC)].

Definition menu_prompt : str :=
  nl ++ Colors.BOLD ++ u "Choose an option (1-4): " ++ Colors.ENDC.

Definition dream_prompt : str :=
  nl ++ Colors.CYAN ++ u "Describe your dream in detail:" ++ nl ++ u "> "
    ++ Colors.ENDC.

Definition save_prompt : str :=
  nl ++ Colors.GREEN
    ++ u "Would you like to record this vision in your journal? (y/n): "
    ++ Colors.ENDC.

Definition enter_prompt : str :=
  nl ++ Colors.YELLOW ++ u "Press Enter to return to the menu..."
    ++ Colors.ENDC.

Definition MSG_NO_DREAM : str :=
  Colors.YELLOW ++ u "You must provide a dream to be interpreted."
    ++ Colors.ENDC.

Definition MSG_INVALID : str :=
  Colors.RED ++ u "Invalid choice. Please select a number from 1 to 4."
    ++ Colors.ENDC.

Definition MSG_NO_KEY : str :=
  Colors.RED ++ u "No API key provided. Exiting." ++ Colors.ENDC.

Definition MSG_GAZING : str :=
  nl ++ Colors.MAGENTA ++ u "The Oracle is gazing into the ether... please wait."
    ++ Colors.ENDC.

Definition MSG_SPEAKS : str :=
  nl ++ Colors.BOLD ++ Colors.MAGENTA ++ u "--- The Oracle Speaks ---"
    ++ Colors.ENDC.

Definition WELCOME : str :=
  CRYSTAL_BALL ++ u " Welcome, Dreamer... The Dream Oracle awaits your vision. "
    ++ CRESCENT_MOON.

Definition FAREWELL : str :=
  u "May your waking life be as insightful as your dreams. Farewell. "
    ++ MILKY_WAY.

(** The outcome of a part of the session: what happened, how it ended,
    and the journal file it leaves. *)
Definition outcome (A : Type) : Type :=
  (list event * result A * Journal.journal)%type.

Definition prepend {A} (out : list event) (r : outcome A) : outcome A :=
  let '(out', res, file) := r in (out ++ out', res, file).

(** [input()] for the pause at the end of a turn: at the end of the
    input the [EOFError] is caught, and the session goes on. *)
Definition press_enter {A} (rest : list str) (k : list str -> outcome A)
  : outcome A :=
  match rest with
  | [] => prepend [asked enter_prompt] (k rest)
  | line :: rest' => prepend [asked enter_prompt; entered line] (k rest')
  end.

(** The world around a session: the environment variable, and, for
    each turn of the menu loop, the network, the clock and what the
    file system does. *)
Record world := World {
  getenv : option str;
  network : nat -> request -> nat -> Executor.attempt_outcome;
  strftime : nat -> str;
  on_write : nat -> Journal.write_outcome;
  on_read : nat -> Journal.read_outcome;
  on_remove : nat -> option pyexc
}.

Section WithLibrary.

Variable json_loads : str -> result pyval.
Variable repr : pyval -> str.
Variable lower : str -> str.

(** The [while True] loop of [get_api_key], over the lines still to be
    read; it gives the key and the lines that are left. *)
Fixpoint ask_api_key (inputs : list str)
  : list event * result (option str) * list str :=
  match inputs with
  | [] => ([asked key_prompt], Raised EOFError, [])
  | line :: rest =>
      let api_key := Journal.strip line in
      if str_eqb (lower api_key) (u "q") then
        ([asked key_prompt; entered line], Returned None, rest)
      else
        match api_key with
        | _ :: _ =>
            ([asked key_prompt; entered line], Returned (Some api_key), rest)
        | [] =>
            let '(out, r, rest') := ask_api_key rest in
            (asked key_prompt
               :: entered line
               :: printed (Colors.RED ++ u "API Key cannot be empty."
                             ++ Colors.ENDC)
               :: out,
             r, rest')
        end
  end.

Definition get_api_key (environment : option str) (inputs : list str)
  : list event * result (option str) * list str :=
  match environment with
  | Some (c :: key) =>
      ([printed (Colors.GREEN ++ CHECK_MARK
                   ++ u " Gemini API key detected from environment."
                   ++ Colors.ENDC)],
       Returned (Some (c :: key)), inputs)
  | _ =>
      let '(out, r, rest) := ask_api_key inputs in
      (printed (Colors.YELLOW
                  ++ u "GEMINI_API_KEY environment variable not found."
                  ++ Colors.ENDC)
         :: out,
       r, rest)
  end.

(** [typing_effect(interpretation, 0.02, Colors.CYAN)] (l.287), for
    whatever [get_ai_interpretation] returned.  [str(text)] of a [str]
    is the text itself; of another value it is its [repr], in which the
    surrogates are escaped, so that every character of it can be
    shown. *)
Definition typing_value (interpretation : pyval) : list event * result unit :=
  match interpretation with
  | PStr text =>
      let (out, r) := Journal.typing_effect text (2 # 100)%Q Colors.CYAN in
      (map Ui out, r)
  | _ =>
      (map Ui (Journal.typing_all (repr interpretation) (2 # 100)%Q Colors.CYAN),
       Returned tt)
  end.

(** [save_dream] as [main] calls it: the interpretation is whatever
    [get_ai_interpretation] returned, and [sanitize_text] needs a
    [str]. *)
Definition save_dream_of (timestamp : str) (io : Journal.write_outcome)
    (dream : str) (interpretation : pyval) (file : Journal.journal)
  : outcome unit :=
  match interpretation with
  | PStr text =>
      let (out, file') := Journal.save_dream timestamp io dream text file in
      (map Ui out, Returned tt, file')
  | _ =>
      ([],
       Raised (AttributeError
                 (u "'" ++ type_name interpretation
                    ++ u "' object has no attribute 'replace'")),
       file)
  end.

Variable w : world.

(** The menu loop of [main], from turn [turn] on, over the lines still
    to be read. *)
Fixpoint main_loop (api_key : str) (turn : nat) (inputs : list str)
    (file : Journal.journal) {struct inputs} : outcome unit :=
  let pause (rest : list str) (file' : Journal.journal) : outcome unit :=
    press_enter rest (fun rest' => main_loop api_key (S turn) rest' file') in
  match inputs with
  | [] => (menu_lines ++ [asked menu_prompt], Raised EOFError, file)
  | line :: rest =>
      let menu := menu_lines ++ [asked menu_prompt; entered line] in
      let choice := Journal.strip line in
      if str_eqb choice (u "1") then
        match rest with
        | [] => (menu ++ [asked dream_prompt], Raised EOFError, file)
        | dream :: rest1 =>
            let told := menu ++ [asked dream_prompt; entered dream] in
            match Journal.strip dream with
            | [] =>
                prepend (told ++ [printed MSG_NO_DREAM])
                  (main_loop api_key (S turn) rest1 file)
            | _ :: _ =>
                let (heard, interpretation) :=
                  get_ai_interpretation json_loads repr (network w turn)
                    dream api_key in
                let (shown, r) := typing_value interpretation in
                let spoken :=
                  told ++ [printed MSG_GAZING] ++ heard
                    ++ [printed MSG_SPEAKS] ++ shown in
                match r with
                | Raised e => (spoken, Raised e, file)
                | Returned _ =>
                    match rest1 with
                    | [] =>
                        (spoken ++ [asked save_prompt], Raised EOFError, file)
                    | save_choice :: rest2 =>
                        let answered :=
                          spoken ++ [asked save_prompt; entered save_choice] in
                        if str_eqb (lower save_choice) (u "y") then
                          match
                            save_dream_of (strftime w turn) (on_write w turn)
                              dream interpretation file
                          with
                          | (saved, Returned _, file') =>
                              prepend (answered ++ saved) (pause rest2 file')
                          | (saved, Raised e, file') =>
                              (answered ++ saved, Raised e, file')
                          end
                        else prepend answered (pause rest2 file)
                    end
                end
            end
        end
      else if str_eqb choice (u "2") then
        prepend (menu ++ map Ui (Journal.view_journal (on_read w turn) file))
          (pause rest file)
      else if str_eqb choice (u "3") then
        match file with
        | None =>
            prepend
              (menu ++ map Ui (fst (Journal.clear_journal lower []
                                      (on_remove w turn) file)))
              (pause rest file)
        | Some _ =>
            match rest with
            | [] =>
                (menu ++ [asked Journal.clear_prompt], Raised EOFError, file)
            | answer :: rest1 =>
                let (out, file') :=
                  Journal.clear_journal lower answer (on_remove w turn) file in
                prepend (menu ++ map Ui out) (pause rest1 file')
            end
        end
      else if str_eqb choice (u "4") then
        (menu ++ typing FAREWELL (3 # 100)%Q Colors.MAGENTA, Returned tt, file)
      else
        prepend (menu ++ [printed MSG_INVALID]) (pause rest file)
  end.

(** The exceptions that end the menu loop: the [EOFError] of [input];
    the [AttributeError] of [sanitize_text] on an interpretation that
    is not a string; the [UnicodeEncodeError] of [typing_effect] on an
    interpretation that is a string standard output cannot encode. *)
Definition turn_exception (api_key : str) (e : pyexc) : Prop :=
  e = EOFError \/
  (exists turn dream,
     let interpretation :=
       snd (get_ai_interpretation json_loads repr (network w turn)
              dream api_key) in
     (forall text, interpretation <> PStr text) /\
     e = AttributeError
           (u "'" ++ type_name interpretation
              ++ u "' object has no attribute 'replace'")) \/
  (exists turn dream text shown,
     snd (get_ai_interpretation json_loads repr (network w turn)
            dream api_key) = PStr text /\
     printable text = false /\
     Journal.typing_effect text (2 # 100)%Q Colors.CYAN = (shown, Raised e) /\
     exc_class e = u "UnicodeEncodeError").

Definition main (inputs : list str) (file : Journal.journal) : outcome unit :=
  let welcome := typing WELCOME (4 # 100)%Q Colors.MAGENTA in
  match get_api_key (getenv w) inputs with
  | (out, Raised e, _) => (welcome ++ out, Raised e, file)
  | (out, Returned None, _) =>
      (welcome ++ out ++ [printed MSG_NO_KEY], Returned tt, file)
  | (out, Returned (Some api_key), rest) =>
      prepend (welcome ++ out) (main_loop api_key 0 rest file)
  end.

End WithLibrary.

(** The environment gives no key: the variable is not set, or it is
    empty. *)
Definition no_key (environment : option str) : Prop :=
  environment = None \/ environment = Some [].

(** The three parts of an outcome. *)
Definition events {A} (r : outcome A) : list event := fst (fst r).
Definition ended {A} (r : outcome A) : result A := snd (fst r).
Definition left_file {A} (r : outcome A) : Journal.journal := snd r.

(** The calls of [urlopen] in a session. *)
Definition urlopens (out : list event) : list nat :=
  Executor.attempts_made (net_events out).

(** A world for the examples: no key in the environment, a server that
    answers every request with the same body, a file system that does
    what it is asked. *)
Definition sample_world (body : str) : world :=
  World None (fun turn => answers body)
    (fun turn => u "2024-05-01 07:30:00")
    (fun turn => Journal.Written) (fun turn => Journal.ReadOk)
    (fun turn => None).

End Session.

(** * What standard output can show *)

Module PyTheory.
Import Py.



Lemma encode_error_from_printable (position : nat) (text : str) :
  printable text = true -> encode_error_from position text = None.
Proof.
  revert position. induction text as [| c rest IH]; intros position;
    [reflexivity |].
  simpl. destruct (surrogate c); [discriminate |]. simpl. apply IH.
Qed.

Lemma encode_error_printable (text : str) :
  printable text = true -> encode_error text = None.
Proof.
  apply encode_error_from_printable.
Qed.

Lemma encode_error_from_unprintable (position : nat) (text : str) :
  printable text = false ->
  exists e, encode_error_from position text = Some e /\
    exc_class e = u "UnicodeEncodeError".
Proof.
  revert position. induction text as [| c rest IH]; intros position;
    [discriminate |].
  simpl. destruct (surrogate c); simpl.
  - intros _. eexists. split; reflexivity.
  - apply IH.
Qed.

Lemma encode_error_unprintable (text : str) :
  printable text = false ->
  exists e, encode_error text = Some e /\
    exc_class e = u "UnicodeEncodeError".
Proof.
  apply encode_error_from_unprintable.
Qed.

Lemma encode_error_class (text : str) (e : pyexc) :
  encode_error text = Some e ->
  printable text = false /\ exc_class e = u "UnicodeEncodeError".
Proof.
  destruct (printable text) eqn:Hp.
  - rewrite (encode_error_printable _ Hp). discriminate.
  - destruct (encode_error_unprintable _ Hp) as [e' [-> Hclass]].
    intros H. inversion H. subst. auto.
Qed.

Lemma printable_app (a b : str) :
  printable (a ++ b) = printable a && printable b.
Proof.
  apply forallb_app.
Qed.

(** A text that cannot be shown has a first surrogate. *)
Lemma first_surrogate (text : str) :
  printable text = false ->
  exists shown c rest,
    text = shown ++ c :: rest /\ printable shown = true /\ surrogate c = true.
Proof.
  induction text as [| c text IH]; [discriminate |].
  simpl. destruct (surrogate c) eqn:Hc; simpl.
  - intros _. exists [], c, text. auto.
  - intros H. destruct (IH H) as [shown [d [rest [-> [Hshown Hd]]]]].
    exists (c :: shown), d, rest. simpl. rewrite Hc. auto.
Qed.

End PyTheory.

(** * Properties of the request executor *)

Module ExecutorTheory.
Import Py Executor.

Section Loop.

Variable json_loads : str -> result pyval.
Variable urlopen : nat -> attempt_outcome.

Let attempt_body := attempt_body json_loads urlopen.
Let retry_loop := retry_loop json_loads urlopen.
Let retried := retried json_loads urlopen.
Let retry_events := retry_events json_loads urlopen.
Let recorded := recorded json_loads urlopen.

Lemma attempt_body_retried (attempt : nat) (line msg : str) :
  retried attempt = Some (line, msg) ->
  attempt_body attempt = retry_after attempt line msg.
Proof.
  unfold retried, attempt_body, Executor.retried, Executor.attempt_body.
  destruct (urlopen attempt)
    as [body | reason error_body | reason | e | reason e].
  - destruct (json_loads body); intros H; inversion H; reflexivity.
  - discriminate.
  - intros H; inversion H; reflexivity.
  - intros H; inversion H; reflexivity.
  - discriminate.
Qed.

Lemma connection_failure_retried (attempt : nat) :
  connection_failure (urlopen attempt) ->
  exists line,
    retried attempt = Some (line, failure_message (urlopen attempt)).
Proof.
  unfold retried, Executor.retried.
  destruct (urlopen attempt); simpl; intros H; try contradiction; eauto.
Qed.

(** A retried iteration is followed by the rest of the loop, with its
    error on record. *)
Lemma retry_loop_cons_retried (attempt : nat) (rest : list nat)
    (last : option pyexc) (line msg : str) :
  retried attempt = Some (line, msg) ->
  retry_loop (attempt :: rest) last =
    (retry_events attempt ++ fst (retry_loop rest (Some (RuntimeError msg))),
     snd (retry_loop rest (Some (RuntimeError msg)))).
Proof.
  intros H.
  unfold retry_loop, retry_events, Executor.retry_events; simpl.
  fold attempt_body; fold retried.
  rewrite (attempt_body_retried _ _ _ H), H.
  unfold retry_after.
  destruct (Executor.retry_loop json_loads urlopen rest _); reflexivity.
Qed.

Lemma retry_loop_retried_prefix (before after : list nat) :
  forall last,
    (forall k, In k before -> retried k <> None) ->
    retry_loop (before ++ after) last =
      (flat_map retry_events before
         ++ fst (retry_loop after (recorded before last)),
       snd (retry_loop after (recorded before last))).
Proof.
  induction before as [| k before IH]; intros last Hall.
  - simpl. destruct (retry_loop after last); reflexivity.
  - destruct (retried k) as [[line msg] |] eqn:Hk.
    2: { exfalso. apply (Hall k); [left; reflexivity | exact Hk]. }
    change ((k :: before) ++ after) with (k :: (before ++ after)).
    rewrite (retry_loop_cons_retried _ _ _ _ _ Hk).
    rewrite IH by (intros j Hj; apply Hall; right; exact Hj).
    unfold recorded, Executor.recorded; simpl. fold retried. rewrite Hk.
    simpl. rewrite <- app_assoc. reflexivity.
Qed.

Lemma recorded_last (before : list nat) (k : nat) (last : option pyexc)
    (line msg : str) :
  retried k = Some (line, msg) ->
  recorded (before ++ [k]) last = Some (RuntimeError msg).
Proof.
  intros H. unfold recorded, Executor.recorded.
  rewrite fold_left_app. simpl. fold retried. rewrite H. reflexivity.
Qed.

(** The run when every iteration is retried. *)
Lemma request_with_all_retried (n : nat) :
  (forall k, k < n -> retried k <> None) ->
  request_with json_loads urlopen n =
    (flat_map retry_events (seq 0 n), raise_last (recorded (seq 0 n) None)).
Proof.
  intros Hall. unfold request_with. fold retry_loop.
  rewrite <- (app_nil_r (seq 0 n)) at 1.
  rewrite retry_loop_retried_prefix.
  - simpl. rewrite app_nil_r. reflexivity.
  - intros k Hk. apply in_seq in Hk. apply Hall. lia.
Qed.

Lemma attempts_made_retried (l : list nat) :
  (forall k, In k l -> retried k <> None) ->
  attempts_made (flat_map retry_events l) = l.
Proof.
  induction l as [| k l IH]; intros Hall; [reflexivity |].
  simpl. unfold attempts_made in *. rewrite flat_map_app.
  rewrite IH by (intros j Hj; apply Hall; right; exact Hj).
  unfold retry_events, Executor.retry_events. fold retried.
  destruct (retried k) as [[line msg] |] eqn:Hk; [reflexivity |].
  exfalso. apply (Hall k); [left; reflexivity | exact Hk].
Qed.

Lemma sleeps_retried (l : list nat) :
  (forall k, In k l -> retried k <> None) ->
  sleeps (flat_map retry_events l) = map (fun k => 2 * (k + 1)) l.
Proof.
  induction l as [| k l IH]; intros Hall; [reflexivity |].
  simpl flat_map. unfold sleeps in *. rewrite flat_map_app.
  rewrite IH by (intros j Hj; apply Hall; right; exact Hj).
  unfold retry_events, Executor.retry_events. fold retried.
  destruct (retried k) as [[line msg] |] eqn:Hk; [reflexivity |].
  exfalso. apply (Hall k); [left; reflexivity | exact Hk].
Qed.

Lemma without_prints_retried (l : list nat) :
  (forall k, In k l -> retried k <> None) ->
  without_prints (flat_map retry_events l) =
    flat_map (fun k => [Urlopen k; Sleep (2 * (k + 1))]) l.
Proof.
  induction l as [| k l IH]; intros Hall; [reflexivity |].
  simpl flat_map. unfold without_prints in *. rewrite filter_app.
  rewrite IH by (intros j Hj; apply Hall; right; exact Hj).
  unfold retry_events, Executor.retry_events. fold retried.
  destruct (retried k) as [[line msg] |] eqn:Hk; [reflexivity |].
  exfalso. apply (Hall k); [left; reflexivity | exact Hk].
Qed.

(** The run ends with the sleep of the last retried iteration. *)
Lemma retried_ends_with_sleep (n : nat) :
  retried n <> None ->
  exists before,
    flat_map retry_events (seq 0 (S n)) = before ++ [Sleep (2 * (n + 1))].
Proof.
  intros Hn. rewrite seq_S, flat_map_app. simpl.
  unfold retry_events at 2, Executor.retry_events. fold retried.
  destruct (retried n) as [[line msg] |]; [| contradiction].
  exists (flat_map retry_events (seq 0 n) ++ [Urlopen n; Printed line]).
  rewrite <- app_assoc. reflexivity.
Qed.

(** An [HTTPError] in iteration [k], reached through retried iterations,
    ends the loop there: nothing is slept and nothing is tried after it. *)
Lemma http_error_ends_the_loop (n k : nat) (reason error_body : str) :
  k < n ->
  (forall j, j < k -> retried j <> None) ->
  urlopen k = HTTPError reason error_body ->
  request_with json_loads urlopen n =
    (flat_map retry_events (seq 0 k)
       ++ [Urlopen k; Printed (http_line error_body)],
     Raised (RuntimeError (u "API Error: " ++ reason))).
Proof.
  intros Hk Hall Hhttp. unfold request_with. fold retry_loop.
  replace n with (k + (n - k)) by lia.
  rewrite seq_app. simpl.
  destruct (n - k) as [| m] eqn:Hm; [lia |].
  rewrite retry_loop_retried_prefix
    by (intros j Hj; apply in_seq in Hj; apply Hall; lia).
  unfold retry_loop; simpl. unfold Executor.attempt_body.
  rewrite Hhttp. reflexivity.
Qed.

(** An [HTTPError] whose body cannot be read, in iteration [k] reached
    through retried iterations: the exception raised in the handler
    leaves the function. *)
Lemma unreadable_ends_the_loop (n k : nat) (reason : str) (e : pyexc) :
  k < n ->
  (forall j, j < k -> retried j <> None) ->
  urlopen k = HTTPErrorUnreadable reason e ->
  request_with json_loads urlopen n =
    (flat_map retry_events (seq 0 k) ++ [Urlopen k], Raised e).
Proof.
  intros Hk Hall Hhttp. unfold request_with. fold retry_loop.
  replace n with (k + (n - k)) by lia.
  rewrite seq_app. simpl.
  destruct (n - k) as [| m] eqn:Hm; [lia |].
  rewrite retry_loop_retried_prefix
    by (intros j Hj; apply in_seq in Hj; apply Hall; lia).
  unfold retry_loop; simpl. unfold Executor.attempt_body.
  rewrite Hhttp. reflexivity.
Qed.

Lemma retry_loop_starts (attempt : nat) (rest : list nat)
    (last : option pyexc) :
  exists after, fst (retry_loop (attempt :: rest) last) = Urlopen attempt :: after.
Proof.
  unfold retry_loop; simpl.
  destruct (Executor.attempt_body json_loads urlopen attempt) as [out c].
  destruct c; simpl; eauto.
  destruct (Executor.retry_loop json_loads urlopen rest _); simpl; eauto.
Qed.

Lemma retry_events_snoc (k : nat) (line msg : str) :
  retried k = Some (line, msg) ->
  flat_map retry_events (seq 0 (S k)) =
    flat_map retry_events (seq 0 k)
      ++ [Urlopen k; Printed line; Sleep (2 * (k + 1))].
Proof.
  intros H. rewrite seq_S, flat_map_app. simpl.
  unfold retry_events at 2, Executor.retry_events. fold retried.
  rewrite H. reflexivity.
Qed.

End Loop.

(** C1.  When every attempt fails at the connection level ([urlopen]
    raises [URLError] or another exception), the executor makes the
    [max_retries] attempts, sleeps [2 * attempt_number] seconds after
    attempt [attempt_number] (so 2, 4, 6, ... seconds between attempts),
    and then raises the error recorded for the last failure.
    [make_api_request] is the case [max_retries = MAX_RETRIES = 3]. *)
Theorem all_attempts_fail (json_loads : str -> result pyval)
    (urlopen : nat -> attempt_outcome) (max_retries : nat) :
  0 < max_retries ->
  (forall k, k < max_retries -> connection_failure (urlopen k)) ->
  let run := request_with json_loads urlopen max_retries in
  attempts_made (fst run) = seq 0 max_retries /\
  without_prints (fst run) =
    flat_map (fun k => [Urlopen k; Sleep (2 * (k + 1))]) (seq 0 max_retries) /\
  snd run =
    Raised (RuntimeError (failure_message (urlopen (max_retries - 1)))).
Proof.
  intros Hpos Hfail run.
  assert (Hall : forall k, k < max_retries ->
                   retried json_loads urlopen k <> None).
  { intros k Hk. destruct (connection_failure_retried json_loads urlopen k
                             (Hfail k Hk)) as [line Hline].
    rewrite Hline. discriminate. }
  assert (Hin : forall k, In k (seq 0 max_retries) ->
                  retried json_loads urlopen k <> None).
  { intros k Hk. apply in_seq in Hk. apply Hall. lia. }
  subst run. rewrite (request_with_all_retried _ _ _ Hall). simpl.
  split; [apply attempts_made_retried; exact Hin |].
  split; [apply without_prints_retried; exact Hin |].
  destruct max_retries as [| n]; [lia |].
  replace (S n - 1) with n by lia.
  destruct (connection_failure_retried json_loads urlopen n) as [line Hline];
    [apply Hfail; lia |].
  rewrite seq_S. simpl.
  rewrite (recorded_last _ _ _ _ _ _ _ Hline). reflexivity.
Qed.

Lemma all_attempts_fail_witness :
  snd (make_api_request json_loads_sample timed_out) =
    Raised (RuntimeError (u "Network Error: timed out")).
Proof.
  apply (all_attempts_fail json_loads_sample timed_out MAX_RETRIES).
  - unfold MAX_RETRIES. lia.
  - intros k _. exact I.
Defined.

(** When the server answers the request with an error status and a body
    that the handler can read ([urlopen] raises [HTTPError] in the first
    iteration), the run is one call of [urlopen] and one printed line,
    which shows the error body: no second attempt, no sleep.  The
    executor raises the error that carries the reason the server
    gave. *)
Theorem http_error_is_not_retried (json_loads : str -> result pyval)
    (urlopen : nat -> attempt_outcome) (max_retries : nat)
    (reason error_body : str) :
  0 < max_retries ->
  urlopen 0 = HTTPError reason error_body ->
  let run := request_with json_loads urlopen max_retries in
  fst run = [Urlopen 0; Printed (http_line error_body)] /\
  attempts_made (fst run) = [0] /\
  sleeps (fst run) = [] /\
  snd run = Raised (RuntimeError (u "API Error: " ++ reason)).
Proof.
  intros Hpos Hhttp run. subst run.
  rewrite (http_error_ends_the_loop json_loads urlopen max_retries 0
             reason error_body Hpos); [| intros j Hj; lia | exact Hhttp].
  simpl. repeat split; reflexivity.
Qed.

Lemma http_error_is_not_retried_witness :
  fst (make_api_request json_loads_sample forbidden) =
    [Urlopen 0; Printed (http_line (u "API key not valid"))] /\
  snd (make_api_request json_loads_sample forbidden) =
    Raised (RuntimeError (u "API Error: Forbidden")).
Proof.
  split;
    apply (http_error_is_not_retried json_loads_sample forbidden MAX_RETRIES
             (u "Forbidden") (u "API key not valid"));
    solve [unfold MAX_RETRIES; lia | reflexivity].
Defined.

(** C2.  The handler of [HTTPError] reads the body before it records
    the API error, and nothing guards that read.  When the server
    answers the first attempt with an error status and a body that
    [e.read().decode('utf-8')] cannot give (a 502 page that is not
    UTF-8), the exception of the read leaves [make_api_request]: one
    attempt and no sleep, but nothing is printed and the error raised is
    not the API error with the reason of the server. *)
Theorem unreadable_error_body_escapes (json_loads : str -> result pyval)
    (urlopen : nat -> attempt_outcome) (max_retries : nat)
    (reason : str) (e : pyexc) :
  0 < max_retries ->
  urlopen 0 = HTTPErrorUnreadable reason e ->
  request_with json_loads urlopen max_retries = ([Urlopen 0], Raised e).
Proof.
  intros Hpos Hhttp.
  rewrite (unreadable_ends_the_loop json_loads urlopen max_retries 0 reason e
             Hpos); [reflexivity | intros j Hj; lia | exact Hhttp].
Qed.

Lemma unreadable_error_body_escapes_witness :
  make_api_request json_loads_sample bad_gateway =
    ([Urlopen 0], Raised INVALID_START_BYTE) /\
  Raised (A := pyval) INVALID_START_BYTE <>
    Raised (RuntimeError (u "API Error: Bad Gateway")).
Proof.
  split.
  - apply (unreadable_error_body_escapes json_loads_sample bad_gateway
             MAX_RETRIES (u "Bad Gateway") INVALID_START_BYTE).
    + unfold MAX_RETRIES. lia.
    + reflexivity.
  - discriminate.
Defined.

(** C5.  A 2xx response whose body [json.loads] rejects, in iteration
    [k] (reached through retried iterations): the [Exception] handler
    treats it as it treats any unexpected error.  Before the final
    attempt the request is tried again, after the sleep; on the final
    attempt the executor raises, and the error that reaches the caller
    carries the text of the parse failure. *)
Theorem unparsable_body (json_loads : str -> result pyval)
    (urlopen : nat -> attempt_outcome) (max_retries k : nat)
    (body : str) (e : pyexc) :
  k < max_retries ->
  (forall j, j < k -> retried json_loads urlopen j <> None) ->
  urlopen k = Response body ->
  json_loads body = Raised e ->
  let run := request_with json_loads urlopen max_retries in
  (k + 1 < max_retries ->
   exists before after,
     fst run =
       before ++ [Urlopen k; Printed (unexpected_line k e);
                  Sleep (2 * (k + 1)); Urlopen (k + 1)] ++ after) /\
  (k + 1 = max_retries ->
   snd run = Raised (RuntimeError (u "Unexpected error: " ++ exc_text e)) /\
   exists before,
     fst run =
       before ++ [Urlopen k; Printed (unexpected_line k e);
                  Sleep (2 * max_retries)]).
Proof.
  intros Hk Hbefore Hresp Hparse run.
  assert (Hretried : retried json_loads urlopen k =
            Some (unexpected_line k e, u "Unexpected error: " ++ exc_text e)).
  { unfold retried. rewrite Hresp, Hparse. reflexivity. }
  assert (Hall : forall j, j < S k -> retried json_loads urlopen j <> None).
  { intros j Hj. destruct (Nat.eq_dec j k) as [-> | Hne].
    - rewrite Hretried. discriminate.
    - apply Hbefore. lia. }
  split.
  - intros Hnext. subst run. unfold request_with.
    replace max_retries with (S k + S (max_retries - S (S k))) by lia.
    rewrite seq_app.
    rewrite retry_loop_retried_prefix
      by (intros j Hj; apply in_seq in Hj; apply Hall; lia).
    cbn [fst]. rewrite (retry_events_snoc _ _ _ _ _ Hretried).
    cbn [seq Nat.add].
    match goal with
    | |- context [fst (retry_loop _ _ (?a :: ?rest) ?last)] =>
        destruct (retry_loop_starts json_loads urlopen a rest last)
          as [after Hafter]
    end.
    rewrite Hafter.
    exists (flat_map (retry_events json_loads urlopen) (seq 0 k)), after.
    rewrite <- app_assoc. simpl. replace (k + 1) with (S k) by lia.
    reflexivity.
  - intros Hlast. subst run.
    assert (Hn : max_retries = S k) by lia. clear Hlast. subst max_retries.
    rewrite (request_with_all_retried _ _ _ Hall).
    cbn [fst snd]. split.
    + rewrite seq_S. simpl.
      rewrite (recorded_last _ _ _ _ _ _ _ Hretried). reflexivity.
    + exists (flat_map (retry_events json_loads urlopen) (seq 0 k)).
      rewrite (retry_events_snoc _ _ _ _ _ Hretried).
      replace (k + 1) with (S k) by lia. reflexivity.
Qed.

Lemma unparsable_body_witness :
  snd (make_api_request json_loads_sample not_json) =
    Raised (RuntimeError
              (u "Unexpected error: Expecting value: line 1 column 1 (char 0)")).
Proof.
  apply (unparsable_body json_loads_sample not_json MAX_RETRIES 2 (u "<html>")
           (Exc (u "JSONDecodeError")
              (u "Expecting value: line 1 column 1 (char 0)"))).
  - unfold MAX_RETRIES. lia.
  - intros j _. discriminate.
  - reflexivity.
  - reflexivity.
  - reflexivity.
Defined.

(** C10.  When all [max_retries] attempts fail at the connection level,
    [time.sleep] is called [max_retries] times, with 2, 4, ...,
    [2 * max_retries] seconds: once after every failed attempt, the
    last one included.  That last sleep is the last thing the executor
    does before it raises; no attempt follows it. *)
Theorem sleep_after_every_failure (json_loads : str -> result pyval)
    (urlopen : nat -> attempt_outcome) (max_retries : nat) :
  0 < max_retries ->
  (forall k, k < max_retries -> connection_failure (urlopen k)) ->
  let run := request_with json_loads urlopen max_retries in
  sleeps (fst run) = map (fun number => 2 * number) (seq 1 max_retries) /\
  length (sleeps (fst run)) = max_retries /\
  (exists before, fst run = before ++ [Sleep (2 * max_retries)]) /\
  snd run =
    Raised (RuntimeError (failure_message (urlopen (max_retries - 1)))).
Proof.
  intros Hpos Hfail run.
  assert (Hall : forall k, k < max_retries ->
                   retried json_loads urlopen k <> None).
  { intros k Hk. destruct (connection_failure_retried json_loads urlopen k
                             (Hfail k Hk)) as [line Hline].
    rewrite Hline. discriminate. }
  assert (Hsleeps : sleeps (fst run) =
            map (fun number => 2 * number) (seq 1 max_retries)).
  { subst run. rewrite (request_with_all_retried _ _ _ Hall). cbn [fst].
    rewrite sleeps_retried
      by (intros k Hk; apply in_seq in Hk; apply Hall; lia).
    rewrite <- seq_shift, map_map.
    apply map_ext. intros k. f_equal. lia. }
  split; [exact Hsleeps |].
  split; [rewrite Hsleeps, length_map, length_seq; reflexivity |].
  subst run. rewrite (request_with_all_retried _ _ _ Hall). cbn [fst snd].
  destruct max_retries as [| n]; [lia |].
  split.
  - destruct (retried_ends_with_sleep json_loads urlopen n) as [before Hb];
      [apply Hall; lia |].
    exists before. rewrite Hb. replace (n + 1) with (S n) by lia. reflexivity.
  - replace (S n - 1) with n by lia.
    destruct (connection_failure_retried json_loads urlopen n) as [line Hline];
      [apply Hfail; lia |].
    rewrite seq_S. simpl.
    rewrite (recorded_last _ _ _ _ _ _ _ Hline). reflexivity.
Qed.

Lemma sleep_after_every_failure_witness :
  sleeps (fst (make_api_request json_loads_sample timed_out)) = [2; 4; 6].
Proof.
  apply (sleep_after_every_failure json_loads_sample timed_out MAX_RETRIES).
  - unfold MAX_RETRIES. lia.
  - intros k _. exact I.
Defined.

(** ** Every run of the loop *)

Section Runs.

Variable json_loads : str -> result pyval.
Variable urlopen : nat -> attempt_outcome.

(** A 2xx response with a body that parses, in iteration [k] reached
    through retried iterations, ends the loop there. *)
Lemma response_ends_the_loop (n k : nat) (body : str) (v : pyval) :
  k < n ->
  (forall j, j < k -> retried json_loads urlopen j <> None) ->
  urlopen k = Response body ->
  json_loads body = Returned v ->
  request_with json_loads urlopen n =
    (flat_map (retry_events json_loads urlopen) (seq 0 k) ++ [Urlopen k],
     Returned v).
Proof.
  intros Hk Hall Hresp Hparse. unfold request_with.
  replace n with (k + (n - k)) by lia.
  rewrite seq_app. simpl.
  destruct (n - k) as [| m] eqn:Hm; [lia |].
  rewrite retry_loop_retried_prefix
    by (intros j Hj; apply in_seq in Hj; apply Hall; lia).
  simpl. unfold attempt_body. rewrite Hresp, Hparse. reflexivity.
Qed.

(** The first iteration that is not retried, if there is one. *)
Lemma first_not_retried (n : nat) :
  (forall k, k < n -> retried json_loads urlopen k <> None) \/
  (exists k, k < n /\
     (forall j, j < k -> retried json_loads urlopen j <> None) /\
     retried json_loads urlopen k = None).
Proof.
  induction n as [| n [IH | [k [Hk [Hbefore Hnone]]]]].
  - left. intros k Hk. lia.
  - destruct (retried json_loads urlopen n) as [p |] eqn:Hn.
    + left. intros k Hk. destruct (Nat.eq_dec k n) as [-> | Hne].
      * rewrite Hn. discriminate.
      * apply IH. lia.
    + right. exists n. repeat split; [lia | | exact Hn].
      intros j Hj. apply IH. exact Hj.
  - right. exists k. repeat split; [lia | exact Hbefore | exact Hnone].
Qed.

(** An iteration is not retried when the server answered: with a body
    that parses, or with an error status. *)
Lemma not_retried_cases (k : nat) :
  retried json_loads urlopen k = None ->
  (exists body v, urlopen k = Response body /\ json_loads body = Returned v) \/
  (exists reason error_body, urlopen k = HTTPError reason error_body) \/
  (exists reason e, urlopen k = HTTPErrorUnreadable reason e).
Proof.
  unfold retried.
  destruct (urlopen k) as [body | reason error_body | reason | e | reason e];
    try discriminate.
  - destruct (json_loads body) as [v | e] eqn:Hparse; [| discriminate].
    intros _. left. eauto.
  - intros _. right. left. eauto.
  - intros _. right. right. eauto.
Qed.

(** The shape of every run: some iterations [0 .. k-1] are retried, and
    then the loop is over ([k = n]), or iteration [k] returns, or
    iteration [k] breaks out of the loop. *)
Lemma run_shape (n : nat) :
  exists k tail,
    k <= n /\
    fst (request_with json_loads urlopen n) =
      flat_map (retry_events json_loads urlopen) (seq 0 k) ++ tail /\
    (forall j, j < k -> retried json_loads urlopen j <> None) /\
    ((k = n /\ tail = []) \/
     (k < n /\ tail = [Urlopen k]) \/
     (k < n /\ exists line, tail = [Urlopen k; Printed line])).
Proof.
  destruct (first_not_retried n) as [Hall | [k [Hk [Hbefore Hnone]]]].
  - exists n, []. rewrite (request_with_all_retried _ _ _ Hall).
    rewrite app_nil_r. repeat split; auto.
  - destruct (not_retried_cases k Hnone)
      as [[body [v [Hresp Hparse]]]
         | [[reason [error_body Hhttp]] | [reason [e Hhttp]]]].
    + exists k, [Urlopen k].
      rewrite (response_ends_the_loop n k body v Hk Hbefore Hresp Hparse).
      repeat split; auto; lia.
    + exists k, [Urlopen k; Printed (http_line error_body)].
      rewrite (http_error_ends_the_loop _ _ n k reason error_body
                 Hk Hbefore Hhttp).
      repeat split; eauto; try lia.
    + exists k, [Urlopen k].
      rewrite (unreadable_ends_the_loop _ _ n k reason e Hk Hbefore Hhttp).
      repeat split; auto; lia.
Qed.

Lemma sum_of_sleeps (k : nat) :
  list_sum (map (fun j => 2 * (j + 1)) (seq 0 k)) = k * (k + 1).
Proof.
  induction k as [| k IH]; [reflexivity |].
  rewrite seq_S, map_app, list_sum_app, IH. simpl. lia.
Qed.

End Runs.

(** X1.  Success after failures: when the iterations before [k] are
    retried and iteration [k] gets a 2xx response whose body parses, the
    executor returns the parsed value.  It has made [k + 1] attempts and
    slept 2, 4, ..., [2 * k] seconds; the last thing it did is the call
    of [urlopen] that succeeded. *)
Theorem success_after_retries (json_loads : str -> result pyval)
    (urlopen : nat -> attempt_outcome) (max_retries k : nat)
    (body : str) (v : pyval) :
  k < max_retries ->
  (forall j, j < k -> retried json_loads urlopen j <> None) ->
  urlopen k = Response body ->
  json_loads body = Returned v ->
  let run := request_with json_loads urlopen max_retries in
  snd run = Returned v /\
  attempts_made (fst run) = seq 0 (S k) /\
  sleeps (fst run) = map (fun number => 2 * number) (seq 1 k) /\
  exists before, fst run = before ++ [Urlopen k].
Proof.
  intros Hk Hall Hresp Hparse run. subst run.
  rewrite (response_ends_the_loop _ _ _ _ _ _ Hk Hall Hresp Hparse).
  cbn [fst snd].
  assert (Hin : forall j, In j (seq 0 k) -> retried json_loads urlopen j <> None).
  { intros j Hj. apply in_seq in Hj. apply Hall. lia. }
  split; [reflexivity |]. split; [| split].
  - unfold attempts_made. rewrite flat_map_app.
    fold (attempts_made
            (flat_map (retry_events json_loads urlopen) (seq 0 k))).
    rewrite (attempts_made_retried _ _ _ Hin), seq_S. reflexivity.
  - unfold sleeps. rewrite flat_map_app.
    fold (sleeps (flat_map (retry_events json_loads urlopen) (seq 0 k))).
    rewrite (sleeps_retried _ _ _ Hin). simpl. rewrite app_nil_r.
    rewrite <- seq_shift, map_map. apply map_ext. intros j. lia.
  - eauto.
Qed.

Lemma success_after_retries_witness :
  snd (make_api_request json_loads_sample third_time_lucky) =
    Returned (PDict []) /\
  sleeps (fst (make_api_request json_loads_sample third_time_lucky)) = [2; 4].
Proof.
  split;
    apply (success_after_retries json_loads_sample third_time_lucky
             MAX_RETRIES 2 (u "{}") (PDict []));
    try reflexivity; try (unfold MAX_RETRIES; lia);
    intros [| [| j]] Hj; try discriminate; lia.
Defined.

(** X2.  An error status met after failures: when the iterations before
    [k] are retried and [urlopen] raises [HTTPError] in iteration [k],
    the attempts that were left are not made: the executor has made
    [k + 1] attempts and slept only after the [k] retried ones.  If the
    handler reads and decodes the body of the error, it prints it and
    the executor raises the API error with the reason of the server.
    If reading or decoding the body raises, that exception leaves the
    executor instead, and nothing is printed for this attempt. *)
Theorem http_error_after_retries (json_loads : str -> result pyval)
    (urlopen : nat -> attempt_outcome) (max_retries k : nat)
    (reason : str) :
  k < max_retries ->
  (forall j, j < k -> retried json_loads urlopen j <> None) ->
  let run := request_with json_loads urlopen max_retries in
  (forall error_body,
     urlopen k = HTTPError reason error_body ->
     snd run = Raised (RuntimeError (u "API Error: " ++ reason)) /\
     attempts_made (fst run) = seq 0 (S k) /\
     sleeps (fst run) = map (fun number => 2 * number) (seq 1 k) /\
     exists before,
       fst run = before ++ [Urlopen k; Printed (http_line error_body)]) /\
  (forall e,
     urlopen k = HTTPErrorUnreadable reason e ->
     snd run = Raised e /\
     attempts_made (fst run) = seq 0 (S k) /\
     sleeps (fst run) = map (fun number => 2 * number) (seq 1 k) /\
     fst run =
       flat_map (retry_events json_loads urlopen) (seq 0 k) ++ [Urlopen k]).
Proof.
  intros Hk Hall run. subst run.
  assert (Hin : forall j, In j (seq 0 k) -> retried json_loads urlopen j <> None).
  { intros j Hj. apply in_seq in Hj. apply Hall. lia. }
  assert (Hsleeps : sleeps (flat_map (retry_events json_loads urlopen) (seq 0 k))
                    = map (fun number => 2 * number) (seq 1 k)).
  { rewrite (sleeps_retried _ _ _ Hin).
    rewrite <- seq_shift, map_map. apply map_ext. intros j. lia. }
  split.
  - intros error_body Hhttp.
    rewrite (http_error_ends_the_loop _ _ _ _ _ _ Hk Hall Hhttp).
    cbn [fst snd].
    split; [reflexivity |]. split; [| split].
    + unfold attempts_made. rewrite flat_map_app.
      fold (attempts_made
              (flat_map (retry_events json_loads urlopen) (seq 0 k))).
      rewrite (attempts_made_retried _ _ _ Hin), seq_S. reflexivity.
    + unfold sleeps. rewrite flat_map_app.
      fold (sleeps (flat_map (retry_events json_loads urlopen) (seq 0 k))).
      rewrite Hsleeps. simpl. apply app_nil_r.
    + eauto.
  - intros e Hhttp.
    rewrite (unreadable_ends_the_loop _ _ _ _ _ _ Hk Hall Hhttp).
    cbn [fst snd].
    split; [reflexivity |]. split; [| split].
    + unfold attempts_made. rewrite flat_map_app.
      fold (attempts_made
              (flat_map (retry_events json_loads urlopen) (seq 0 k))).
      rewrite (attempts_made_retried _ _ _ Hin), seq_S. reflexivity.
    + unfold sleeps. rewrite flat_map_app.
      fold (sleeps (flat_map (retry_events json_loads urlopen) (seq 0 k))).
      rewrite Hsleeps. simpl. apply app_nil_r.
    + reflexivity.
Qed.

Lemma http_error_after_retries_witness :
  (snd (make_api_request json_loads_sample refused_at_second) =
     Raised (RuntimeError (u "API Error: Too Many Requests")) /\
   attempts_made (fst (make_api_request json_loads_sample refused_at_second)) =
     [0; 1]) /\
  snd (make_api_request json_loads_sample bad_gateway) =
    Raised INVALID_START_BYTE.
Proof.
  split; [split |].
  - apply (proj1 (http_error_after_retries json_loads_sample refused_at_second
                    MAX_RETRIES 1 (u "Too Many Requests")
                    ltac:(unfold MAX_RETRIES; lia)
                    ltac:(intros [| j] Hj; [discriminate | lia]))
             (u "quota exceeded") eq_refl).
  - apply (proj1 (http_error_after_retries json_loads_sample refused_at_second
                    MAX_RETRIES 1 (u "Too Many Requests")
                    ltac:(unfold MAX_RETRIES; lia)
                    ltac:(intros [| j] Hj; [discriminate | lia]))
             (u "quota exceeded") eq_refl).
  - apply (proj2 (http_error_after_retries json_loads_sample bad_gateway
                    MAX_RETRIES 0 (u "Bad Gateway")
                    ltac:(unfold MAX_RETRIES; lia)
                    ltac:(intros j Hj; lia))
             INVALID_START_BYTE eq_refl).
Defined.

(** X3.  Whatever the network does, the executor calls [urlopen] at most
    [max_retries] times, for the attempts 0, 1, 2, ... in order; it
    sleeps at most once per attempt, 2, 4, 6, ... seconds, and in all at
    most [max_retries * (max_retries + 1)] seconds: 12 seconds for
    [make_api_request]. *)
Theorem attempts_and_sleep_are_bounded (json_loads : str -> result pyval)
    (urlopen : nat -> attempt_outcome) (max_retries : nat) :
  let out := fst (request_with json_loads urlopen max_retries) in
  attempts_made out = seq 0 (length (attempts_made out)) /\
  length (attempts_made out) <= max_retries /\
  sleeps out = map (fun number => 2 * number) (seq 1 (length (sleeps out))) /\
  length (sleeps out) <= length (attempts_made out) /\
  list_sum (sleeps out) <= max_retries * (max_retries + 1).
Proof.
  intros out. subst out.
  destruct (run_shape json_loads urlopen max_retries)
    as [k [tail [Hk [Hrun [Hall Htail]]]]].
  rewrite Hrun.
  assert (Hin : forall j, In j (seq 0 k) -> retried json_loads urlopen j <> None).
  { intros j Hj. apply in_seq in Hj. apply Hall. lia. }
  assert (Ha : attempts_made
                 (flat_map (retry_events json_loads urlopen) (seq 0 k) ++ tail)
               = seq 0 k ++ attempts_made tail).
  { unfold attempts_made. rewrite flat_map_app.
    fold (attempts_made
            (flat_map (retry_events json_loads urlopen) (seq 0 k))).
    rewrite (attempts_made_retried _ _ _ Hin). reflexivity. }
  assert (Hs : sleeps
                 (flat_map (retry_events json_loads urlopen) (seq 0 k) ++ tail)
               = map (fun j => 2 * (j + 1)) (seq 0 k) ++ sleeps tail).
  { unfold sleeps. rewrite flat_map_app.
    fold (sleeps (flat_map (retry_events json_loads urlopen) (seq 0 k))).
    rewrite (sleeps_retried _ _ _ Hin). reflexivity. }
  assert (Hshift : map (fun j => 2 * (j + 1)) (seq 0 k) =
                   map (fun number => 2 * number) (seq 1 k)).
  { rewrite <- seq_shift, map_map. apply map_ext. intros j. lia. }
  assert (Hsum : k * (k + 1) <= max_retries * (max_retries + 1)) by nia.
  rewrite Ha, Hs.
  destruct Htail as [[_ ->] | [[Hlt ->] | [Hlt [line ->]]]]; simpl;
    rewrite ?app_nil_r, ?length_app, ?length_map, ?length_seq; simpl;
    rewrite <- ?seq_S, ?Nat.add_1_r, ?sum_of_sleeps;
    repeat split; try exact Hshift; try lia.
Qed.

(** X4.  What comes out of the executor, when at least one attempt is
    allowed.  A value is returned only if some attempt got a 2xx
    response, and it is what [json.loads] made of that body.  An
    exception raised is a [RuntimeError] whose message starts with
    [API Error: ], [Network Error: ] or [Unexpected error: ]; or it is
    the exception that reading the body of an [HTTPError] raised inside
    the handler, which leaves the function as it is. *)
Theorem result_of_the_executor (json_loads : str -> result pyval)
    (urlopen : nat -> attempt_outcome) (max_retries : nat) :
  0 < max_retries ->
  match snd (request_with json_loads urlopen max_retries) with
  | Returned v =>
      exists k body,
        k < max_retries /\ urlopen k = Response body /\
        json_loads body = Returned v
  | Raised e =>
      (exists msg,
         e = RuntimeError msg /\
         (starts_with (u "API Error: ") msg \/
          starts_with (u "Network Error: ") msg \/
          starts_with (u "Unexpected error: ") msg)) \/
      (exists k reason,
         k < max_retries /\ urlopen k = HTTPErrorUnreadable reason e)
  end.
Proof.
  intros Hpos.
  destruct (first_not_retried json_loads urlopen max_retries)
    as [Hall | [k [Hk [Hbefore Hnone]]]].
  - rewrite (request_with_all_retried _ _ _ Hall). cbn [snd].
    destruct max_retries as [| n]; [lia |].
    destruct (retried json_loads urlopen n) as [[line msg] |] eqn:Hn;
      [| exfalso; apply (Hall n); [lia | exact Hn]].
    rewrite seq_S. simpl. rewrite (recorded_last _ _ _ _ _ _ _ Hn). simpl.
    left. exists msg. split; [reflexivity |].
    unfold retried in Hn.
    destruct (urlopen n) as [body | reason error_body | reason | e | reason e];
      try discriminate.
    + destruct (json_loads body); inversion Hn.
      right. right. eexists. reflexivity.
    + inversion Hn. right. left. eexists. reflexivity.
    + inversion Hn. right. right. eexists. reflexivity.
  - destruct (not_retried_cases json_loads urlopen k Hnone)
      as [[body [v [Hresp Hparse]]]
         | [[reason [error_body Hhttp]] | [reason [e Hhttp]]]].
    + rewrite (response_ends_the_loop _ _ _ _ _ _ Hk Hbefore Hresp Hparse).
      cbn [snd]. eauto.
    + rewrite (http_error_ends_the_loop _ _ _ _ _ _ Hk Hbefore Hhttp).
      cbn [snd]. left. eexists. split; [reflexivity |].
      left. eexists. reflexivity.
    + rewrite (unreadable_ends_the_loop _ _ _ _ _ _ Hk Hbefore Hhttp).
      cbn [snd]. right. eauto.
Qed.

Lemma result_of_the_executor_witness :
  match snd (make_api_request json_loads_sample bad_gateway) with
  | Returned v =>
      exists k body,
        k < MAX_RETRIES /\ bad_gateway k = Response body /\
        json_loads_sample body = Returned v
  | Raised e =>
      (exists msg,
         e = RuntimeError msg /\
         (starts_with (u "API Error: ") msg \/
          starts_with (u "Network Error: ") msg \/
          starts_with (u "Unexpected error: ") msg)) \/
      (exists k reason,
         k < MAX_RETRIES /\ bad_gateway k = HTTPErrorUnreadable reason e)
  end.
Proof.
  apply (result_of_the_executor json_loads_sample bad_gateway MAX_RETRIES).
  unfold MAX_RETRIES. lia.
Defined.

End ExecutorTheory.

(** * Properties of the response interpreter *)

Module InterpreterTheory.
Import Py Interpreter PyTheory.

Lemma get_field (v x default : pyval) (key : str) :
  field v key = Some x -> get v key default = Returned x.
Proof.
  destruct v; simpl; try discriminate. intros H. rewrite H. reflexivity.
Qed.

Lemma get_absent (d : list (str * pyval)) (default : pyval) (key : str) :
  dict_get d key = None -> get (PDict d) key default = Returned default.
Proof.
  simpl. intros H. rewrite H. reflexivity.
Qed.

Lemma index0_first (v x : pyval) :
  first v = Some x -> index0 v = Returned x.
Proof.
  destruct v as [| | | | | [| y items] |]; simpl; try discriminate.
  intros H. inversion H. reflexivity.
Qed.

(** Without a first item to take, [v[0]] raises. *)
Lemma index0_nothing (v : pyval) :
  first v = None ->
  (exists e, index0 v = Raised e) \/ (exists c, index0 v = Returned (PStr [c])).
Proof.
  destruct v as [| | | | [| c s] | [| y items] |]; simpl; try discriminate;
    intros _; eauto.
Qed.

(** A response with a first candidate is an object. *)
Lemma candidate0_dict (response candidate : pyval) :
  candidate0 response = Some candidate -> exists d, response = PDict d.
Proof.
  destruct response as [| | | | | | d]; try discriminate. eauto.
Qed.


(** The print of a line fails only for a [str], with the exception of
    the encoder. *)
Lemma print_with_cases (v : pyval) (line : str) :
  print_with v line = Returned (Printed line) \/
  (exists s e, v = PStr s /\ encode_error line = Some e /\
     print_with v line = Raised e).
Proof.
  destruct v; try (left; reflexivity).
  simpl. destruct (encode_error line) as [e |] eqn:He.
  - right. eauto.
  - left. reflexivity.
Qed.


Lemma raw_line_printable (repr : pyval -> str) (s : str) :
  printable (raw_line repr (PStr s)) = printable s.
Proof.
  unfold raw_line. rewrite printable_app. reflexivity.
Qed.

(** The first steps of the [try] block, when [candidates[0]] is there. *)
Lemma try_block_candidate (repr : pyval -> str) (response candidate : pyval) :
  candidate0 response = Some candidate ->
  try_block repr response =
    (finish_reason <- get candidate (u "finishReason") PNone ;;
     if truthy finish_reason && negb (eq_str finish_reason (u "STOP")) then
       warning <- print_with finish_reason (warning_line repr finish_reason) ;;
       if eq_str finish_reason (u "MAX_TOKENS") then
         Returned ([warning], PStr MSG_CUT_SHORT)
       else
         Returned ([warning], PStr (msg_blocked (to_str repr finish_reason)))
     else
       content <- get candidate (u "content") (PDict []) ;;
       parts <- get content (u "parts") (PList []) ;;
       part <- index0 parts ;;
       text <- get part (u "text") PNone ;;
       if truthy text then Returned ([], text)
       else Returned ([], PStr MSG_UNCLEAR)).
Proof.
  unfold candidate0. intros H.
  destruct (field response (u "candidates")) as [candidates |] eqn:Hc;
    [| discriminate].
  unfold try_block.
  rewrite (get_field _ _ _ _ Hc). simpl bind at 1.
  rewrite (index0_first _ _ H). reflexivity.
Qed.

(** After the test of [finishReason] has let the candidate through. *)
Lemma try_block_finished (repr : pyval -> str) (response candidate : pyval) :
  candidate0 response = Some candidate ->
  finished_normally candidate ->
  try_block repr response =
    (content <- get candidate (u "content") (PDict []) ;;
     parts <- get content (u "parts") (PList []) ;;
     part <- index0 parts ;;
     text <- get part (u "text") PNone ;;
     if truthy text then Returned ([], text)
     else Returned ([], PStr MSG_UNCLEAR)).
Proof.
  intros Hc [d [-> Hfinish]].
  rewrite (try_block_candidate repr _ _ Hc).
  destruct Hfinish as [Hnone | Hstop].
  - rewrite (get_absent _ _ _ Hnone). reflexivity.
  - unfold get at 1. rewrite Hstop. reflexivity.
Qed.

(** When [content.parts[0]] is not there, the rest of the [try] block
    raises. *)
Lemma no_part_raises (d : list (str * pyval)) :
  part0 (PDict d) = None ->
  exists e,
    (content <- get (PDict d) (u "content") (PDict []) ;;
     parts <- get content (u "parts") (PList []) ;;
     part <- index0 parts ;;
     text <- get part (u "text") PNone ;;
     if truthy text then Returned ([] : list event, text)
     else Returned ([], PStr MSG_UNCLEAR)) = Raised e.
Proof.
  unfold part0. simpl field at 1. unfold get at 1.
  destruct (dict_get d (u "content")) as [content |]; [| simpl; eauto].
  simpl bind at 1.
  destruct content as [| | | | | | cd];
    try (intros _; simpl; eauto; fail).
  simpl field. unfold get at 1.
  destruct (dict_get cd (u "parts")) as [parts |]; [| simpl; eauto].
  simpl bind at 1. intros Hfirst.
  destruct (index0_nothing _ Hfirst) as [[e He] | [c Hc]].
  - rewrite He. simpl. eauto.
  - rewrite Hc. simpl. eauto.
Qed.

(** What the [try] block returns is never empty: every [return] gives a
    fixed message, a message built around the reason, or a [text] that
    the [if] found true. *)
Lemma try_block_truthy (repr : pyval -> str) (response : pyval)
    (out : list event) (answer : pyval) :
  try_block repr response = Returned (out, answer) -> truthy answer = true.
Proof.
  unfold try_block.
  destruct (get response (u "candidates") (PList [])) as [candidates | e];
    [| discriminate]. simpl bind at 1.
  destruct (index0 candidates) as [candidate | e]; [| discriminate].
  simpl bind at 1.
  destruct (get candidate (u "finishReason") PNone) as [finish_reason | e];
    [| discriminate]. simpl bind at 1.
  destruct (truthy finish_reason && negb (eq_str finish_reason (u "STOP"))).
  - destruct (print_with finish_reason (warning_line repr finish_reason))
      as [warning | e]; [| discriminate]. simpl bind at 1.
    destruct (eq_str finish_reason (u "MAX_TOKENS")); intros H; inversion H;
      reflexivity.
  - destruct (get candidate (u "content") (PDict [])) as [content | e];
      [| discriminate]. simpl bind at 1.
    destruct (get content (u "parts") (PList [])) as [parts | e];
      [| discriminate]. simpl bind at 1.
    destruct (index0 parts) as [part | e]; [| discriminate]. simpl bind at 1.
    destruct (get part (u "text") PNone) as [text | e]; [| discriminate].
    simpl bind at 1.
    destruct (truthy text) eqn:Ht; intros H; inversion H; subst;
      [exact Ht | reflexivity].
Qed.

(** So is what the interpreter returns. *)
Lemma answer_is_truthy (repr : pyval -> str) (response answer : pyval) :
  snd (parse_generation_response repr response) = Returned answer ->
  truthy answer = true.
Proof.
  unfold parse_generation_response.
  destruct (try_block repr response) as [[out a] | e] eqn:Htry.
  - simpl. intros H. inversion H. subst.
    exact (try_block_truthy _ _ _ _ Htry).
  - destruct (print_with response (raw_line repr response)); simpl;
      intros H; inversion H; reflexivity.
Qed.

(** C3.  The interpreter returns [text] whenever the [if] finds it true,
    whatever its type: for the response
    [{"candidates": [{"content": {"parts": [{"text": 42}]}}]}]
    the value returned is the number 42, which is not a string. *)
Theorem text_of_another_type_is_returned (repr : pyval -> str) :
  let answer := snd (parse_generation_response repr response_number_text) in
  answer = Returned (PInt 42) /\ nonempty_string (PInt 42) = false.
Proof.
  split; reflexivity.
Qed.

(** C4, as stated, fails: the candidate exists, its [finishReason] is
    ["STOP"], its [parts] list is empty, so there is no text; the
    interpreter answers with the critical-error message, not with the
    "vision unclear" one. *)
Lemma empty_parts_is_a_critical_error :
  candidate0 response_empty_parts = Some candidate_empty_parts /\
  finished_normally candidate_empty_parts /\
  part0 candidate_empty_parts = None /\
  snd (parse_generation_response repr_type response_empty_parts) =
    Returned (PStr MSG_CRITICAL) /\
  PStr MSG_CRITICAL <> PStr MSG_UNCLEAR.
Proof.
  split; [reflexivity |].
  split; [eexists; split; [reflexivity | right; reflexivity] |].
  split; [reflexivity |].
  split; [reflexivity | discriminate].
Qed.

(** The answer when the candidate finished normally and
    [content.parts[0]] is the object [p]. *)
Lemma answer_with_part (repr : pyval -> str) (response candidate : pyval)
    (p : list (str * pyval)) :
  candidate0 response = Some candidate ->
  finished_normally candidate ->
  part0 candidate = Some (PDict p) ->
  snd (parse_generation_response repr response) =
    Returned
      match dict_get p (u "text") with
      | Some text => if truthy text then text else PStr MSG_UNCLEAR
      | None => PStr MSG_UNCLEAR
      end.
Proof.
  intros Hc Hfinish. unfold parse_generation_response.
  rewrite (try_block_finished repr _ _ Hc Hfinish).
  unfold part0.
  destruct (field candidate (u "content")) as [content |] eqn:Hcontent;
    [| discriminate].
  destruct (field content (u "parts")) as [parts |] eqn:Hparts;
    [| discriminate].
  intros Hfirst.
  rewrite (get_field _ _ _ _ Hcontent). simpl bind at 1.
  rewrite (get_field _ _ _ _ Hparts). simpl bind at 1.
  rewrite (index0_first _ _ Hfirst). simpl bind at 1.
  unfold get. destruct (dict_get p (u "text")) as [text |]; [| reflexivity].
  simpl. destruct (truthy text); reflexivity.
Qed.

(** The answer when the candidate finished normally and there is no
    [content.parts[0]]. *)
Lemma answer_without_part (repr : pyval -> str) (response candidate : pyval) :
  candidate0 response = Some candidate ->
  finished_normally candidate ->
  part0 candidate = None ->
  snd (parse_generation_response repr response) = Returned (PStr MSG_CRITICAL).
Proof.
  intros Hc Hfinish Hnone. unfold parse_generation_response.
  rewrite (try_block_finished repr _ _ Hc Hfinish).
  destruct (candidate0_dict _ _ Hc) as [r ->].
  destruct Hfinish as [d [-> _]].
  destruct (no_part_raises d Hnone) as [e He]. rewrite He. reflexivity.
Qed.

(** C4, amended.  For a response whose [candidates[0]] is an object with
    [finishReason] absent or ["STOP"]:
    - if [content.parts[0]] is an object whose [text] is present and not
      empty, the interpreter returns it as it is;
    - if [content.parts[0]] is an object whose [text] is absent or
      empty, the interpreter returns the "vision unclear" message;
    - if there is no [content.parts[0]] ([content] or [parts] is
      missing, or [parts] is an empty list), the lookup raises and the
      interpreter returns the critical-error message. *)
Theorem text_or_fallback (repr : pyval -> str) (response candidate : pyval) :
  candidate0 response = Some candidate ->
  finished_normally candidate ->
  let answer := snd (parse_generation_response repr response) in
  (forall p text,
     part0 candidate = Some (PDict p) ->
     dict_get p (u "text") = Some text ->
     truthy text = true ->
     answer = Returned text) /\
  (forall p,
     part0 candidate = Some (PDict p) ->
     dict_get p (u "text") = None \/
     (exists text, dict_get p (u "text") = Some text /\ truthy text = false) ->
     answer = Returned (PStr MSG_UNCLEAR)) /\
  (part0 candidate = None -> answer = Returned (PStr MSG_CRITICAL)).
Proof.
  intros Hc Hfinish answer. subst answer.
  split; [| split].
  - intros p text Hp Htext Htruthy.
    rewrite (answer_with_part repr _ _ p Hc Hfinish Hp), Htext, Htruthy.
    reflexivity.
  - intros p Hp [Hnone | [text [Htext Hfalsy]]];
      rewrite (answer_with_part repr _ _ p Hc Hfinish Hp).
    + rewrite Hnone. reflexivity.
    + rewrite Htext, Hfalsy. reflexivity.
  - apply answer_without_part; assumption.
Qed.

Lemma text_or_fallback_witness :
  snd (parse_generation_response repr_type response_empty_parts) =
    Returned (PStr MSG_CRITICAL).
Proof.
  apply (text_or_fallback repr_type response_empty_parts candidate_empty_parts).
  - reflexivity.
  - eexists; split; [reflexivity | right; reflexivity].
  - reflexivity.
Defined.

(** C6.  When [candidates[0].finishReason] is ["MAX_TOKENS"], the
    interpreter returns the fixed "cut short" message, whatever
    [content] holds. *)
Theorem max_tokens_is_cut_short (repr : pyval -> str)
    (response candidate : pyval) :
  candidate0 response = Some candidate ->
  field candidate (u "finishReason") = Some (PStr (u "MAX_TOKENS")) ->
  snd (parse_generation_response repr response) =
    Returned (PStr MSG_CUT_SHORT).
Proof.
  intros Hc Hreason. unfold parse_generation_response.
  rewrite (try_block_candidate repr _ _ Hc).
  rewrite (get_field _ _ _ _ Hreason). reflexivity.
Qed.

Lemma max_tokens_is_cut_short_witness :
  snd (parse_generation_response repr_type
         (response_of (candidate_with (u "MAX_TOKENS") (u "The ocean is")))) =
    Returned
      (PStr (u "The Oracle's vision was too vast and was cut short. (MAX_TOKENS).")).
Proof.
  apply (max_tokens_is_cut_short repr_type
           (response_of (candidate_with (u "MAX_TOKENS") (u "The ocean is")))
           (candidate_with (u "MAX_TOKENS") (u "The ocean is")));
    reflexivity.
Defined.

(** C7.  When [candidates[0].finishReason] is ["STOP"] and
    [candidates[0].content.parts[0].text] is a string that is not empty,
    the interpreter returns that string, unchanged. *)
Theorem stop_returns_the_text (repr : pyval -> str)
    (response candidate part : pyval) (text : str) :
  candidate0 response = Some candidate ->
  field candidate (u "finishReason") = Some (PStr (u "STOP")) ->
  part0 candidate = Some part ->
  field part (u "text") = Some (PStr text) ->
  text <> [] ->
  snd (parse_generation_response repr response) = Returned (PStr text).
Proof.
  intros Hc Hreason Hpart Htext Hnonempty.
  destruct candidate as [| | | | | | d]; try discriminate.
  destruct part as [| | | | | | p]; try discriminate.
  assert (Hfinish : finished_normally (PDict d)).
  { exists d. split; [reflexivity | right; exact Hreason]. }
  rewrite (answer_with_part repr _ _ p Hc Hfinish Hpart).
  simpl in Htext. rewrite Htext.
  destruct text; [contradiction | reflexivity].
Qed.

Lemma stop_returns_the_text_witness :
  snd (parse_generation_response repr_type
         (response_of (candidate_with (u "STOP") OCEAN))) =
    Returned (PStr OCEAN).
Proof.
  apply (stop_returns_the_text repr_type
           (response_of (candidate_with (u "STOP") OCEAN))
           (candidate_with (u "STOP") OCEAN)
           (PDict [(u "text", PStr OCEAN)]) OCEAN);
    try reflexivity.
  discriminate.
Defined.

(** ** More on the interpreter *)

Lemma get_returned (v x default : pyval) (key : str) :
  get v key default = Returned x ->
  exists d, v = PDict d /\
    (dict_get d key = Some x \/ (dict_get d key = None /\ x = default)).
Proof.
  destruct v as [| | | | | | d]; simpl; try discriminate.
  destruct (dict_get d key) as [y |] eqn:Hd; intros H; inversion H; subst;
    exists d; split; auto.
Qed.

Lemma index0_returned (v x : pyval) :
  index0 v = Returned x -> first v = Some x \/ exists c, x = PStr [c].
Proof.
  destruct v as [| | | | [| c s] | [| y items] |]; simpl; try discriminate;
    intros H; inversion H; eauto.
Qed.

(** Without [candidates[0]] the [try] block raises. *)
Lemma no_candidate_raises (repr : pyval -> str) (response : pyval) :
  candidate0 response = None ->
  exists e, try_block repr response = Raised e.
Proof.
  unfold candidate0, try_block.
  destruct response as [| | | | | | d]; simpl; eauto.
  destruct (dict_get d (u "candidates")) as [candidates |]; [| simpl; eauto].
  simpl bind at 1. intros Hfirst.
  destruct (index0_nothing _ Hfirst) as [[e He] | [c Hc]].
  - rewrite He. simpl. eauto.
  - rewrite Hc. simpl. eauto.
Qed.

(** What the [try] block returns when it gets as far as the text. *)
Lemma text_path (candidate text : pyval) (out : list event) (answer : pyval) :
  (content <- get candidate (u "content") (PDict []) ;;
   parts <- get content (u "parts") (PList []) ;;
   part <- index0 parts ;;
   text <- get part (u "text") PNone ;;
   if truthy text then Returned ([] : list event, text)
   else Returned ([], PStr MSG_UNCLEAR)) = Returned (out, answer) ->
  out = [] /\
  (answer = PStr MSG_UNCLEAR \/
   exists p, part0 candidate = Some (PDict p) /\
     dict_get p (u "text") = Some answer /\ truthy answer = true).
Proof.
  destruct (get candidate (u "content") (PDict [])) as [content | e] eqn:Hc;
    [| discriminate]. simpl bind at 1.
  destruct (get content (u "parts") (PList [])) as [parts | e] eqn:Hp;
    [| discriminate]. simpl bind at 1.
  destruct (index0 parts) as [part | e] eqn:Hi; [| discriminate].
  simpl bind at 1.
  destruct (get part (u "text") PNone) as [t | e] eqn:Ht; [| discriminate].
  simpl bind at 1.
  destruct (truthy t) eqn:Htruthy; intros H; inversion H; subst;
    split; auto.
  right.
  destruct (get_returned _ _ _ _ Ht) as [p [-> [Htext | [_ ->]]]];
    [| discriminate].
  exists p. split; [| split; assumption].
  destruct (index0_returned _ _ Hi) as [Hfirst | [c Hstr]]; [| discriminate].
  destruct (get_returned _ _ _ _ Hp) as [cd [-> [Hparts | [_ ->]]]];
    [| discriminate].
  destruct (get_returned _ _ _ _ Hc) as [d [-> [Hcontent | [_ Hdefault]]]].
  - unfold part0. simpl. rewrite Hcontent. simpl. rewrite Hparts.
    exact Hfirst.
  - inversion Hdefault. subst. discriminate.
Qed.

(** What the [try] block returns is a string that is not empty, or the
    truthy value found at [candidates[0].content.parts[0].text]. *)
Lemma try_block_answer (repr : pyval -> str) (response : pyval)
    (out : list event) (answer : pyval) :
  try_block repr response = Returned (out, answer) ->
  nonempty_string answer = true \/
  (exists candidate p,
     candidate0 response = Some candidate /\
     part0 candidate = Some (PDict p) /\
     dict_get p (u "text") = Some answer /\
     truthy answer = true).
Proof.
  intros Htry.
  destruct (candidate0 response) as [candidate |] eqn:Hc.
  2: { destruct (no_candidate_raises repr response Hc) as [e He].
       rewrite He in Htry. discriminate. }
  rewrite (try_block_candidate repr _ _ Hc) in Htry.
  destruct (get candidate (u "finishReason") PNone) as [reason | e];
    [| discriminate].
  simpl bind in Htry.
  destruct (truthy reason && negb (eq_str reason (u "STOP"))).
  { destruct (print_with reason (warning_line repr reason)) as [warning | e];
      [| discriminate].
    simpl bind in Htry.
    destruct (eq_str reason (u "MAX_TOKENS")); inversion Htry;
      left; reflexivity. }
  destruct (text_path _ PNone _ _ Htry) as [_ [-> | [p [Hp [Ht Htruthy]]]]].
  - left. reflexivity.
  - right. exists candidate, p. auto.
Qed.

(** X5.  When the interpreter returns, the value is a string that is
    not empty, except in one case: the value found at
    [candidates[0].content.parts[0].text] is not a string and counts as
    true, and then that value itself is returned.  The interpreter
    raises in one case only: the response itself is a string that
    standard output cannot encode, and the handler's print of the raw
    response raises [UnicodeEncodeError]. *)
Theorem answer_is_a_string_or_the_text (repr : pyval -> str)
    (response : pyval) :
  let answer := snd (parse_generation_response repr response) in
  (exists v, answer = Returned v /\ nonempty_string v = true) \/
  (exists candidate p v,
     candidate0 response = Some candidate /\
     part0 candidate = Some (PDict p) /\
     dict_get p (u "text") = Some v /\
     truthy v = true /\
     answer = Returned v) \/
  (exists s e,
     response = PStr s /\
     printable s = false /\
     encode_error (u "Raw Response: " ++ s) = Some e /\
     exc_class e = u "UnicodeEncodeError" /\
     answer = Raised e).
Proof.
  intros answer. subst answer. unfold parse_generation_response.
  destruct (try_block repr response) as [[out a] | e] eqn:Htry.
  - destruct (try_block_answer _ _ _ _ Htry)
      as [Hs | [candidate [p [Hc [Hp [Ht Htruthy]]]]]].
    + left. exists a. auto.
    + right. left. exists candidate, p, a. auto.
  - destruct (print_with_cases response (raw_line repr response))
      as [-> | [s [e' [-> [He' ->]]]]].
    + left. eexists. split; reflexivity.
    + right. right. exists s, e'.
      destruct (encode_error_class _ _ He') as [Hp Hclass].
      rewrite raw_line_printable in Hp. auto.
Qed.





(** X8.  A [finishReason] that counts as false (an empty string,
    [null], [false], 0, an empty list or object) is treated as if it
    were absent: the text is returned, and nothing is printed. *)
Theorem falsy_reason_is_ignored (repr : pyval -> str)
    (response candidate reason text : pyval) (p : list (str * pyval)) :
  candidate0 response = Some candidate ->
  field candidate (u "finishReason") = Some reason ->
  truthy reason = false ->
  part0 candidate = Some (PDict p) ->
  dict_get p (u "text") = Some text ->
  truthy text = true ->
  parse_generation_response repr response = ([], Returned text).
Proof.
  intros Hc Hreason Hfalsy Hpart Htext Htruthy.
  unfold parse_generation_response.
  rewrite (try_block_candidate repr _ _ Hc).
  rewrite (get_field _ _ _ _ Hreason). simpl bind at 1.
  rewrite Hfalsy. simpl andb. cbv iota.
  unfold part0 in Hpart.
  destruct (field candidate (u "content")) as [content |] eqn:Hcontent;
    [| discriminate].
  destruct (field content (u "parts")) as [parts |] eqn:Hparts;
    [| discriminate].
  rewrite (get_field _ _ _ _ Hcontent). simpl bind at 1.
  rewrite (get_field _ _ _ _ Hparts). simpl bind at 1.
  rewrite (index0_first _ _ Hpart). simpl bind at 1.
  unfold get. rewrite Htext. simpl. rewrite Htruthy. reflexivity.
Qed.

Lemma falsy_reason_is_ignored_witness :
  parse_generation_response repr_type
    (response_of (candidate_with [] OCEAN)) = ([], Returned (PStr OCEAN)).
Proof.
  apply (falsy_reason_is_ignored repr_type
           (response_of (candidate_with [] OCEAN))
           (candidate_with [] OCEAN) (PStr []) (PStr OCEAN)
           [(u "text", PStr OCEAN)]);
    reflexivity.
Defined.

End InterpreterTheory.

(** * Properties of the journal *)

Module JournalTheory.
Import Py Journal PyTheory.

(** ** Stripping *)

(** [lstrip] removes a prefix. *)
Lemma lstrip_suffix (text : str) :
  exists spaces, text = spaces ++ lstrip text.
Proof.
  induction text as [| c rest [spaces IH]]; [exists []; reflexivity |].
  simpl. destruct (is_space c).
  - exists (c :: spaces). simpl. rewrite <- IH. reflexivity.
  - exists []. reflexivity.
Qed.

Lemma lstrip_starts_clean (text : str) : starts_clean (lstrip text).
Proof.
  induction text as [| c rest IH]; simpl; [exact I |].
  destruct (is_space c) eqn:Hc; [exact IH | exact Hc].
Qed.

Lemma lstrip_clean (text : str) : starts_clean text -> lstrip text = text.
Proof.
  destruct text as [| c rest]; simpl; [reflexivity |].
  intros H. rewrite H. reflexivity.
Qed.

(** [rstrip] removes a suffix, and keeps the start as it is. *)
Lemma rstrip_prefix (text : str) :
  exists spaces, text = rstrip text ++ spaces.
Proof.
  unfold rstrip. destruct (lstrip_suffix (rev text)) as [spaces H].
  exists (rev spaces). rewrite <- rev_app_distr, <- H, rev_involutive.
  reflexivity.
Qed.

Lemma rstrip_starts_clean (text : str) :
  starts_clean text -> starts_clean (rstrip text).
Proof.
  intros H. destruct (rstrip_prefix text) as [spaces Hp].
  destruct (rstrip text) as [| c rest]; [exact I |].
  rewrite Hp in H. exact H.
Qed.

Lemma rev_rstrip (text : str) : rev (rstrip text) = lstrip (rev text).
Proof.
  unfold rstrip. apply rev_involutive.
Qed.

Lemma strip_starts_clean (text : str) : starts_clean (strip text).
Proof.
  apply rstrip_starts_clean, lstrip_starts_clean.
Qed.

Lemma strip_ends_clean (text : str) : starts_clean (rev (strip text)).
Proof.
  unfold strip. rewrite rev_rstrip. apply lstrip_starts_clean.
Qed.

(** A text that is clean at both ends is left as it is. *)
Lemma strip_clean (text : str) :
  starts_clean text -> starts_clean (rev text) -> strip text = text.
Proof.
  intros Hstart Hend. unfold strip, rstrip.
  rewrite (lstrip_clean _ Hstart), (lstrip_clean _ Hend).
  apply rev_involutive.
Qed.

(** Stripping keeps characters of the text only. *)
Lemma strip_incl (text : str) (c : char) : In c (strip text) -> In c text.
Proof.
  intros H. unfold strip in H.
  destruct (rstrip_prefix (lstrip text)) as [after Ha].
  destruct (lstrip_suffix text) as [before Hb].
  rewrite Hb, Ha. apply in_or_app. right. apply in_or_app. left. exact H.
Qed.

(** ** Removing the NULs *)

Lemma remove_nul_clean (text : str) :
  forallb (fun c => negb (c =? 0)%N) text = true -> remove_nul text = text.
Proof.
  unfold remove_nul. induction text as [| c rest IH]; simpl; [reflexivity |].
  intros H. apply andb_prop in H. destruct H as [Hc Hrest].
  rewrite Hc, (IH Hrest). reflexivity.
Qed.

Lemma remove_nul_no_nul (text : str) :
  forallb (fun c => negb (c =? 0)%N) (remove_nul text) = true.
Proof.
  apply forallb_forall. intros c Hc.
  unfold remove_nul in Hc. apply filter_In in Hc. apply Hc.
Qed.

(** ** [sanitized], as a proposition *)

Lemma clean_head (text : str) :
  match text with [] => true | c :: _ => negb (is_space c) end = true <->
  starts_clean text.
Proof.
  destruct text as [| c rest]; simpl; [tauto |].
  destruct (is_space c); simpl; split; congruence.
Qed.

Lemma sanitized_spec (text : str) :
  sanitized text = true <->
  forallb (fun c => negb (c =? 0)%N) text = true /\
  starts_clean text /\ starts_clean (rev text).
Proof.
  unfold sanitized. rewrite !andb_true_iff, !clean_head. tauto.
Qed.

Lemma sanitize_text_sanitized (text : str) :
  sanitized (sanitize_text text) = true.
Proof.
  apply sanitized_spec. unfold sanitize_text.
  split; [| split].
  - apply forallb_forall. intros c Hc. apply strip_incl in Hc.
    revert c Hc. apply forallb_forall. apply remove_nul_no_nul.
  - apply strip_starts_clean.
  - apply strip_ends_clean.
Qed.

Lemma sanitize_text_clean (text : str) :
  sanitized text = true -> sanitize_text text = text.
Proof.
  intros H. apply sanitized_spec in H. destruct H as [Hnul [Hstart Hend]].
  unfold sanitize_text. rewrite (remove_nul_clean _ Hnul).
  apply strip_clean; assumption.
Qed.

(** C9.  A text that is already sanitized (no NUL, no white space at
    either end) is returned unchanged; and so sanitizing twice is
    sanitizing once. *)
Theorem sanitize_text_idempotent (text : str) :
  (sanitized text = true -> sanitize_text text = text) /\
  sanitize_text (sanitize_text text) = sanitize_text text.
Proof.
  split.
  - apply sanitize_text_clean.
  - apply sanitize_text_clean, sanitize_text_sanitized.
Qed.

Lemma sanitize_text_idempotent_witness :
  sanitize_text (u "I was flying over an ocean") =
    u "I was flying over an ocean".
Proof.
  apply (proj1 (sanitize_text_idempotent (u "I was flying over an ocean"))).
  reflexivity.
Defined.

(** ** Typing *)

Lemma encode_char (color : str) (c : char) :
  printable color = true -> surrogate c = false ->
  encode_error (color ++ [c]) = None.
Proof.
  intros Hcolor Hc. apply encode_error_printable.
  rewrite printable_app, Hcolor. simpl. rewrite Hc. reflexivity.
Qed.

(** When every character can be shown, every character is typed. *)
Lemma typing_chars_printable (text : str) (delay : Q) (color : str) :
  printable color = true -> printable text = true ->
  typing_chars text delay color =
    (flat_map (fun c => [Flushed (color ++ [c]); Pause delay]) text,
     Returned tt).
Proof.
  intros Hcolor. induction text as [| c rest IH]; [reflexivity |].
  simpl. intros H. apply andb_prop in H. destruct H as [Hc Hrest].
  apply negb_true_iff in Hc.
  rewrite (encode_char _ _ Hcolor Hc), (IH Hrest). reflexivity.
Qed.

Lemma typing_effect_printable (text : str) (delay : Q) (color : str) :
  printable color = true -> printable text = true ->
  typing_effect text delay color = (typing_all text delay color, Returned tt).
Proof.
  intros Hcolor Htext. unfold typing_effect.
  rewrite (typing_chars_printable _ _ _ Hcolor Htext). reflexivity.
Qed.

(** The loop stops at the first character that cannot be shown. *)
Lemma typing_chars_stops (shown rest : str) (c : char) (delay : Q)
    (color : str) :
  printable color = true -> printable shown = true -> surrogate c = true ->
  exists e,
    encode_error (color ++ [c]) = Some e /\
    exc_class e = u "UnicodeEncodeError" /\
    typing_chars (shown ++ c :: rest) delay color =
      (flat_map (fun c => [Flushed (color ++ [c]); Pause delay]) shown,
       Raised e).
Proof.
  intros Hcolor Hshown Hc.
  assert (Hbad : printable (color ++ [c]) = false).
  { rewrite printable_app, Hcolor. simpl. rewrite Hc. reflexivity. }
  destruct (encode_error_unprintable _ Hbad) as [e [He Hclass]].
  exists e. split; [exact He |]. split; [exact Hclass |].
  induction shown as [| d shown IH].
  - simpl. rewrite He. reflexivity.
  - simpl in Hshown. apply andb_prop in Hshown. destruct Hshown as [Hd Hshown].
    apply negb_true_iff in Hd.
    simpl. rewrite (encode_char _ _ Hcolor Hd), (IH Hshown). reflexivity.
Qed.

(** An exception of the loop is the encoder's, for a character of the
    text. *)
Lemma typing_chars_raises (text : str) (delay : Q) (color : str)
    (out : list event) (e : pyexc) :
  typing_chars text delay color = (out, Raised e) ->
  exists c, In c text /\ encode_error (color ++ [c]) = Some e.
Proof.
  revert out. induction text as [| c rest IH]; intros out; [discriminate |].
  simpl. destruct (encode_error (color ++ [c])) as [e' |] eqn:He.
  - intros H. inversion H. subst. exists c. split; [left; reflexivity | exact He].
  - destruct (typing_chars rest delay color) as [out' r] eqn:Hrest.
    intros H. inversion H. subst.
    destruct (IH _ eq_refl) as [d [Hin Hd]].
    exists d. split; [right; exact Hin | exact Hd].
Qed.

(** [typing_effect] raises on a text that cannot be shown. *)
Lemma typing_effect_unprintable (text : str) (delay : Q) (color : str) :
  printable color = true -> printable text = false ->
  exists out e,
    typing_effect text delay color = (out, Raised e) /\
    exc_class e = u "UnicodeEncodeError".
Proof.
  intros Hcolor Htext.
  destruct (first_surrogate _ Htext) as [shown [c [rest [-> [Hshown Hc]]]]].
  destruct (typing_chars_stops shown rest c delay color Hcolor Hshown Hc)
    as [e [_ [Hclass Hchars]]].
  eexists. exists e. unfold typing_effect. rewrite Hchars.
  split; [reflexivity | exact Hclass].
Qed.

Lemma typing_effect_raises (text : str) (delay : Q) (color : str)
    (out : list event) (e : pyexc) :
  typing_effect text delay color = (out, Raised e) ->
  exc_class e = u "UnicodeEncodeError" /\
  (printable color = true -> printable text = false).
Proof.
  unfold typing_effect.
  destruct (typing_chars text delay color) as [out' [[] | e']] eqn:Hchars;
    [discriminate |].
  intros H. inversion H. subst.
  destruct (typing_chars_raises _ _ _ _ _ Hchars) as [c [Hin Hc]].
  destruct (encode_error_class _ _ Hc) as [Hbad Hclass].
  split; [exact Hclass |].
  intros Hcolor. rewrite printable_app, Hcolor in Hbad. simpl in Hbad.
  rewrite andb_true_r in Hbad.
  destruct (printable text) eqn:Htext; [| reflexivity].
  unfold printable in Htext.
  rewrite (proj1 (forallb_forall _ _) Htext c Hin) in Hbad. discriminate.
Qed.

(** The messages of the source are typed to the end: the calls of
    [typing_effect] on them return, after showing what
    [typing_message] gives. *)
Lemma typing_message_returns (text : str) (delay : Q) (color : str) :
  printable color = true -> printable text = true ->
  typing_effect text delay color =
    (typing_message text delay color, Returned tt).
Proof.
  intros Hcolor Htext. unfold typing_message.
  rewrite (typing_effect_printable _ _ _ Hcolor Htext). reflexivity.
Qed.

Lemma journal_messages_are_typed :
  Forall
    (fun call : str * str =>
       typing_effect (fst call) (2 # 100) (snd call) =
         (typing_message (fst call) (2 # 100) (snd call), Returned tt))
    [(u "Your dream has been etched into memory.", Colors.GREEN);
     (MSG_EMPTY, Colors.YELLOW);
     (u "No journal found to clear.", Colors.YELLOW);
     (u "The old memories have faded into mist. Your journal is clear.",
      Colors.RED);
     (u "The journal remains untouched.", Colors.GREEN)].
Proof.
  repeat constructor; apply typing_message_returns; reflexivity.
Qed.





Lemma asks_app (a b : list event) : asks (a ++ b) = asks a ++ asks b.
Proof.
  unfold asks. apply flat_map_app.
Qed.

(** ** The journal file *)

Lemma contains_app_l (before s sub : str) :
  contains s sub -> contains (before ++ s) sub.
Proof.
  intros [b [a H]]. exists (before ++ b), a. rewrite H, app_assoc. reflexivity.
Qed.

Lemma entry_contains (timestamp dream interpretation : str) :
  contains (entry timestamp dream interpretation) dream /\
  contains (entry timestamp dream interpretation) interpretation /\
  contains (entry timestamp dream interpretation) SIXTY_EQUALS.
Proof.
  unfold entry, contains. split; [| split].
  - exists (u "Time: " ++ timestamp ++ nl ++ u "Dream: "). eexists.
    rewrite <- !app_assoc. reflexivity.
  - exists (u "Time: " ++ timestamp ++ nl ++ u "Dream: " ++ dream ++ nl ++ nl
              ++ u "Interpretation:" ++ nl). eexists.
    rewrite <- !app_assoc. reflexivity.
  - exists (u "Time: " ++ timestamp ++ nl ++ u "Dream: " ++ dream ++ nl ++ nl
              ++ u "Interpretation:" ++ nl ++ interpretation ++ nl). eexists.
    rewrite <- !app_assoc. reflexivity.
Qed.

(** A successful [save_dream] leaves the old content followed by the
    entry. *)
Lemma save_dream_appends (timestamp dream interpretation : str)
    (file : journal) :
  snd (save_dream timestamp Written dream interpretation file) =
    Some (match file with Some content => content | None => [] end
          ++ entry timestamp (sanitize_text dream)
               (sanitize_text interpretation)).
Proof.
  destruct file; reflexivity.
Qed.

(** *** Reading the file back *)

(** The translation goes through a text from left to right. *)
Lemma newlines_from_app (before rest : str) (after_cr : bool) :
  exists flag,
    newlines_from after_cr (before ++ rest) =
      newlines_from after_cr before ++ newlines_from flag rest.
Proof.
  revert after_cr. induction before as [| c before IH]; intros after_cr.
  - exists after_cr. reflexivity.
  - simpl. destruct (c =? 13)%N.
    + destruct (IH true) as [flag H]. exists flag. rewrite H. reflexivity.
    + destruct ((c =? 10)%N && after_cr).
      * destruct (IH false) as [flag H]. exists flag. exact H.
      * destruct (IH false) as [flag H]. exists flag. rewrite H. reflexivity.
Qed.

(** Away from a carriage return, nothing is changed. *)
Lemma newlines_from_plain (text rest : str) :
  no_carriage_return text = true ->
  newlines_from false (text ++ rest) = text ++ newlines_from false rest.
Proof.
  induction text as [| c text IH]; [reflexivity |].
  simpl. intros H. apply andb_prop in H. destruct H as [Hc Htext].
  apply negb_true_iff in Hc. rewrite Hc, andb_false_r, (IH Htext).
  reflexivity.
Qed.

(** A text without a carriage return, which does not start with a
    line feed, is read back as it is, whatever is before it. *)
Lemma newlines_from_keeps (text rest : str) (after_cr : bool) :
  no_carriage_return text = true ->
  starts_clean text ->
  exists flag,
    newlines_from after_cr (text ++ rest) = text ++ newlines_from flag rest.
Proof.
  destruct text as [| c text]; [exists after_cr; reflexivity |].
  simpl. intros H Hclean. apply andb_prop in H. destruct H as [Hc Htext].
  apply negb_true_iff in Hc. rewrite Hc.
  assert (Hlf : (c =? 10)%N = false).
  { destruct (c =? 10)%N eqn:H10; [| reflexivity].
    apply N.eqb_eq in H10. subst c. discriminate. }
  rewrite Hlf. simpl. exists false.
  rewrite (newlines_from_plain _ _ Htext). reflexivity.
Qed.

(** So what the file contains is in what is read, for such a text. *)
Lemma universal_newlines_contains (content sub : str) :
  no_carriage_return sub = true ->
  starts_clean sub ->
  contains content sub ->
  contains (universal_newlines content) sub.
Proof.
  intros Hcr Hclean [before [after ->]]. unfold universal_newlines.
  destruct (newlines_from_app before (sub ++ after) false) as [flag ->].
  destruct (newlines_from_keeps sub after flag Hcr Hclean) as [flag' ->].
  exists (newlines_from false before), (newlines_from flag' after).
  reflexivity.
Qed.

(** No carriage return is ever read. *)
Lemma newlines_from_no_cr (text : str) (after_cr : bool) :
  ~ In 13%N (newlines_from after_cr text).
Proof.
  revert after_cr. induction text as [| c text IH]; intros after_cr;
    [intros [] |].
  simpl. destruct (c =? 13)%N eqn:Hc.
  - intros [H | H]; [discriminate | exact (IH _ H)].
  - destruct ((c =? 10)%N && after_cr); [apply IH |].
    intros [H | H]; [| exact (IH _ H)].
    subst c. discriminate.
Qed.

Lemma newlines_from_printable (text : str) (after_cr : bool) :
  printable text = true -> printable (newlines_from after_cr text) = true.
Proof.
  revert after_cr. induction text as [| c text IH]; intros after_cr;
    [reflexivity |].
  simpl. intros H. apply andb_prop in H. destruct H as [Hc Htext].
  destruct (c =? 13)%N.
  - simpl. apply (IH _ Htext).
  - destruct ((c =? 10)%N && after_cr); [apply (IH _ Htext) |].
    simpl. rewrite Hc. apply (IH _ Htext).
Qed.

(** [sanitize_text] keeps characters of the text only. *)
Lemma sanitize_text_incl (text : str) (c : char) :
  In c (sanitize_text text) -> In c text.
Proof.
  intros H. apply strip_incl in H. unfold remove_nul in H.
  apply filter_In in H. apply H.
Qed.

Lemma sanitize_text_printable (text : str) :
  printable text = true -> printable (sanitize_text text) = true.
Proof.
  unfold printable. intros H. apply forallb_forall. intros c Hc.
  apply (proj1 (forallb_forall _ _) H). apply sanitize_text_incl. exact Hc.
Qed.

Lemma entry_printable (timestamp dream interpretation : str) :
  printable timestamp = true -> printable dream = true ->
  printable interpretation = true ->
  printable (entry timestamp dream interpretation) = true.
Proof.
  intros Ht Hd Hi. unfold entry. rewrite !printable_app, Ht, Hd, Hi.
  reflexivity.
Qed.

(** What [view_journal] shows of a file whose text can be encoded. *)
Lemma view_journal_shows (content : str) :
  printable content = true ->
  view_journal ReadOk (Some content) = shows (universal_newlines content).
Proof.
  intros H. unfold view_journal, shows.
  rewrite encode_error_printable; [reflexivity |].
  rewrite !printable_app. unfold universal_newlines.
  rewrite (newlines_from_printable _ _ H). reflexivity.
Qed.

Lemma sanitized_starts_clean (text : str) :
  starts_clean (sanitize_text text).
Proof.
  pose proof (sanitize_text_sanitized text) as H.
  apply sanitized_spec in H. apply H.
Qed.

(** C8, as stated, fails: the file is read in text mode, which
    translates the ends of lines.  An interpretation in two lines
    separated by a carriage return and a line feed is sanitized to
    itself and saved as it is; what [view_journal] then shows has a
    line feed alone between the two lines, and so does not contain the
    interpretation that was saved. *)
Lemma carriage_return_is_not_shown :
  let saved :=
    snd (save_dream (u "2024-05-01 07:30:00") Written
           (u "I was flying over an ocean") TWO_LINES None) in
  sanitize_text TWO_LINES = TWO_LINES /\
  exists content page,
    saved = Some content /\
    contains content (sanitize_text TWO_LINES) /\
    view_journal ReadOk saved = shows page /\
    ~ contains page (sanitize_text TWO_LINES).
Proof.
  intros saved. subst saved. rewrite save_dream_appends.
  split; [reflexivity |].
  eexists. exists (universal_newlines
                     ([] ++ entry (u "2024-05-01 07:30:00")
                              (sanitize_text (u "I was flying over an ocean"))
                              (sanitize_text TWO_LINES))).
  split; [reflexivity |].
  split; [apply contains_app_l, entry_contains |].
  split; [apply view_journal_shows; reflexivity |].
  intros [before [after H]].
  apply (newlines_from_no_cr
           ([] ++ entry (u "2024-05-01 07:30:00")
                    (sanitize_text (u "I was flying over an ocean"))
                    (sanitize_text TWO_LINES)) false).
  fold (universal_newlines
          ([] ++ entry (u "2024-05-01 07:30:00")
                   (sanitize_text (u "I was flying over an ocean"))
                   (sanitize_text TWO_LINES))).
  rewrite H. apply in_or_app. right. apply in_or_app. left.
  change (sanitize_text TWO_LINES) with TWO_LINES.
  unfold TWO_LINES. apply in_or_app. right. left. reflexivity.
Qed.

(** C8, amended.  The round trip of the journal, when the file system
    does what it is asked and the texts can be encoded.  After
    [save_dream] the file exists and holds the sanitized dream, the
    sanitized interpretation and a run of 60 ['='].  [view_journal]
    shows the file as it is read in text mode, between its header and
    two rules: the run of 60 ['='] is in what is shown, and so are the
    sanitized dream and the sanitized interpretation when they hold no
    carriage return (a dream or an interpretation that is already
    sanitized is then shown as it was given).  After [clear_journal]
    with a confirmation that is ['y'] once put in lower case, the file
    does not exist.  [view_journal] on a file that does not exist
    types the empty-journal message, whatever reading would have done,
    and raises nothing. *)
Theorem journal_round_trip (lower : str -> str)
    (timestamp dream interpretation answer : str) (file : journal) :
  lower answer = u "y" ->
  printable (text_of file) = true ->
  printable timestamp = true ->
  printable dream = true ->
  printable interpretation = true ->
  let saved := snd (save_dream timestamp Written dream interpretation file) in
  (exists content page,
     saved = Some content /\
     contains content (sanitize_text dream) /\
     contains content (sanitize_text interpretation) /\
     contains content SIXTY_EQUALS /\
     view_journal ReadOk saved = shows page /\
     contains page SIXTY_EQUALS /\
     (no_carriage_return (sanitize_text dream) = true ->
      contains page (sanitize_text dream) /\
      (sanitized dream = true -> contains page dream)) /\
     (no_carriage_return (sanitize_text interpretation) = true ->
      contains page (sanitize_text interpretation) /\
      (sanitized interpretation = true -> contains page interpretation))) /\
  snd (clear_journal lower answer None saved) = None /\
  (forall io,
     typing_effect MSG_EMPTY (2 # 100)%Q Colors.YELLOW =
       (view_journal io None, Returned tt) /\
     typed Colors.YELLOW (view_journal io None) = MSG_EMPTY).
Proof.
  intros Hyes Hfile Htime Hdream Hinterpretation saved. subst saved.
  rewrite save_dream_appends. fold (text_of file).
  destruct (entry_contains timestamp (sanitize_text dream)
              (sanitize_text interpretation)) as [Hd [Hi Hs]].
  apply (contains_app_l (text_of file)) in Hd, Hi, Hs.
  split; [| split].
  - exists (text_of file
              ++ entry timestamp (sanitize_text dream)
                   (sanitize_text interpretation)),
      (universal_newlines
         (text_of file
            ++ entry timestamp (sanitize_text dream)
                 (sanitize_text interpretation))).
    split; [reflexivity |].
    split; [exact Hd |]. split; [exact Hi |]. split; [exact Hs |].
    split.
    { apply (view_journal_shows
               (text_of file
                  ++ entry timestamp (sanitize_text dream)
                       (sanitize_text interpretation))).
      rewrite printable_app, Hfile.
      apply entry_printable;
        [exact Htime | apply sanitize_text_printable; exact Hdream
         | apply sanitize_text_printable; exact Hinterpretation]. }
    split; [apply universal_newlines_contains;
              [reflexivity | reflexivity | exact Hs] |].
    split.
    + intros Hcr.
      assert (Hshown : contains
                (universal_newlines
                   (text_of file
                      ++ entry timestamp (sanitize_text dream)
                           (sanitize_text interpretation)))
                (sanitize_text dream)).
      { apply universal_newlines_contains;
          [exact Hcr | apply sanitized_starts_clean | exact Hd]. }
      revert Hshown.
      generalize (universal_newlines
                    (text_of file
                       ++ entry timestamp (sanitize_text dream)
                            (sanitize_text interpretation))).
      intros page Hshown. split; [exact Hshown |].
      intros Hclean. rewrite <- (sanitize_text_clean _ Hclean).
      exact Hshown.
    + intros Hcr.
      assert (Hshown : contains
                (universal_newlines
                   (text_of file
                      ++ entry timestamp (sanitize_text dream)
                           (sanitize_text interpretation)))
                (sanitize_text interpretation)).
      { apply universal_newlines_contains;
          [exact Hcr | apply sanitized_starts_clean | exact Hi]. }
      revert Hshown.
      generalize (universal_newlines
                    (text_of file
                       ++ entry timestamp (sanitize_text dream)
                            (sanitize_text interpretation))).
      intros page Hshown. split; [exact Hshown |].
      intros Hclean. rewrite <- (sanitize_text_clean _ Hclean).
      exact Hshown.
  - unfold clear_journal. rewrite Hyes. reflexivity.
  - intros io. split; reflexivity.
Qed.

Lemma journal_round_trip_witness :
  let saved :=
    snd (save_dream (u "2024-05-01 07:30:00") Written
           (u "  I was flying over an ocean ") Interpreter.OCEAN None) in
  (exists page,
     view_journal ReadOk saved = shows page /\
     contains page SIXTY_EQUALS /\
     contains page (u "I was flying over an ocean") /\
     contains page Interpreter.OCEAN) /\
  snd (clear_journal lower_ascii (u "Y") None saved) = None /\
  typed Colors.YELLOW (view_journal ReadOk None) =
    u "Your dream journal is empty. Time to start dreaming!".
Proof.
  intros saved.
  destruct (journal_round_trip lower_ascii (u "2024-05-01 07:30:00")
              (u "  I was flying over an ocean ") Interpreter.OCEAN (u "Y") None
              eq_refl eq_refl eq_refl eq_refl eq_refl)
    as [[content [page [_ [_ [_ [_ [Hview [Hline [Hdream Hvision]]]]]]]]]
        [Hclear Hempty]].
  split; [| split].
  - exists page. split; [exact Hview |]. split; [exact Hline |].
    split.
    + exact (proj1 (Hdream eq_refl)).
    + exact (proj2 (Hvision eq_refl) eq_refl).
  - exact Hclear.
  - exact (proj2 (Hempty ReadOk)).
Defined.

(** ** More on the journal *)

Lemma str_eqb_eq (a b : str) : str_eqb a b = true <-> a = b.
Proof.
  revert b. induction a as [| x a IH]; intros [| y b]; simpl;
    try (split; [discriminate | discriminate]); [tauto |].
  rewrite andb_true_iff, N.eqb_eq, IH. split.
  - intros [-> ->]. reflexivity.
  - intros H. inversion H. auto.
Qed.

Lemma str_eqb_neq (a b : str) : str_eqb a b = false <-> a <> b.
Proof.
  rewrite <- str_eqb_eq. destruct (str_eqb a b); split; congruence.
Qed.

(** Typing asks for nothing. *)
Lemma typing_chars_asks (text : str) (delay : Q) (color : str) :
  asks (fst (typing_chars text delay color)) = [].
Proof.
  induction text as [| c text IH]; [reflexivity |].
  simpl. destruct (encode_error (color ++ [c])); [reflexivity |].
  destruct (typing_chars text delay color) as [out r]. exact IH.
Qed.

Lemma typing_effect_asks (text : str) (delay : Q) (color : str) :
  asks (typing_message text delay color) = [].
Proof.
  unfold typing_message, typing_effect.
  pose proof (typing_chars_asks text delay color) as H.
  destruct (typing_chars text delay color) as [out [[] | e]]; cbn [fst] in *.
  - rewrite asks_app, H. reflexivity.
  - exact H.
Qed.



(** [lstrip] and [rstrip] remove white space only. *)
Lemma lstrip_split (text : str) :
  exists spaces,
    text = spaces ++ lstrip text /\ forallb is_space spaces = true.
Proof.
  induction text as [| c rest [spaces [IH Hs]]]; [exists []; auto |].
  simpl. destruct (is_space c) eqn:Hc.
  - exists (c :: spaces). simpl. rewrite <- IH, Hc, Hs. auto.
  - exists []. auto.
Qed.

Lemma forallb_rev (f : char -> bool) (l : str) :
  forallb f (rev l) = forallb f l.
Proof.
  induction l as [| c l IH]; [reflexivity |].
  simpl. rewrite forallb_app, IH. simpl. rewrite andb_true_r.
  apply andb_comm.
Qed.

Lemma rstrip_split (text : str) :
  exists spaces,
    text = rstrip text ++ spaces /\ forallb is_space spaces = true.
Proof.
  unfold rstrip. destruct (lstrip_split (rev text)) as [spaces [H Hs]].
  exists (rev spaces). rewrite forallb_rev. split; [| exact Hs].
  rewrite <- rev_app_distr, <- H, rev_involutive. reflexivity.
Qed.

(** The text without its NULs, cut in three. *)
Lemma remove_nul_split (text : str) :
  exists before after,
    remove_nul text = before ++ sanitize_text text ++ after /\
    forallb is_space before = true /\
    forallb is_space after = true.
Proof.
  unfold sanitize_text, strip.
  destruct (lstrip_split (remove_nul text)) as [before [Hb Hbs]].
  destruct (rstrip_split (lstrip (remove_nul text))) as [after [Ha Has]].
  exists before, after. repeat split; try assumption.
  rewrite <- Ha. exact Hb.
Qed.

(** X10.  [sanitize_text] removes nothing but the NULs and the white
    space at the two ends: the text without its NULs is what
    [sanitize_text] returns, between two runs of white space; so the
    result is never longer than the text. *)
Theorem sanitize_text_only_trims (text : str) :
  (exists before after,
     remove_nul text = before ++ sanitize_text text ++ after /\
     forallb is_space before = true /\
     forallb is_space after = true) /\
  length (sanitize_text text) <= length text.
Proof.
  split; [apply remove_nul_split |].
  destruct (remove_nul_split text) as [before [after [H _]]].
  assert (Hlen : length (remove_nul text) <= length text)
    by apply filter_length_le.
  rewrite H, !length_app in Hlen. lia.
Qed.

(** X11.  What [sanitize_text] returns has no NUL in it, does not start
    with white space and does not end with white space. *)
Theorem sanitize_text_is_clean (text : str) :
  ~ In 0%N (sanitize_text text) /\
  (forall c rest, sanitize_text text = c :: rest -> is_space c = false) /\
  (forall c before, sanitize_text text = before ++ [c] -> is_space c = false).
Proof.
  pose proof (sanitize_text_sanitized text) as H.
  apply sanitized_spec in H. destruct H as [Hnul [Hstart Hend]].
  split; [| split].
  - intros Hin.
    apply (proj1 (forallb_forall _ _) Hnul) in Hin. discriminate.
  - intros c rest Heq. rewrite Heq in Hstart. exact Hstart.
  - intros c before Heq. rewrite Heq, rev_app_distr in Hend. exact Hend.
Qed.

Lemma sanitize_text_is_clean_witness :
  Journal.is_space 73%N = false.
Proof.
  apply (proj1 (proj2 (sanitize_text_is_clean (u "  I was flying ")))
           73%N (u " was flying")).
  reflexivity.
Defined.

Lemma lstrip_blank (text : str) :
  forallb is_space text = true -> lstrip text = [].
Proof.
  induction text as [| c rest IH]; [reflexivity |].
  simpl. intros H. apply andb_prop in H. destruct H as [Hc Hrest].
  rewrite Hc. exact (IH Hrest).
Qed.

Lemma remove_nul_blank (text : str) :
  forallb blank text = true -> forallb is_space (remove_nul text) = true.
Proof.
  unfold remove_nul, blank.
  induction text as [| c rest IH]; [reflexivity |].
  simpl. intros H. apply andb_prop in H. destruct H as [Hc Hrest].
  destruct (c =? 0)%N; simpl in *; [exact (IH Hrest) |].
  rewrite Hc. exact (IH Hrest).
Qed.

Lemma forallb_blank_remove_nul (text : str) :
  forallb blank (remove_nul text) = true -> forallb blank text = true.
Proof.
  unfold remove_nul, blank.
  induction text as [| c rest IH]; [reflexivity |].
  simpl. destruct (c =? 0)%N eqn:Hc; simpl.
  - exact IH.
  - rewrite Hc. simpl. intros H. apply andb_prop in H.
    destruct H as [H1 H2]. rewrite H1. exact (IH H2).
Qed.

(** X12.  [sanitize_text] returns the empty string exactly for the
    texts made of NULs and white space only (the empty text among
    them). *)
Theorem sanitize_text_empty_iff_blank (text : str) :
  sanitize_text text = [] <-> forallb blank text = true.
Proof.
  split.
  - intros Hempty.
    destruct (remove_nul_split text) as [before [after [H [Hb Ha]]]].
    rewrite Hempty in H. simpl in H.
    apply forallb_blank_remove_nul. rewrite H, forallb_app.
    assert (Hsub : forall l, forallb is_space l = true ->
                             forallb blank l = true).
    { intros l Hl. apply forallb_forall. intros c Hc. unfold blank.
      rewrite (proj1 (forallb_forall _ _) Hl c Hc). apply orb_true_r. }
    rewrite (Hsub _ Hb), (Hsub _ Ha). reflexivity.
  - intros Hblank. unfold sanitize_text, strip.
    rewrite (lstrip_blank _ (remove_nul_blank _ Hblank)). reflexivity.
Qed.

Lemma sanitize_text_empty_iff_blank_witness :
  sanitize_text ([0; 32; 9; 0; 12288; 10]%N) = [].
Proof.
  apply (proj2 (sanitize_text_empty_iff_blank ([0; 32; 9; 0; 12288; 10]%N))).
  reflexivity.
Defined.

(** X13.  The journal only grows: two successful calls of [save_dream]
    leave the text the file had, followed by the first entry, followed
    by the second. *)
Theorem saves_accumulate (t1 d1 i1 t2 d2 i2 : str) (file : journal) :
  let first := snd (save_dream t1 Written d1 i1 file) in
  snd (save_dream t2 Written d2 i2 first) =
    Some (match file with Some content => content | None => [] end
          ++ entry t1 (sanitize_text d1) (sanitize_text i1)
          ++ entry t2 (sanitize_text d2) (sanitize_text i2)).
Proof.
  intros first. subst first. rewrite !save_dream_appends.
  rewrite <- app_assoc. reflexivity.
Qed.

(** X14.  [clear_journal] deletes the file only on a confirmation that
    is ['y'] in lower case and when [os.remove] succeeds.  With any
    other answer, or when [os.remove] raises, the file is left as it
    was; and when there is no file, nothing is asked. *)
Theorem clear_journal_needs_a_yes (lower : str -> str) (answer : str)
    (io : option pyexc) (file : journal) :
  (lower answer <> u "y" -> snd (clear_journal lower answer io file) = file) /\
  (io <> None -> snd (clear_journal lower answer io file) = file) /\
  (snd (clear_journal lower answer io file) <> file ->
   lower answer = u "y" /\ io = None /\
   snd (clear_journal lower answer io file) = None) /\
  (file = None -> asks (fst (clear_journal lower answer io file)) = []).
Proof.
  unfold clear_journal.
  destruct file as [content |].
  - destruct (str_eqb (lower answer) (u "y")) eqn:Hy.
    + apply str_eqb_eq in Hy.
      destruct io as [e |]; cbn [fst snd]; repeat split;
        try congruence; try tauto.
    + apply str_eqb_neq in Hy. cbn [fst snd]. repeat split;
        try congruence; try tauto.
  - cbn [fst snd]. split; [| split; [| split]]; try congruence.
    intros _. apply typing_effect_asks.
Qed.

Lemma clear_journal_needs_a_yes_witness :
  snd (clear_journal lower_ascii (u "yes") None (Some (u "kept"))) =
    Some (u "kept").
Proof.
  apply (proj1 (clear_journal_needs_a_yes lower_ascii (u "yes") None
                  (Some (u "kept")))).
  apply str_eqb_neq. reflexivity.
Defined.

End JournalTheory.

(** * Properties of the call of the API *)

Module OracleTheory.
Import Py Oracle.

(** X15.  [build_prompt] puts the dream, as it is, after a text that is
    the same for every dream; so two dreams with the same prompt are the
    same dream. *)
Theorem build_prompt_keeps_the_dream (dream : str) :
  build_prompt dream = build_prompt [] ++ dream /\
  (forall other, build_prompt dream = build_prompt other -> dream = other).
Proof.
  split.
  - unfold build_prompt. rewrite app_nil_r, <- !app_assoc. reflexivity.
  - intros other. unfold build_prompt. rewrite !app_assoc.
    apply app_inv_head.
Qed.

Lemma build_prompt_keeps_the_dream_witness :
  u "I was flying" = u "I was flying".
Proof.
  apply (proj2 (build_prompt_keeps_the_dream (u "I was flying"))
           (u "I was flying")).
  reflexivity.
Defined.

Section Calls.

Variable json_loads : str -> result pyval.
Variable repr : pyval -> str.
Variable network : request -> nat -> Executor.attempt_outcome.

Lemma net_events_app (a b : list event) :
  net_events (a ++ b) = net_events a ++ net_events b.
Proof.
  unfold net_events. apply flat_map_app.
Qed.

Lemma net_events_net (sent : list Executor.event) :
  net_events (map Net sent) = sent.
Proof.
  induction sent as [| e sent IH]; [reflexivity |].
  simpl. rewrite IH. reflexivity.
Qed.

Lemma net_events_parse (shown : list Interpreter.event) :
  net_events (map Parse shown) = [].
Proof.
  induction shown as [| e shown IH]; [reflexivity | exact IH].
Qed.

Lemma net_events_ui (shown : list Journal.event) :
  net_events (map Ui shown) = [].
Proof.
  induction shown as [| e shown IH]; [reflexivity | exact IH].
Qed.

(** The events of the executor in a call are those of
    [make_api_request] for the request of that call. *)
Lemma get_ai_interpretation_net (dream api_key : str) :
  net_events (fst (get_ai_interpretation json_loads repr network
                     dream api_key)) =
    fst (Executor.make_api_request json_loads
           (network
              (request_of
                 (API_BASE_URL ++ u "/models/" ++ MODEL_ID
                    ++ u ":generateContent")
                 api_key (u "POST") (payload dream)))).
Proof.
  unfold get_ai_interpretation.
  destruct (Executor.make_api_request json_loads _) as [sent [response | e]].
  - destruct (Interpreter.parse_generation_response repr response)
      as [shown [answer | e]]; cbn [fst];
      rewrite !net_events_app, net_events_net, net_events_parse;
      apply app_nil_r.
  - cbn [fst]. rewrite net_events_app, net_events_net. apply app_nil_r.
Qed.

End Calls.

(** X16.  When the network fails at every attempt, the interpretation
    given to the user is "The Oracle is silent. " followed by the
    message of the last failure; it comes after three calls of
    [urlopen] and sleeps of 2, 4 and 6 seconds. *)
Theorem silent_when_unreachable (json_loads : str -> result pyval)
    (repr : pyval -> str)
    (network : request -> nat -> Executor.attempt_outcome)
    (dream api_key : str) :
  (forall req k, k < Executor.MAX_RETRIES ->
                 Executor.connection_failure (network req k)) ->
  let call := get_ai_interpretation json_loads repr network dream api_key in
  (exists req,
     snd call =
       PStr (MSG_SILENT
               ++ Executor.failure_message
                    (network req (Executor.MAX_RETRIES - 1)))) /\
  Executor.attempts_made (net_events (fst call)) = [0; 1; 2] /\
  Executor.sleeps (net_events (fst call)) = [2; 4; 6].
Proof.
  intros Hfail call. subst call.
  rewrite get_ai_interpretation_net.
  unfold get_ai_interpretation.
  set (req := request_of _ api_key (u "POST") (payload dream)).
  assert (Hall : forall k, k < Executor.MAX_RETRIES ->
            Executor.retried json_loads (network req) k <> None).
  { intros k Hk.
    destruct (ExecutorTheory.connection_failure_retried json_loads
                (network req) k (Hfail req k Hk)) as [line Hline].
    rewrite Hline. discriminate. }
  unfold Executor.make_api_request.
  rewrite (ExecutorTheory.request_with_all_retried _ _ _ Hall).
  destruct (ExecutorTheory.connection_failure_retried json_loads
              (network req) 2 (Hfail req 2 ltac:(unfold Executor.MAX_RETRIES; lia)))
    as [line Hline].
  assert (Hin : forall k, In k (seq 0 Executor.MAX_RETRIES) ->
            Executor.retried json_loads (network req) k <> None).
  { intros k Hk. apply in_seq in Hk. apply Hall. lia. }
  split; [| split].
  - exists req.
    change (seq 0 Executor.MAX_RETRIES) with ([0; 1] ++ [2]).
    rewrite (ExecutorTheory.recorded_last _ _ _ _ _ _ _ Hline).
    reflexivity.
  - cbn [fst].
    rewrite (ExecutorTheory.attempts_made_retried _ _ _ Hin). reflexivity.
  - cbn [fst].
    rewrite (ExecutorTheory.sleeps_retried _ _ _ Hin). reflexivity.
Qed.

Lemma silent_when_unreachable_witness :
  Executor.sleeps
    (net_events
       (fst (get_ai_interpretation json_loads_two Interpreter.repr_type
               unreachable (u "I was flying") (u "key")))) = [2; 4; 6].
Proof.
  apply (silent_when_unreachable json_loads_two Interpreter.repr_type
           unreachable (u "I was flying") (u "key")).
  intros req k _. exact I.
Defined.

(** X17.  When the server answers the first attempt with an error
    status, there is that one call of [urlopen] and no sleep.  If the
    body of the error is read and decoded, it is printed and the
    interpretation given to the user is "The Oracle is silent. API
    Error: " followed by the reason.  If reading or decoding it raises,
    nothing is printed by the executor and the interpretation is "The
    Oracle is silent. " followed by the message of that exception. *)
Theorem silent_on_http_error (json_loads : str -> result pyval)
    (repr : pyval -> str)
    (network : request -> nat -> Executor.attempt_outcome)
    (dream api_key reason : str) :
  let call := get_ai_interpretation json_loads repr network dream api_key in
  (forall error_body,
     (forall req, network req 0 = Executor.HTTPError reason error_body) ->
     snd call = PStr (MSG_SILENT ++ u "API Error: " ++ reason) /\
     net_events (fst call) =
       [Executor.Urlopen 0; Executor.Printed (Executor.http_line error_body)]) /\
  (forall e,
     (forall req, network req 0 = Executor.HTTPErrorUnreadable reason e) ->
     snd call = PStr (MSG_SILENT ++ exc_text e) /\
     net_events (fst call) = [Executor.Urlopen 0]).
Proof.
  intros call. subst call. split.
  - intros error_body Hhttp.
    rewrite get_ai_interpretation_net.
    unfold get_ai_interpretation.
    set (req := request_of _ api_key (u "POST") (payload dream)).
    unfold Executor.make_api_request.
    rewrite (ExecutorTheory.http_error_ends_the_loop json_loads (network req)
               Executor.MAX_RETRIES 0 reason error_body);
      [| unfold Executor.MAX_RETRIES; lia | intros j Hj; lia | apply Hhttp].
    split; reflexivity.
  - intros e Hhttp.
    rewrite get_ai_interpretation_net.
    unfold get_ai_interpretation.
    set (req := request_of _ api_key (u "POST") (payload dream)).
    unfold Executor.make_api_request.
    rewrite (ExecutorTheory.unreadable_ends_the_loop json_loads (network req)
               Executor.MAX_RETRIES 0 reason e);
      [| unfold Executor.MAX_RETRIES; lia | intros j Hj; lia | apply Hhttp].
    split; reflexivity.
Qed.

Lemma silent_on_http_error_witness :
  snd (get_ai_interpretation json_loads_two Interpreter.repr_type
         (fun _ => Executor.forbidden) (u "I was flying") (u "key")) =
    PStr (u "The Oracle is silent. API Error: Forbidden") /\
  snd (get_ai_interpretation json_loads_two Interpreter.repr_type
         (fun _ => Executor.bad_gateway) (u "I was flying") (u "key")) =
    PStr (u "The Oracle is silent. 'utf-8' codec can't decode byte 0xff in position 0: invalid start byte").
Proof.
  split.
  - apply (proj1 (silent_on_http_error json_loads_two Interpreter.repr_type
                    (fun _ => Executor.forbidden) (u "I was flying") (u "key")
                    (u "Forbidden"))
             (u "API key not valid")).
    reflexivity.
  - apply (proj2 (silent_on_http_error json_loads_two Interpreter.repr_type
                    (fun _ => Executor.bad_gateway) (u "I was flying")
                    (u "key") (u "Bad Gateway"))
             Executor.INVALID_START_BYTE).
    reflexivity.
Defined.

(** X18.  When the first attempt gets a 2xx response whose body parses,
    the executor has only called [urlopen] once, and the parsed body
    goes to [parse_generation_response].  What that returns is the
    interpretation.  If it raises (the parsed body is a string that
    standard output cannot encode), the handler of
    [get_ai_interpretation] prints its line and the interpretation is
    "The Oracle is silent. " followed by the message of the
    exception. *)
Theorem interpretation_of_first_answer (json_loads : str -> result pyval)
    (repr : pyval -> str)
    (network : request -> nat -> Executor.attempt_outcome)
    (dream api_key body : str) (response : pyval) :
  (forall req, network req 0 = Executor.Response body) ->
  json_loads body = Returned response ->
  let parsed := Interpreter.parse_generation_response repr response in
  let call := get_ai_interpretation json_loads repr network dream api_key in
  (forall answer,
     snd parsed = Returned answer ->
     call = (Net (Executor.Urlopen 0) :: map Parse (fst parsed), answer)) /\
  (forall e,
     snd parsed = Raised e ->
     call =
       (Net (Executor.Urlopen 0) :: map Parse (fst parsed)
          ++ [Ui (Journal.Printed
                    (Colors.RED ++ u "API call failed after all retries."
                       ++ Colors.ENDC))],
        PStr (u "The Oracle is silent. " ++ exc_text e))).
Proof.
  intros Hresp Hparse parsed call. subst parsed call.
  unfold get_ai_interpretation.
  set (req := request_of _ api_key (u "POST") (payload dream)).
  unfold Executor.make_api_request.
  rewrite (ExecutorTheory.response_ends_the_loop json_loads (network req)
             Executor.MAX_RETRIES 0 body response);
    [| unfold Executor.MAX_RETRIES; lia | intros j Hj; lia | apply Hresp
     | exact Hparse].
  destruct (Interpreter.parse_generation_response repr response)
    as [shown [answer | e]]; cbn [fst snd]; split;
    intros x Hx; inversion Hx; reflexivity.
Qed.

Lemma interpretation_of_first_answer_witness :
  snd (get_ai_interpretation json_loads_two Interpreter.repr_type
         (answers (u "ocean")) (u "I was flying over an ocean") (u "key")) =
    PStr Interpreter.OCEAN /\
  snd (get_ai_interpretation json_loads_surrogate Interpreter.repr_type
         (answers (u "surrogate")) (u "I was flying over an ocean")
         (u "key")) =
    PStr (u "The Oracle is silent. "
          ++ exc_text (UnicodeEncodeError 55296%N 14 0)).
Proof.
  split.
  - rewrite (proj1 (interpretation_of_first_answer json_loads_two
                      Interpreter.repr_type (answers (u "ocean"))
                      (u "I was flying over an ocean") (u "key") (u "ocean")
                      (Interpreter.response_of
                         (Interpreter.candidate_with (u "STOP")
                            Interpreter.OCEAN))
                      ltac:(reflexivity) eq_refl)
               (PStr Interpreter.OCEAN) eq_refl).
    reflexivity.
  - rewrite (proj2 (interpretation_of_first_answer json_loads_surrogate
                      Interpreter.repr_type (answers (u "surrogate"))
                      (u "I was flying over an ocean") (u "key")
                      (u "surrogate") (PStr Interpreter.LONE_SURROGATE)
                      ltac:(reflexivity) eq_refl)
               (UnicodeEncodeError 55296%N 14 0) eq_refl).
    reflexivity.
Defined.

(** X19.  Whatever the network and the server do,
    [get_ai_interpretation] gives back a value that is not empty, and
    its executor never calls [urlopen] more than three times. *)
Theorem interpretation_is_never_empty (json_loads : str -> result pyval)
    (repr : pyval -> str)
    (network : request -> nat -> Executor.attempt_outcome)
    (dream api_key : str) :
  let call := get_ai_interpretation json_loads repr network dream api_key in
  truthy (snd call) = true /\
  length (Executor.attempts_made (net_events (fst call))) <= 3.
Proof.
  intros call. subst call. split.
  - unfold get_ai_interpretation.
    destruct (Executor.make_api_request json_loads _) as [sent [response | e]].
    + pose proof (InterpreterTheory.answer_is_truthy repr response) as H.
      destruct (Interpreter.parse_generation_response repr response)
        as [shown [answer | e']].
      * exact (H answer eq_refl).
      * reflexivity.
    + reflexivity.
  - rewrite get_ai_interpretation_net.
    unfold Executor.make_api_request.
    destruct (ExecutorTheory.run_shape json_loads
                (network
                   (request_of
                      (API_BASE_URL ++ u "/models/" ++ MODEL_ID
                         ++ u ":generateContent")
                      api_key (u "POST") (payload dream)))
                Executor.MAX_RETRIES)
      as [k [tail [Hk [Hrun [Hall Htail]]]]].
    rewrite Hrun. unfold Executor.attempts_made. rewrite flat_map_app.
    rewrite length_app.
    fold (Executor.attempts_made
            (flat_map (Executor.retry_events json_loads
                         (network
                            (request_of
                               (API_BASE_URL ++ u "/models/" ++ MODEL_ID
                                  ++ u ":generateContent")
                               api_key (u "POST") (payload dream))))
               (seq 0 k))).
    rewrite ExecutorTheory.attempts_made_retried
      by (intros j Hj; apply in_seq in Hj; apply Hall; lia).
    rewrite length_seq. unfold Executor.MAX_RETRIES in *.
    destruct Htail as [[_ ->] | [[Hlt ->] | [Hlt [line ->]]]]; simpl; lia.
Qed.

End OracleTheory.

(** * Properties of the session *)

Module SessionTheory.
Import Py Oracle Session PyTheory.

Lemma Journal_eq_dec (a b : Journal.journal) : {a = b} + {a <> b}.
Proof.
  decide equality. apply list_eq_dec. apply N.eq_dec.
Qed.

Section Library.

Variable json_loads : str -> result pyval.
Variable repr : pyval -> str.
Variable lower : str -> str.

(** ** The API key *)

Lemma ask_api_key_some (inputs rest : list str) (out : list event)
    (key : str) :
  ask_api_key lower inputs = (out, Returned (Some key), rest) ->
  key <> [] /\
  exists line, In line inputs /\ key = Journal.strip line /\
               lower key <> u "q".
Proof.
  revert out rest. induction inputs as [| line inputs IH]; intros out rest.
  - simpl. discriminate.
  - simpl.
    destruct (str_eqb (lower (Journal.strip line)) (u "q")) eqn:Hq;
      [discriminate |].
    destruct (Journal.strip line) as [| c key'] eqn:Hstrip.
    + destruct (ask_api_key lower inputs) as [[out' r] rest'].
      intros H. inversion H. subst.
      destruct (IH _ _ eq_refl) as [Hne [l [Hin Hl]]].
      split; [exact Hne |]. exists l. split; [right; exact Hin | exact Hl].
    + intros H. inversion H. subst.
      split; [discriminate |].
      exists line. split; [left; reflexivity |].
      split; [symmetry; exact Hstrip |].
      apply JournalTheory.str_eqb_neq. exact Hq.
Qed.

Lemma ask_api_key_other (inputs rest : list str) (out : list event)
    (r : result (option str)) :
  ask_api_key lower inputs = (out, r, rest) ->
  (r = Returned None ->
   exists line, In line inputs /\ lower (Journal.strip line) = u "q") /\
  (forall e, r = Raised e -> e = EOFError /\ rest = []).
Proof.
  revert out rest. induction inputs as [| line inputs IH]; intros out rest.
  - simpl. intros H. inversion H. subst. split; [discriminate |].
    intros e He. inversion He. auto.
  - simpl.
    destruct (str_eqb (lower (Journal.strip line)) (u "q")) eqn:Hq.
    + intros H. inversion H. subst. split; [| discriminate].
      intros _. exists line. split; [left; reflexivity |].
      apply JournalTheory.str_eqb_eq. exact Hq.
    + destruct (Journal.strip line) as [| c key'] eqn:Hstrip.
      * destruct (ask_api_key lower inputs) as [[out' r'] rest'].
        intros H. inversion H. subst.
        destruct (IH _ _ eq_refl) as [Hnone Hraise].
        split; [| exact Hraise].
        intros Hr. destruct (Hnone Hr) as [l [Hin Hl]].
        exists l. split; [right; exact Hin | exact Hl].
      * intros H. inversion H. subst. split; discriminate.
Qed.

(** When the loop gives up, the last thing it did was to read a 'q'
    at its prompt. *)
Lemma ask_api_key_quit (inputs rest : list str) (out : list event) :
  ask_api_key lower inputs = (out, Returned None, rest) ->
  exists before line,
    out = before ++ [asked key_prompt; entered line] /\
    In line inputs /\ lower (Journal.strip line) = u "q".
Proof.
  revert out rest. induction inputs as [| line inputs IH]; intros out rest.
  - simpl. discriminate.
  - simpl.
    destruct (str_eqb (lower (Journal.strip line)) (u "q")) eqn:Hq.
    + intros H. inversion H. subst.
      exists [], line. split; [reflexivity |].
      split; [left; reflexivity |].
      apply JournalTheory.str_eqb_eq. exact Hq.
    + destruct (Journal.strip line) as [| c key'] eqn:Hstrip; [| discriminate].
      destruct (ask_api_key lower inputs) as [[out' r'] rest'].
      intros H. inversion H. subst.
      destruct (IH _ _ eq_refl) as [before [l [-> [Hin Hl]]]].
      eexists (_ :: _ :: _ :: before), l.
      split; [reflexivity |]. split; [right; exact Hin | exact Hl].
Qed.

(** X20.  A key that [get_api_key] returns is never empty.  It is the
    value of the environment variable, or a line typed at the prompt
    with the white space around it removed, and then it is not ['q'] in
    lower case. *)
Theorem api_key_is_never_empty (environment : option str)
    (inputs rest : list str) (out : list event) (key : str) :
  get_api_key lower environment inputs = (out, Returned (Some key), rest) ->
  key <> [] /\
  ((environment = Some key /\ rest = inputs) \/
   (exists line, In line inputs /\ key = Journal.strip line /\
                 lower key <> u "q")).
Proof.
  unfold get_api_key.
  destruct environment as [[| c k] |].
  - destruct (ask_api_key lower inputs) as [[out' r] rest'] eqn:Hask.
    intros H. inversion H. subst.
    destruct (ask_api_key_some _ _ _ _ Hask) as [Hne Hline]. auto.
  - intros H. inversion H. subst. split; [discriminate | left; auto].
  - destruct (ask_api_key lower inputs) as [[out' r] rest'] eqn:Hask.
    intros H. inversion H. subst.
    destruct (ask_api_key_some _ _ _ _ Hask) as [Hne Hline]. auto.
Qed.


(** ** The menu loop *)

Variable w : world.

Let loop := main_loop json_loads repr lower w.

Lemma events_prepend {A} (out : list event) (r : outcome A) :
  events (prepend out r) = out ++ events r.
Proof. destruct r as [[o res] f]. reflexivity. Qed.

Lemma ended_prepend {A} (out : list event) (r : outcome A) :
  ended (prepend out r) = ended r.
Proof. destruct r as [[o res] f]. reflexivity. Qed.

Lemma left_file_prepend {A} (out : list event) (r : outcome A) :
  left_file (prepend out r) = left_file r.
Proof. destruct r as [[o res] f]. reflexivity. Qed.

Lemma prepend_prepend {A} (a b : list event) (r : outcome A) :
  prepend a (prepend b r) = prepend (a ++ b) r.
Proof. destruct r as [[o res] f]. simpl. rewrite app_assoc. reflexivity. Qed.

(** Events that are not the executor's. *)
Lemma net_events_typing (text : str) (delay : Q) (color : str) :
  net_events (typing text delay color) = [].
Proof. apply OracleTheory.net_events_ui. Qed.

Lemma net_events_menu (line : str) (tail : list event) :
  net_events (menu_lines ++ asked menu_prompt :: entered line :: tail)
  = net_events tail.
Proof. reflexivity. Qed.

(** The welcome and the farewell are typed to the end. *)
Lemma session_messages_are_typed :
  Journal.typing_effect WELCOME (4 # 100) Colors.MAGENTA =
    (Journal.typing_message WELCOME (4 # 100) Colors.MAGENTA, Returned tt) /\
  Journal.typing_effect FAREWELL (3 # 100) Colors.MAGENTA =
    (Journal.typing_message FAREWELL (3 # 100) Colors.MAGENTA, Returned tt).
Proof.
  split; apply JournalTheory.typing_message_returns; reflexivity.
Qed.

(** Typing the interpretation: the events are the user interface's; an
    exception is the encoder's, for an interpretation that is a string
    standard output cannot encode. *)
Lemma typing_value_quiet (interpretation : pyval) :
  net_events (fst (typing_value repr interpretation)) = [].
Proof.
  destruct interpretation; try apply OracleTheory.net_events_ui.
  simpl. destruct (Journal.typing_effect s (2 # 100) Colors.CYAN).
  apply OracleTheory.net_events_ui.
Qed.

Lemma typing_value_raises (interpretation : pyval) (shown : list event)
    (e : pyexc) :
  typing_value repr interpretation = (shown, Raised e) ->
  exists text out,
    interpretation = PStr text /\
    Journal.typing_effect text (2 # 100) Colors.CYAN = (out, Raised e) /\
    printable text = false /\
    exc_class e = u "UnicodeEncodeError".
Proof.
  destruct interpretation; try discriminate.
  simpl.
  destruct (Journal.typing_effect s (2 # 100) Colors.CYAN) as [out r] eqn:Ht.
  intros H. inversion H. subst.
  destruct (JournalTheory.typing_effect_raises _ _ _ _ _ Ht) as [Hclass Hp].
  exists s, out. auto.
Qed.

(** The pause at the end of a turn goes on with the loop, on the lines
    that are left or on none. *)
Lemma pause_goes_on (key : str) (turn : nat) (rest : list str)
    (file : Journal.journal) :
  exists skipped rest' shown,
    rest = skipped ++ rest' /\
    net_events shown = [] /\
    press_enter rest (fun rest' => loop key (S turn) rest' file) =
    prepend shown (loop key (S turn) rest' file).
Proof.
  destruct rest as [| l rest].
  - exists [], [], [asked enter_prompt]. repeat split.
  - exists [l], rest, [asked enter_prompt; entered l]. repeat split.
Qed.

(** The file changes in [clear_journal] only after a ['y']. *)
Lemma clear_journal_changed (answer : str) (io : option pyexc)
    (file : Journal.journal) :
  snd (Journal.clear_journal lower answer io file) <> file ->
  lower answer = u "y".
Proof.
  unfold Journal.clear_journal. destruct file as [content |].
  - destruct (str_eqb (lower answer) (u "y")) eqn:Hy.
    + intros _. apply JournalTheory.str_eqb_eq. exact Hy.
    + simpl. congruence.
  - simpl. congruence.
Qed.

Lemma net_events_clear (answer : str) (io : option pyexc)
    (file : Journal.journal) :
  net_events (map Ui (fst (Journal.clear_journal lower answer io file))) = [].
Proof. apply OracleTheory.net_events_ui. Qed.

(** The exceptions that end a turn: the [EOFError] of [input], the
    [AttributeError] of [sanitize_text] on a value that is not a
    string, the [UnicodeEncodeError] of [typing_effect] on an
    interpretation that standard output cannot encode. *)
Lemma turn_exceptions_eof (key : str) :
  turn_exception json_loads repr w key EOFError.
Proof. left. reflexivity. Qed.

(** One turn of the menu loop, for a first line [line]: the lines it
    reads, what it does after it has read [line] at the menu, and
    whether the session ends there ([Some]) or goes on with the next
    turn ([None]). *)
Lemma one_turn (key : str) (turn : nat) (line : str) (rest : list str)
    (file : Journal.journal) :
  exists (consumed rest' : list str) (tail : list event)
         (res : option (result unit)) (file' : Journal.journal),
    line :: rest = consumed ++ rest' /\
    consumed <> [] /\
    (net_events tail <> [] ->
     exists dream after,
       tail = asked dream_prompt :: entered dream :: after /\
       In dream rest /\
       Journal.strip line = u "1" /\ Journal.strip dream <> []) /\
    (file' <> file -> exists l, In l consumed /\ lower l = u "y") /\
    match res with
    | None =>
        loop key turn (line :: rest) file =
          prepend (menu_lines ++ asked menu_prompt :: entered line :: tail)
            (loop key (S turn) rest' file')
    | Some r =>
        loop key turn (line :: rest) file =
          (menu_lines ++ asked menu_prompt :: entered line :: tail, r, file') /\
        (r = Returned tt -> Journal.strip line = u "4") /\
        (forall e, r = Raised e -> turn_exception json_loads repr w key e)
    end.
Proof.
  unfold loop. cbn [main_loop].
  assert (Hmenu : forall tail : list event,
            (menu_lines ++ [asked menu_prompt; entered line]) ++ tail =
            menu_lines ++ asked menu_prompt :: entered line :: tail).
  { intros tail. rewrite <- app_assoc. reflexivity. }
  destruct (str_eqb (Journal.strip line) (u "1")) eqn:H1.
  { (* choice 1 *)
    apply JournalTheory.str_eqb_eq in H1.
    destruct rest as [| dream rest1].
    - exists [line], [], [asked dream_prompt], (Some (Raised EOFError)), file.
      split; [reflexivity |].
      split; [discriminate |].
      split; [intros H; exfalso; apply H; reflexivity |].
      split; [congruence |].
      split; [rewrite Hmenu; reflexivity |].
      split; [discriminate |].
      intros e He. inversion He. apply turn_exceptions_eof.
    - destruct (Journal.strip dream) as [| c d] eqn:Hdream.
      + exists [line; dream], rest1,
          ([asked dream_prompt; entered dream] ++ [printed MSG_NO_DREAM]),
          None, file.
        split; [reflexivity |].
        split; [discriminate |].
        split; [intros H; exfalso; apply H; reflexivity |].
        split; [congruence |].
        rewrite <- !app_assoc. reflexivity.
      + destruct (get_ai_interpretation json_loads repr (network w turn)
                    dream key) as [heard interpretation] eqn:Hai.
        pose proof (typing_value_quiet interpretation) as Hquiet.
        destruct (typing_value repr interpretation) as [shown r] eqn:Htyping.
        cbn [fst] in Hquiet.
        assert (Hcalled : forall after : list event,
                  exists dream' after',
                    asked dream_prompt :: entered dream :: after =
                    asked dream_prompt :: entered dream' :: after' /\
                    In dream' (dream :: rest1) /\
                    Journal.strip line = u "1" /\ Journal.strip dream' <> []).
        { intros after. exists dream, after.
          split; [reflexivity |]. split; [left; reflexivity |].
          split; [exact H1 |]. rewrite Hdream. discriminate. }
        destruct r as [[] | e].
        * destruct rest1 as [| save_choice rest2].
          -- exists [line; dream], [],
               (asked dream_prompt :: entered dream
                  :: [printed MSG_GAZING] ++ heard ++ [printed MSG_SPEAKS]
                  ++ shown ++ [asked save_prompt]),
               (Some (Raised EOFError)), file.
             split; [reflexivity |].
             split; [discriminate |].
             split; [intros _; apply Hcalled |].
             split; [congruence |].
             split; [rewrite <- Hmenu, <- !app_assoc; reflexivity |].
             split; [discriminate |].
             intros e He. inversion He. apply turn_exceptions_eof.
          -- destruct (str_eqb (lower save_choice) (u "y")) eqn:Hy.
             ++ apply JournalTheory.str_eqb_eq in Hy.
                assert (Hcases :
                  (exists text, interpretation = PStr text) \/
                  ((forall text, interpretation <> PStr text) /\
                   save_dream_of (strftime w turn) (on_write w turn) dream
                     interpretation file =
                   ([],
                    Raised (AttributeError
                              (u "'" ++ type_name interpretation
                                 ++ u "' object has no attribute 'replace'")),
                    file))).
                { destruct interpretation; eauto;
                    right; split; solve [discriminate | reflexivity]. }
                destruct Hcases as [[text Htext] | [Hother Hcrash]].
                ** subst interpretation. cbn [save_dream_of].
                   destruct (Journal.save_dream (strftime w turn)
                               (on_write w turn) dream text file)
                     as [saved file'].
                   destruct (pause_goes_on key turn rest2 file')
                     as [skipped [rest' [pressed [Hrest [Hpressed Hpause]]]]].
                   unfold loop in Hpause.
                   exists (line :: dream :: save_choice :: skipped), rest',
                     (asked dream_prompt :: entered dream
                        :: [printed MSG_GAZING] ++ heard ++ [printed MSG_SPEAKS]
                        ++ shown ++ [asked save_prompt; entered save_choice]
                        ++ map Ui saved ++ pressed),
                     None, file'.
                   split; [simpl; rewrite Hrest; reflexivity |].
                   split; [discriminate |].
                   split; [intros _; apply Hcalled |].
                   split; [intros _; exists save_choice; simpl; auto |].
                   rewrite Hpause, prepend_prepend, <- Hmenu, <- !app_assoc.
                   reflexivity.
                ** rewrite Hcrash.
                   exists [line; dream; save_choice], rest2,
                     (asked dream_prompt :: entered dream
                        :: [printed MSG_GAZING] ++ heard ++ [printed MSG_SPEAKS]
                        ++ shown ++ [asked save_prompt; entered save_choice]),
                     (Some (Raised
                              (AttributeError
                                 (u "'" ++ type_name interpretation
                                    ++ u "' object has no attribute 'replace'")))),
                     file.
                   split; [reflexivity |].
                   split; [discriminate |].
                   split; [intros _; apply Hcalled |].
                   split; [congruence |].
                   split; [rewrite <- Hmenu, app_nil_r, <- !app_assoc;
                           reflexivity |].
                   split; [discriminate |].
                   intros e He. inversion He. right. left.
                   exists turn, dream. rewrite Hai. cbn [snd].
                   split; [exact Hother | reflexivity].
             ++ destruct (pause_goes_on key turn rest2 file)
                  as [skipped [rest' [pressed [Hrest [Hpressed Hpause]]]]].
                unfold loop in Hpause.
                exists (line :: dream :: save_choice :: skipped), rest',
                  (asked dream_prompt :: entered dream
                     :: [printed MSG_GAZING] ++ heard ++ [printed MSG_SPEAKS]
                     ++ shown ++ [asked save_prompt; entered save_choice]
                     ++ pressed),
                  None, file.
                split; [simpl; rewrite Hrest; reflexivity |].
                split; [discriminate |].
                split; [intros _; apply Hcalled |].
                split; [congruence |].
                rewrite Hpause, prepend_prepend, <- Hmenu, <- !app_assoc.
                reflexivity.
        * exists [line; dream], rest1,
            (asked dream_prompt :: entered dream
               :: [printed MSG_GAZING] ++ heard ++ [printed MSG_SPEAKS]
               ++ shown),
            (Some (Raised e)), file.
          split; [reflexivity |].
          split; [discriminate |].
          split; [intros _; apply Hcalled |].
          split; [congruence |].
          split; [rewrite <- Hmenu, <- !app_assoc; reflexivity |].
          split; [discriminate |].
          intros e' He'. inversion He'. subst e'. right. right.
          destruct (typing_value_raises _ _ _ Htyping)
            as [text [out [-> [Hout [Hp Hclass]]]]].
          exists turn, dream, text, out. rewrite Hai. auto. }
  destruct (str_eqb (Journal.strip line) (u "2")) eqn:H2.
  { (* choice 2 *)
    destruct (pause_goes_on key turn rest file)
      as [skipped [rest' [pressed [Hrest [Hpressed Hpause]]]]].
    unfold loop in Hpause.
    exists (line :: skipped), rest',
      (map Ui (Journal.view_journal (on_read w turn) file) ++ pressed),
      None, file.
    split; [simpl; rewrite Hrest; reflexivity |].
    split; [discriminate |].
    split.
    { intros Hnet. exfalso. apply Hnet.
      rewrite OracleTheory.net_events_app, OracleTheory.net_events_ui.
      exact Hpressed. }
    split; [congruence |].
    rewrite Hpause, prepend_prepend, <- Hmenu, <- !app_assoc. reflexivity. }
  destruct (str_eqb (Journal.strip line) (u "3")) eqn:H3.
  { (* choice 3 *)
    destruct file as [content |].
    - destruct rest as [| answer rest1].
      + exists [line], [], [asked Journal.clear_prompt],
          (Some (Raised EOFError)), (Some content).
        split; [reflexivity |].
        split; [discriminate |].
        split; [intros Hnet; exfalso; apply Hnet; reflexivity |].
        split; [congruence |].
        split; [rewrite Hmenu; reflexivity |].
        split; [discriminate |].
        intros e He. inversion He. apply turn_exceptions_eof.
      + pose proof (clear_journal_changed answer (on_remove w turn)
                      (Some content)) as Hchanged.
        pose proof (net_events_clear answer (on_remove w turn)
                      (Some content)) as Hquiet.
        destruct (Journal.clear_journal lower answer (on_remove w turn)
                    (Some content)) as [out file'].
        cbn [fst snd] in Hchanged, Hquiet.
        destruct (pause_goes_on key turn rest1 file')
          as [skipped [rest' [pressed [Hrest [Hpressed Hpause]]]]].
        unfold loop in Hpause.
        exists (line :: answer :: skipped), rest', (map Ui out ++ pressed),
          None, file'.
        split; [simpl; rewrite Hrest; reflexivity |].
        split; [discriminate |].
        split.
        { intros Hnet. exfalso. apply Hnet.
          rewrite OracleTheory.net_events_app, Hquiet. exact Hpressed. }
        split; [intros Hne; exists answer; simpl; auto |].
        rewrite Hpause, prepend_prepend, <- Hmenu, <- !app_assoc.
        reflexivity.
    - destruct (pause_goes_on key turn rest None)
        as [skipped [rest' [pressed [Hrest [Hpressed Hpause]]]]].
      unfold loop in Hpause.
      exists (line :: skipped), rest',
        (map Ui (fst (Journal.clear_journal lower [] (on_remove w turn) None))
           ++ pressed),
        None, None.
      split; [simpl; rewrite Hrest; reflexivity |].
      split; [discriminate |].
      split.
      { intros Hnet. exfalso. apply Hnet.
        rewrite OracleTheory.net_events_app, net_events_clear.
        exact Hpressed. }
      split; [congruence |].
      rewrite Hpause, prepend_prepend, <- Hmenu, <- !app_assoc.
      reflexivity. }
  destruct (str_eqb (Journal.strip line) (u "4")) eqn:H4.
  { (* choice 4 *)
    apply JournalTheory.str_eqb_eq in H4.
    exists [line], rest, (typing FAREWELL (3 # 100)%Q Colors.MAGENTA),
      (Some (Returned tt)), file.
    split; [reflexivity |].
    split; [discriminate |].
    split.
    { intros Hnet. exfalso. apply Hnet. apply net_events_typing. }
    split; [congruence |].
    split; [rewrite Hmenu; reflexivity |].
    split; [intros _; exact H4 | discriminate]. }
  (* any other choice *)
  destruct (pause_goes_on key turn rest file)
    as [skipped [rest' [pressed [Hrest [Hpressed Hpause]]]]].
  unfold loop in Hpause.
  exists (line :: skipped), rest', ([printed MSG_INVALID] ++ pressed), None,
    file.
  split; [simpl; rewrite Hrest; reflexivity |].
  split; [discriminate |].
  split; [intros Hnet; exfalso; apply Hnet; exact Hpressed |].
  split; [congruence |].
  rewrite Hpause, prepend_prepend, <- Hmenu, <- !app_assoc. reflexivity.
Qed.

Lemma loop_nil (key : str) (turn : nat) (file : Journal.journal) :
  loop key turn [] file =
    (menu_lines ++ [asked menu_prompt], Raised EOFError, file).
Proof. reflexivity. Qed.

Lemma shorter (consumed rest' : list str) (line : str) (rest : list str)
    (n : nat) :
  line :: rest = consumed ++ rest' -> consumed <> [] ->
  length (line :: rest) <= S n -> length rest' <= n.
Proof.
  intros Hsplit Hne Hlen. rewrite Hsplit, length_app in Hlen.
  destruct consumed; [contradiction | simpl in Hlen; lia].
Qed.

Lemma in_rest (consumed rest' : list str) (line l : str) (rest : list str) :
  line :: rest = consumed ++ rest' -> In l rest' -> In l (line :: rest).
Proof.
  intros -> H. apply in_or_app. right. exact H.
Qed.

(** The loop ends normally only in a turn whose choice, read at the
    menu, is 4. *)
Lemma loop_returns (key : str) (inputs : list str) :
  forall turn file,
    ended (loop key turn inputs file) = Returned tt ->
    exists before line after,
      events (loop key turn inputs file) =
        before ++ asked menu_prompt :: entered line :: after /\
      In line inputs /\ Journal.strip line = u "4".
Proof.
  remember (length inputs) as n eqn:Hn.
  assert (Hlen : length inputs <= n) by lia. clear Hn.
  revert inputs Hlen. induction n as [| n IH]; intros inputs Hlen turn file.
  - destruct inputs; [| simpl in Hlen; lia]. rewrite loop_nil. discriminate.
  - destruct inputs as [| line rest]; [rewrite loop_nil; discriminate |].
    destruct (one_turn key turn line rest file)
      as [consumed [rest' [tail [res [file' [Hsplit [Hne [_ [_ Hres]]]]]]]]].
    destruct res as [r |].
    + destruct Hres as [-> [Hret _]]. unfold ended, events. cbn [fst snd].
      intros Hr. exists menu_lines, line, tail.
      split; [reflexivity |].
      split; [left; reflexivity | exact (Hret Hr)].
    + rewrite Hres, ended_prepend, events_prepend. intros Hr.
      destruct (IH rest' (shorter _ _ _ _ _ Hsplit Hne Hlen) _ _ Hr)
        as [before [l [after [-> [Hin Hl]]]]].
      exists ((menu_lines ++ asked menu_prompt :: entered line :: tail)
                ++ before), l, after.
      split; [apply app_assoc |].
      split; [exact (in_rest _ _ _ _ _ Hsplit Hin) | exact Hl].
Qed.


(** The loop calls [urlopen] only in a turn whose choice, read at the
    menu, is 1, and whose dream, read next, is not blank. *)
Lemma loop_urlopens (key : str) (inputs : list str) :
  forall turn file,
    net_events (events (loop key turn inputs file)) <> [] ->
    exists before line dream after,
      events (loop key turn inputs file) =
        before ++ asked menu_prompt :: entered line
          :: asked dream_prompt :: entered dream :: after /\
      In line inputs /\ In dream inputs /\
      Journal.strip line = u "1" /\ Journal.strip dream <> [].
Proof.
  remember (length inputs) as n eqn:Hn.
  assert (Hlen : length inputs <= n) by lia. clear Hn.
  revert inputs Hlen. induction n as [| n IH]; intros inputs Hlen turn file.
  - destruct inputs; [| simpl in Hlen; lia]. rewrite loop_nil.
    intros H. exfalso. apply H. reflexivity.
  - destruct inputs as [| line rest].
    { rewrite loop_nil. intros H. exfalso. apply H. reflexivity. }
    destruct (one_turn key turn line rest file)
      as [consumed [rest' [tail [res [file' [Hsplit [Hne [Hnet [_ Hres]]]]]]]]].
    assert (Hhere : net_events tail <> [] ->
              forall rest_of_events,
              exists before l dream after,
                (menu_lines ++ asked menu_prompt :: entered line :: tail)
                  ++ rest_of_events =
                before ++ asked menu_prompt :: entered l
                  :: asked dream_prompt :: entered dream :: after /\
                In l (line :: rest) /\ In dream (line :: rest) /\
                Journal.strip l = u "1" /\ Journal.strip dream <> []).
    { intros H more.
      destruct (Hnet H) as [dream [after [-> [Hin [Hline Hdream]]]]].
      exists menu_lines, line, dream, (after ++ more).
      split; [rewrite <- app_assoc; reflexivity |].
      split; [left; reflexivity |]. split; [right; exact Hin | auto]. }
    destruct res as [r |].
    + destruct Hres as [-> _]. unfold events. cbn [fst snd].
      rewrite net_events_menu. intros H.
      destruct (Hhere H []) as [before [l [dream [after [Heq Hrest]]]]].
      rewrite app_nil_r in Heq. exists before, l, dream, after. auto.
    + rewrite Hres, events_prepend, OracleTheory.net_events_app,
        net_events_menu.
      intros H.
      destruct (net_events tail) as [| ev evs] eqn:Htail.
      * destruct (IH rest' (shorter _ _ _ _ _ Hsplit Hne Hlen) _ _ H)
          as [before [l [dream [after [-> [Hin [Hind Hl]]]]]]].
        exists ((menu_lines ++ asked menu_prompt :: entered line :: tail)
                  ++ before), l, dream, after.
        split; [apply app_assoc |].
        split; [exact (in_rest _ _ _ _ _ Hsplit Hin) |].
        split; [exact (in_rest _ _ _ _ _ Hsplit Hind) | exact Hl].
      * apply Hhere. discriminate.
Qed.

(** The loop changes the journal file only after a ['y']. *)
Lemma loop_file (key : str) (inputs : list str) :
  forall turn file,
    left_file (loop key turn inputs file) <> file ->
    exists line, In line inputs /\ lower line = u "y".
Proof.
  remember (length inputs) as n eqn:Hn.
  assert (Hlen : length inputs <= n) by lia. clear Hn.
  revert inputs Hlen. induction n as [| n IH]; intros inputs Hlen turn file.
  - destruct inputs; [| simpl in Hlen; lia]. rewrite loop_nil.
    intros H. exfalso. apply H. reflexivity.
  - destruct inputs as [| line rest].
    { rewrite loop_nil. intros H. exfalso. apply H. reflexivity. }
    destruct (one_turn key turn line rest file)
      as [consumed [rest' [tail [res [file' [Hsplit [Hne [_ [Hfile Hres]]]]]]]]].
    assert (Hconsumed : file' <> file ->
              exists l, In l (line :: rest) /\ lower l = u "y").
    { intros H. destruct (Hfile H) as [l [Hin Hl]]. exists l.
      split; [| exact Hl]. rewrite Hsplit. apply in_or_app. left. exact Hin. }
    destruct res as [r |].
    + destruct Hres as [-> _]. unfold left_file. cbn [snd]. exact Hconsumed.
    + rewrite Hres, left_file_prepend. intros H.
      destruct (Journal_eq_dec file' file) as [Heq | Hneq];
        [| exact (Hconsumed Hneq)].
      subst file'.
      destruct (IH rest' (shorter _ _ _ _ _ Hsplit Hne Hlen) _ _ H)
        as [l [Hin Hl]].
      exists l. split; [| exact Hl].
      rewrite Hsplit. apply in_or_app. right. exact Hin.
Qed.

End Library.

Lemma api_key_is_never_empty_witness :
  u "secret" <> [].
Proof.
  apply (api_key_is_never_empty Journal.lower_ascii None
           [[]; u "  secret "; u "4"] [u "4"]
           [printed (Colors.YELLOW
                       ++ u "GEMINI_API_KEY environment variable not found."
                       ++ Colors.ENDC);
            asked key_prompt;
            entered [];
            printed (Colors.RED ++ u "API Key cannot be empty." ++ Colors.ENDC);
            asked key_prompt;
            entered (u "  secret ")]
           (u "secret")).
  reflexivity.
Defined.


(** ** The whole session *)

Section Whole.

Variable json_loads : str -> result pyval.
Variable repr : pyval -> str.
Variable lower : str -> str.
Variable w : world.

Lemma ask_api_key_shape (inputs rest : list str) (out : list event)
    (r : result (option str)) :
  ask_api_key lower inputs = (out, r, rest) ->
  net_events out = [] /\ exists consumed, inputs = consumed ++ rest.
Proof.
  revert out r rest. induction inputs as [| line inputs IH]; intros out r rest.
  - simpl. intros H. inversion H. split; [reflexivity | exists []; reflexivity].
  - simpl.
    destruct (str_eqb (lower (Journal.strip line)) (u "q")).
    { intros H. inversion H. subst.
      split; [reflexivity | exists [line]; reflexivity]. }
    destruct (Journal.strip line).
    + destruct (ask_api_key lower inputs) as [[out' r'] rest'].
      intros H. inversion H. subst.
      destruct (IH _ _ _ eq_refl) as [Hnet [consumed Hc]].
      split; [exact Hnet |]. exists (line :: consumed). simpl.
      rewrite <- Hc. reflexivity.
    + intros H. inversion H. subst.
      split; [reflexivity | exists [line]; reflexivity].
Qed.

Lemma get_api_key_shape (environment : option str) (inputs rest : list str)
    (out : list event) (r : result (option str)) :
  get_api_key lower environment inputs = (out, r, rest) ->
  net_events out = [] /\
  (exists consumed, inputs = consumed ++ rest) /\
  (r = Returned None ->
   no_key environment /\
   exists before line,
     out = before ++ [asked key_prompt; entered line] /\
     In line inputs /\ lower (Journal.strip line) = u "q") /\
  (forall e, r = Raised e -> e = EOFError).
Proof.
  unfold get_api_key.
  assert (Hask : forall out' r' rest' first,
            ask_api_key lower inputs = (out', r', rest') ->
            no_key environment ->
            net_events (printed first :: out') = [] /\
            (exists consumed, inputs = consumed ++ rest') /\
            (r' = Returned None ->
             no_key environment /\
             exists before line,
               printed first :: out' =
                 before ++ [asked key_prompt; entered line] /\
               In line inputs /\ lower (Journal.strip line) = u "q") /\
            (forall e, r' = Raised e -> e = EOFError)).
  { intros out' r' rest' first H Hno.
    destruct (ask_api_key_shape _ _ _ _ H) as [Hnet Hc].
    destruct (ask_api_key_other lower _ _ _ _ H) as [_ Hraise].
    split; [exact Hnet |]. split; [exact Hc |]. split.
    - intros ->. split; [exact Hno |].
      destruct (ask_api_key_quit lower _ _ _ H) as [before [l [-> Hl]]].
      exists (printed first :: before), l. split; [reflexivity | exact Hl].
    - intros e He. apply (Hraise e He). }
  destruct environment as [[| c k] |].
  - destruct (ask_api_key lower inputs) as [[out' r'] rest'] eqn:H.
    intros Heq. inversion Heq. subst.
    apply (Hask _ _ _ _ eq_refl). right. reflexivity.
  - intros Heq. inversion Heq. subst.
    split; [reflexivity |]. split; [exists []; reflexivity |].
    split; discriminate.
  - destruct (ask_api_key lower inputs) as [[out' r'] rest'] eqn:H.
    intros Heq. inversion Heq. subst.
    apply (Hask _ _ _ _ eq_refl). left. reflexivity.
Qed.

(** X22.  A session ends normally only in two ways.  Either a line was
    read at the menu prompt and is the choice 4.  Or the environment
    gave no key, and the last line read, at the prompt for the key, is
    ['q'] in lower case once stripped; the session then says that no
    key was provided and stops before any menu. *)
Theorem session_ends_by_exit_or_quit (inputs : list str)
    (file : Journal.journal) :
  let session := main json_loads repr lower w inputs file in
  ended session = Returned tt ->
  (exists before line after,
     events session = before ++ asked menu_prompt :: entered line :: after /\
     In line inputs /\ Journal.strip line = u "4") \/
  (no_key (getenv w) /\
   exists before line,
     events session =
       before ++ [asked key_prompt; entered line; printed MSG_NO_KEY] /\
     In line inputs /\ lower (Journal.strip line) = u "q").
Proof.
  intros session. subst session. unfold main.
  destruct (get_api_key lower (getenv w) inputs) as [[out r] rest] eqn:Hkey.
  destruct (get_api_key_shape _ _ _ _ _ Hkey)
    as [_ [[consumed Hc] [Hnone _]]].
  destruct r as [[key |] | e].
  - rewrite ended_prepend, events_prepend. intros H. left.
    destruct (loop_returns json_loads repr lower w key rest 0 file H)
      as [before [line [after [-> [Hin Hline]]]]].
    exists ((typing WELCOME (4 # 100) Colors.MAGENTA ++ out) ++ before),
      line, after.
    split; [apply app_assoc |].
    split; [| exact Hline].
    rewrite Hc. apply in_or_app. right. exact Hin.
  - intros _. right.
    destruct (Hnone eq_refl) as [Hno [before [line [-> [Hin Hline]]]]].
    split; [exact Hno |].
    exists (typing WELCOME (4 # 100) Colors.MAGENTA ++ before), line.
    split; [| auto].
    unfold events. cbn [fst]. rewrite <- !app_assoc. reflexivity.
  - discriminate.
Qed.


(** X24.  A session calls the API only in a turn of the menu loop in
    which the line read at the menu prompt is the choice 1 and the
    line read next, at the prompt for the dream, is not blank: without
    such a turn, [urlopen] is never called. *)
Theorem api_is_called_only_on_choice_1 (inputs : list str)
    (file : Journal.journal) :
  let session := main json_loads repr lower w inputs file in
  urlopens (events session) <> [] ->
  exists before line dream after,
    events session =
      before ++ asked menu_prompt :: entered line
        :: asked dream_prompt :: entered dream :: after /\
    In line inputs /\ In dream inputs /\
    Journal.strip line = u "1" /\ Journal.strip dream <> [].
Proof.
  intros session. subst session. unfold urlopens, main.
  destruct (get_api_key lower (getenv w) inputs) as [[out r] rest] eqn:Hkey.
  destruct (get_api_key_shape _ _ _ _ _ Hkey) as [Hnet [[consumed Hc] _]].
  assert (Hwelcome : forall tail,
            net_events (typing WELCOME (4 # 100)%Q Colors.MAGENTA ++ out ++ tail)
            = net_events tail).
  { intros tail.
    rewrite !OracleTheory.net_events_app, net_events_typing, Hnet.
    reflexivity. }
  destruct r as [[key |] | e].
  - rewrite events_prepend, <- app_assoc, Hwelcome. intros H.
    assert (Hloop : net_events
                      (events (main_loop json_loads repr lower w key 0 rest file))
                    <> []).
    { intros Hnil. apply H. rewrite Hnil. reflexivity. }
    destruct (loop_urlopens json_loads repr lower w key rest 0 file Hloop)
      as [before [line [dream [after [-> [Hin [Hind Hline]]]]]]].
    exists (typing WELCOME (4 # 100) Colors.MAGENTA ++ out ++ before),
      line, dream, after.
    split; [rewrite <- !app_assoc; reflexivity |].
    split; [rewrite Hc; apply in_or_app; right; exact Hin |].
    split; [rewrite Hc; apply in_or_app; right; exact Hind | exact Hline].
  - unfold events. cbn [fst]. rewrite Hwelcome. intros H. exfalso.
    apply H. reflexivity.
  - unfold events. cbn [fst].
    rewrite <- (app_nil_r out), Hwelcome. intros H. exfalso.
    apply H. reflexivity.
Qed.

(** X25.  A session changes the journal file only if some line typed is
    ['y'] in lower case: without one, the file is at the end what it
    was at the start, whatever the network and the file system do. *)
Theorem journal_changes_only_after_a_yes (inputs : list str)
    (file : Journal.journal) :
  left_file (main json_loads repr lower w inputs file) <> file ->
  exists line, In line inputs /\ lower line = u "y".
Proof.
  unfold main.
  destruct (get_api_key lower (getenv w) inputs) as [[out r] rest] eqn:Hkey.
  destruct (get_api_key_shape _ _ _ _ _ Hkey) as [_ [[consumed Hc] _]].
  destruct r as [[key |] | e].
  - rewrite left_file_prepend. intros H.
    destruct (loop_file json_loads repr lower w key rest 0 file H)
      as [line [Hin Hline]].
    exists line. split; [| exact Hline].
    rewrite Hc. apply in_or_app. right. exact Hin.
  - unfold left_file. cbn [snd]. congruence.
  - unfold left_file. cbn [snd]. congruence.
Qed.

(** X26.  The choice 1, a dream that is not blank, an interpretation
    that is not a string, and ['y'] to the question about the journal:
    [save_dream] raises [AttributeError] out of [main], and the journal
    file is not touched. *)
Theorem saving_a_non_string_ends_the_session (key line dream answer : str)
    (rest : list str) (turn : nat) (file : Journal.journal) :
  Journal.strip line = u "1" ->
  Journal.strip dream <> [] ->
  (forall text,
     snd (get_ai_interpretation json_loads repr (network w turn) dream key)
       <> PStr text) ->
  lower answer = u "y" ->
  let session :=
    main_loop json_loads repr lower w key turn
      (line :: dream :: answer :: rest) file in
  ended session =
    Raised (AttributeError
              (u "'"
                 ++ type_name
                      (snd (get_ai_interpretation json_loads repr
                              (network w turn) dream key))
                 ++ u "' object has no attribute 'replace'")) /\
  left_file session = file.
Proof.
  intros Hline Hdream Hnot Hyes session. subst session.
  cbn [main_loop].
  apply JournalTheory.str_eqb_eq in Hline. rewrite Hline.
  destruct (Journal.strip dream) as [| c d]; [contradiction |].
  destruct (get_ai_interpretation json_loads repr (network w turn) dream key)
    as [heard interpretation].
  cbn [snd] in *.
  apply JournalTheory.str_eqb_eq in Hyes. rewrite Hyes.
  destruct interpretation; try (split; reflexivity).
  exfalso. apply (Hnot s). reflexivity.
Qed.

(** X27.  A vision that is saved is in the journal when the session
    ends: the choice 1, a dream that is not blank, an interpretation
    that is a string, ['y'], a line for the pause, the choice 4, with a
    write that succeeds.  When standard output can encode the
    interpretation, the session ends normally and the file is the text
    it had followed by the entry of that dream.  When it cannot (and
    the text could not be written as UTF-8 either), the session does
    not get as far as the question: [typing_effect] raises
    [UnicodeEncodeError] out of [main], and the file is not touched. *)
Theorem saved_vision_is_in_the_journal (key line dream answer enter exit : str)
    (text : str) (rest : list str) (turn : nat) (file : Journal.journal) :
  Journal.strip line = u "1" ->
  Journal.strip dream <> [] ->
  snd (get_ai_interpretation json_loads repr (network w turn) dream key)
    = PStr text ->
  lower answer = u "y" ->
  on_write w turn = Journal.Written ->
  Journal.strip exit = u "4" ->
  let session :=
    main_loop json_loads repr lower w key turn
      (line :: dream :: answer :: enter :: exit :: rest) file in
  (printable text = true ->
   ended session = Returned tt /\
   left_file session =
     Some (match file with Some content => content | None => [] end
           ++ Journal.entry (strftime w turn) (Journal.sanitize_text dream)
                (Journal.sanitize_text text))) /\
  (printable text = false ->
   (exists e,
      ended session = Raised e /\ exc_class e = u "UnicodeEncodeError") /\
   left_file session = file).
Proof.
  intros Hline Hdream Htext Hyes Hwrite Hexit session.
  subst session.
  cbn [main_loop].
  apply JournalTheory.str_eqb_eq in Hline. rewrite Hline.
  destruct (Journal.strip dream) as [| c d]; [contradiction |].
  destruct (get_ai_interpretation json_loads repr (network w turn) dream key)
    as [heard interpretation].
  cbn [snd] in Htext. subst interpretation.
  cbn [typing_value].
  split; intros Hprintable.
  - rewrite (JournalTheory.typing_effect_printable text (2 # 100) Colors.CYAN
               eq_refl Hprintable).
    apply JournalTheory.str_eqb_eq in Hyes. rewrite Hyes.
    cbn [save_dream_of]. rewrite Hwrite.
    pose proof (JournalTheory.save_dream_appends (strftime w turn) dream text
                  file) as Hsaved.
    destruct (Journal.save_dream (strftime w turn) Journal.Written dream text
                file) as [saved file'].
    cbn [snd] in Hsaved. subst file'.
    cbn [press_enter].
    rewrite !ended_prepend, !left_file_prepend.
    cbn [main_loop].
    assert (H1 : str_eqb (Journal.strip exit) (u "1") = false)
      by (rewrite Hexit; reflexivity).
    assert (H2 : str_eqb (Journal.strip exit) (u "2") = false)
      by (rewrite Hexit; reflexivity).
    assert (H3 : str_eqb (Journal.strip exit) (u "3") = false)
      by (rewrite Hexit; reflexivity).
    assert (H4 : str_eqb (Journal.strip exit) (u "4") = true)
      by (rewrite Hexit; reflexivity).
    rewrite H1, H2, H3, H4. split; reflexivity.
  - destruct (JournalTheory.typing_effect_unprintable text (2 # 100)
                Colors.CYAN eq_refl Hprintable) as [out [e [-> Hclass]]].
    split; [| reflexivity].
    exists e. split; [reflexivity | exact Hclass].
Qed.

End Whole.

Lemma session_ends_by_exit_or_quit_witness :
  let session :=
    main json_loads_two Interpreter.repr_type Journal.lower_ascii
      (sample_world (u "ocean")) [u "secret"; u " 4 "] None in
  (exists before line after,
     events session = before ++ asked menu_prompt :: entered line :: after /\
     In line [u "secret"; u " 4 "] /\ Journal.strip line = u "4") \/
  (no_key None /\
   exists before line,
     events session =
       before ++ [asked key_prompt; entered line; printed MSG_NO_KEY] /\
     In line [u "secret"; u " 4 "] /\
     Journal.lower_ascii (Journal.strip line) = u "q").
Proof.
  apply (session_ends_by_exit_or_quit json_loads_two Interpreter.repr_type
           Journal.lower_ascii (sample_world (u "ocean"))
           [u "secret"; u " 4 "] None).
  vm_compute. reflexivity.
Defined.


Lemma api_is_called_only_on_choice_1_witness :
  let session :=
    main json_loads_two Interpreter.repr_type Journal.lower_ascii
      (sample_world (u "ocean")) [u "secret"; u "1"; u "I was flying"] None in
  exists before line dream after,
    events session =
      before ++ asked menu_prompt :: entered line
        :: asked dream_prompt :: entered dream :: after /\
    In line [u "secret"; u "1"; u "I was flying"] /\
    In dream [u "secret"; u "1"; u "I was flying"] /\
    Journal.strip line = u "1" /\ Journal.strip dream <> [].
Proof.
  apply (api_is_called_only_on_choice_1 json_loads_two Interpreter.repr_type
           Journal.lower_ascii (sample_world (u "ocean"))
           [u "secret"; u "1"; u "I was flying"] None).
  vm_compute. discriminate.
Defined.

Lemma journal_changes_only_after_a_yes_witness :
  exists line,
    In line [u "secret"; u "1"; u "I was flying"; u "Y"; []; u "4"] /\
    Journal.lower_ascii line = u "y".
Proof.
  apply (journal_changes_only_after_a_yes json_loads_two Interpreter.repr_type
           Journal.lower_ascii (sample_world (u "ocean"))
           [u "secret"; u "1"; u "I was flying"; u "Y"; []; u "4"] None).
  vm_compute. discriminate.
Defined.

Lemma saving_a_non_string_ends_the_session_witness :
  ended (main_loop json_loads_two Interpreter.repr_type Journal.lower_ascii
           (sample_world (u "number")) (u "secret") 0
           [u "1"; u "I was flying"; u "y"] None) =
    Raised (AttributeError (u "'int' object has no attribute 'replace'")).
Proof.
  apply (saving_a_non_string_ends_the_session json_loads_two
           Interpreter.repr_type Journal.lower_ascii
           (sample_world (u "number")) (u "secret") (u "1")
           (u "I was flying") (u "y") [] 0 None).
  - reflexivity.
  - discriminate.
  - intros text. vm_compute. discriminate.
  - reflexivity.
Defined.

Lemma saved_vision_is_in_the_journal_witness :
  left_file
    (main_loop json_loads_two Interpreter.repr_type Journal.lower_ascii
       (sample_world (u "ocean")) (u "secret") 0
       [u "1"; u "  I was flying over an ocean "; u "y"; []; u "4"] None) =
    Some (Journal.entry (u "2024-05-01 07:30:00")
            (u "I was flying over an ocean") Interpreter.OCEAN) /\
  left_file
    (main_loop json_loads_surrogate Interpreter.repr_type Journal.lower_ascii
       (sample_world (u "torn")) (u "secret") 0
       [u "1"; u "  I was flying over an ocean "; u "y"; []; u "4"] None) =
    None.
Proof.
  split.
  - apply (proj1 (saved_vision_is_in_the_journal json_loads_two
                    Interpreter.repr_type Journal.lower_ascii
                    (sample_world (u "ocean")) (u "secret") (u "1")
                    (u "  I was flying over an ocean ") (u "y") [] (u "4")
                    Interpreter.OCEAN [] 0 None
                    eq_refl ltac:(discriminate) eq_refl eq_refl eq_refl
                    eq_refl)
             eq_refl).
  - apply (proj2 (saved_vision_is_in_the_journal json_loads_surrogate
                    Interpreter.repr_type Journal.lower_ascii
                    (sample_world (u "torn")) (u "secret") (u "1")
                    (u "  I was flying over an ocean ") (u "y") [] (u "4")
                    (u "The ocean" ++ Interpreter.LONE_SURROGATE) [] 0 None
                    eq_refl ltac:(discriminate) eq_refl eq_refl eq_refl
                    eq_refl)
             eq_refl).
Defined.

End SessionTheory.
